(** * Three Whys assessor: the deterministic fallback scorer and the
      method guard of the HTTP endpoint.

    The development embeds [fallbackEvaluate] and the request handlers of
    [api/evaluate.js] (the most complete snapshot, with the 1..5 scale and
    the 2.0/3.0/4.0/5.0 band thresholds, and the edge-runtime snapshot) and
    proves the properties the specification states about them.

    JavaScript strings are sequences of UTF-16 code units; dynamic typing is
    kept through a small value type and an error monad for [TypeError]. *)

From Stdlib Require Import List NArith ZArith QArith Qround Ascii String
  Qabs DecimalString Bool Lia Lqa.
Import ListNotations.

Local Open Scope Z_scope.

(* ===================================================================== *)
(** ** JavaScript strings *)
(* ===================================================================== *)

Module JsString.

(** A string is its list of UTF-16 code units. *)
Definition jsstring := list N.

Fixpoint bytes_of (s : string) : list N :=
  match s with
  | EmptyString => []
  | String c r => N_of_ascii c :: bytes_of r
  end.

(** The source file is UTF-8; a literal of the source denotes the code
    units of the decoded text. *)
Fixpoint utf8_decode (bs : list N) : jsstring :=
  match bs with
  | [] => []
  | b :: r =>
      if (b <? 128)%N then b :: utf8_decode r
      else if (b <? 224)%N then
        match r with
        | b2 :: r2 => ((b - 192) * 64 + (b2 - 128))%N :: utf8_decode r2
        | _ => []
        end
      else if (b <? 240)%N then
        match r with
        | b2 :: b3 :: r3 =>
            ((b - 224) * 4096 + (b2 - 128) * 64 + (b3 - 128))%N :: utf8_decode r3
        | _ => []
        end
      else
        match r with
        | b2 :: b3 :: b4 :: r4 =>
            let cp := ((b - 240) * 262144 + (b2 - 128) * 4096
                       + (b3 - 128) * 64 + (b4 - 128) - 65536)%N in
            (55296 + cp / 1024)%N :: (56320 + cp mod 1024)%N :: utf8_decode r4
        | _ => []
        end
  end.

Definition lit (s : string) : jsstring := utf8_decode (bytes_of s).

Fixpoint eqb (s t : jsstring) : bool :=
  match s, t with
  | [], [] => true
  | c :: s', d :: t' => (c =? d)%N && eqb s' t'
  | _, _ => false
  end.

(** ToBoolean of a string: the empty string is falsy. *)
Definition nonEmpty (s : jsstring) : bool :=
  match s with [] => false | _ => true end.

(** WhiteSpace and LineTerminator code units: what [trim] strips and what
    the class [\s] matches. *)
Definition isWhiteSpace (c : N) : bool :=
  existsb (N.eqb c)
    [9; 10; 11; 12; 13; 32; 160; 5760; 8232; 8233; 8239; 8287; 12288; 65279]%N
  || ((8192 <=? c) && (c <=? 8202))%N.

Fixpoint trimStart (s : jsstring) : jsstring :=
  match s with
  | [] => []
  | c :: r => if isWhiteSpace c then trimStart r else s
  end.

Definition trimEnd (s : jsstring) : jsstring := rev (trimStart (rev s)).

(** [String.prototype.trim] *)
Definition trim (s : jsstring) : jsstring := trimEnd (trimStart s).

(** [s.split(/\s+/)]: the pieces between the maximal runs of white space.
    [inSep] tells that the previous code unit belonged to a separator;
    [cur] is the piece being read.  A separator at either end of the
    string leaves an empty piece there, and the empty string yields one
    empty piece. *)
Fixpoint splitWs (inSep : bool) (cur : jsstring) (s : jsstring) : list jsstring :=
  match s with
  | [] => [cur]
  | c :: r =>
      if isWhiteSpace c
      then (if inSep then splitWs true cur r else cur :: splitWs true [] r)
      else splitWs false (cur ++ [c]) r
  end.

Definition split_ws (s : jsstring) : list jsstring := splitWs false [] s.

(** The class [[a-z0-9\s]] *)
Definition isLowerAlnumOrSpace (c : N) : bool :=
  ((97 <=? c) && (c <=? 122))%N || ((48 <=? c) && (c <=? 57))%N || isWhiteSpace c.

(** [s.replace(/[^a-z0-9\s]/g, '')] *)
Definition stripOthers (s : jsstring) : jsstring := filter isLowerAlnumOrSpace s.

Fixpoint startsWith (pat s : jsstring) : bool :=
  match pat, s with
  | [], _ => true
  | p :: pat', c :: s' => (p =? c)%N && startsWith pat' s'
  | _ :: _, [] => false
  end.

(** [String.prototype.includes]: [pat] occurs in [s] as a substring. *)
Fixpoint includes (s pat : jsstring) : bool :=
  startsWith pat s
  || match s with
     | [] => false
     | _ :: r => includes r pat
     end.

(** [Array.prototype.includes] on an array of strings *)
Definition arrayIncludes (xs : list jsstring) (s : jsstring) : bool :=
  existsb (eqb s) xs.

Definition isAscii (c : N) : bool := (c <? 128)%N.

Definition asciiLower (c : N) : N :=
  if ((65 <=? c) && (c <=? 90))%N then (c + 32)%N else c.

(** [String.prototype.toLowerCase] follows the Unicode case tables of the
    host; the scorer depends on it through this interface.  On a string of
    Basic Latin code units it lowers [A]..[Z] and keeps the rest. *)
Class Runtime := {
  toLowerCase : jsstring -> jsstring;
  toLowerCase_ascii :
    forall s, forallb isAscii s = true -> toLowerCase s = map asciiLower s
}.

(** A runtime that knows Basic Latin only. *)
Definition asciiRuntime : Runtime :=
  {| toLowerCase := map asciiLower;
     toLowerCase_ascii := fun s _ => eq_refl |}.

End JsString.

Import JsString.

(* ===================================================================== *)
(** ** Values, property access and exceptions *)
(* ===================================================================== *)

(** What [JSON.parse] can put in a request body, and [undefined] for a
    property that is not there.  An object is the list of its own
    properties; [lookup] reads the first binding of a key. *)
#[local] Unset Elimination Schemes.
Inductive jsval :=
| JUndefined
| JNull
| JBool (b : bool)
| JNumber (q : Q)
| JString (s : jsstring)
| JArray (xs : list jsval)
| JObject (fields : list (jsstring * jsval)).
#[local] Set Elimination Schemes.

(** ToBoolean *)
Definition truthy (v : jsval) : bool :=
  match v with
  | JUndefined | JNull => false
  | JBool b => b
  | JNumber q => negb (Qeq_bool q 0)
  | JString s => nonEmpty s
  | JArray _ | JObject _ => true
  end.

Inductive JsError := TypeError.

Inductive result (A : Type) :=
| Ok (a : A)
| Throw (e : JsError).

Arguments Ok {A} a.
Arguments Throw {A} e.

Definition bind {A B} (m : result A) (f : A -> result B) : result B :=
  match m with
  | Ok a => f a
  | Throw e => Throw e
  end.

Notation "x <- m ;; k" := (bind m (fun x => k))
  (at level 61, m at next level, right associativity).
Notation "' p <- m ;; k" := (bind m (fun x => match x with p => k end))
  (at level 61, p pattern, m at next level, right associativity).

Fixpoint lookup {A} (k : jsstring) (o : list (jsstring * A)) : option A :=
  match o with
  | [] => None
  | (k', v) :: o' => if JsString.eqb k k' then Some v else lookup k o'
  end.

(** [v[k]] and [v.k], for the keys the scorer reads ([q1]..[q6], [role]):
    reading a property of [undefined] or [null] throws; strings, numbers,
    booleans and arrays have no such property. *)
Definition getProp (v : jsval) (k : jsstring) : result jsval :=
  match v with
  | JUndefined | JNull => Throw TypeError
  | JObject fields =>
      Ok (match lookup k fields with Some x => x | None => JUndefined end)
  | _ => Ok JUndefined
  end.

(** [a || b] *)
Definition orElse (a b : jsval) : jsval := if truthy a then a else b.

(** [v.trim()]: only a string has the method. *)
Definition callTrim (v : jsval) : result jsstring :=
  match v with
  | JString s => Ok (trim s)
  | _ => Throw TypeError
  end.

(** [v.toLowerCase()] *)
Definition callToLowerCase {rt : Runtime} (v : jsval) : result jsstring :=
  match v with
  | JString s => Ok (toLowerCase s)
  | _ => Throw TypeError
  end.

(** [xs.forEach(f)] with the variables [f] assigns threaded as a state. *)
Fixpoint forEach {S A} (f : S -> A -> result S) (xs : list A) (s : S) : result S :=
  match xs with
  | [] => Ok s
  | x :: xs' => s' <- f s x ;; forEach f xs' s'
  end.

(* ===================================================================== *)
(** ** Numbers: [toFixed(1)] and [parseFloat] *)
(* ===================================================================== *)

(** [totalScore / categories.length] is taken as the exact quotient.  The
    quotient of an integer by six is at least one sixtieth away from every
    point where the rounding to one decimal changes ([toFixed1_stable]
    below), far more than the error of a double.  [parseFloat] is taken as
    the exact decimal it reads: the double nearest to a decimal lies on the
    same side of the integers 2, 3, 4 and 5 as the decimal, rounding to
    nearest being monotone and these integers being doubles. *)

Definition Qltb (x y : Q) : bool :=
  (Qnum x * Zpos (Qden y) <? Qnum y * Zpos (Qden x))%Z.

Definition decimal (n : Z) : jsstring :=
  lit (NilZero.string_of_uint (N.to_uint (Z.to_N n))).

(** The number [n] of tenths for which [n / 10 - x] is closest to zero, the
    larger one when two are as close ([x >= 0]). *)
Definition tenths (x : Q) : Z := Qfloor (x * 10 + (1 # 2))%Q.

(** [x.toFixed(1)], below the magnitude 1e21 where the exponent form starts. *)
Definition toFixed1 (x : Q) : jsstring :=
  let n := tenths (Qabs x) in
  (if Qltb x 0 then lit "-" else []) ++ decimal (n / 10) ++ lit "." ++ decimal (n mod 10).

Definition digitOf (c : N) : option Z :=
  if ((48 <=? c) && (c <=? 57))%N then Some (Z.of_N c - 48)%Z else None.

Fixpoint readDigits (s : jsstring) (acc : Z) (count : nat) : Z * nat * jsstring :=
  match s with
  | [] => (acc, count, [])
  | c :: r =>
      match digitOf c with
      | Some d => readDigits r (acc * 10 + d)%Z (S count)
      | None => (acc, count, s)
      end
  end.

(** [parseFloat] on decimal numerals without exponent (all that [toFixed]
    writes): leading white space, a sign, digits, a point, digits; what
    follows is ignored.  [None] is NaN. *)
Definition parseFloat (s : jsstring) : option Q :=
  let s0 := trimStart s in
  let '(neg, s1) :=
    match s0 with
    | 45%N :: r => (true, r)
    | 43%N :: r => (false, r)
    | _ => (false, s0)
    end in
  let '(ip, ni, s2) := readDigits s1 0%Z 0%nat in
  let '(num, nf) :=
    match s2 with
    | 46%N :: r => let '(v, n, _) := readDigits r ip 0%nat in (v, n)
    | _ => (ip, 0%nat)
    end in
  if Nat.eqb (ni + nf) 0 then None
  else Some ((if neg then - num else num)%Z # Z.to_pos (10 ^ Z.of_nat nf)).

(** [x < c] on numbers: false when [x] is NaN. *)
Definition ltNum (x : option Q) (c : Q) : bool :=
  match x with
  | Some q => Qltb q c
  | None => false
  end.

(* ===================================================================== *)
(** ** The rubric: dimensions, levels and the static tables *)
(* ===================================================================== *)

Inductive Level := L_None | L_Emerging | L_Basic | L_Advanced | L_Leading.

(** The label the code stores in [level] and [band]. *)
Definition levelName (l : Level) : jsstring :=
  match l with
  | L_None => lit "None"
  | L_Emerging => lit "Emerging"
  | L_Basic => lit "Basic"
  | L_Advanced => lit "Advanced"
  | L_Leading => lit "Leading"
  end.

Definition allLevels : list Level :=
  [L_None; L_Emerging; L_Basic; L_Advanced; L_Leading].

(** The place of a level on the maturity scale, which is also its score. *)
Definition levelRank (l : Level) : Z :=
  match l with
  | L_None => 1
  | L_Emerging => 2
  | L_Basic => 3
  | L_Advanced => 4
  | L_Leading => 5
  end.

Record Category := { name : jsstring; key : jsstring }.

Definition categories : list Category :=
  [ {| name := lit "Why change"; key := lit "q1" |};
    {| name := lit "Why now"; key := lit "q2" |};
    {| name := lit "Why your company"; key := lit "q3" |};
    {| name := lit "Emotion–Logic"; key := lit "q4" |};
    {| name := lit "Buyer‑as‑hero"; key := lit "q5" |};
    {| name := lit "Clarity"; key := lit "q6" |} ].

Record Narrative := { why : jsstring; how : jsstring }.

Definition messageTemplates : list (jsstring * list (jsstring * Narrative)) :=
  [
   (lit "Why change",
    [
      (lit "None",
       {| why := lit "Your answer is missing or expresses uncertainty about the buyer or their pain. Without identifying who you serve and what problem they face, there is no foundation for explaining why a change is needed. This dimension remains unaddressed because there is nothing to evaluate.";
          how := lit "Start by researching your ideal buyer and documenting their top pain points. Talk to customers to uncover the emotional drivers behind the problem and quantify its impact. Use those insights to craft a clear statement about why the status quo is unacceptable and change is necessary." |});
      (lit "Emerging",
       {| why := lit "You hint at a buyer or problem, but the connection is shallow. You don’t describe the person, the context or the consequences of the pain. As a result, readers cannot understand why this issue matters or why your buyer should pay attention.";
          how := lit "Clarify who your buyer is and describe their pain in vivid detail. Explain how the problem affects their goals and well‑being. Use anecdotes or data to show the scale of the pain and why it cannot be ignored. This will strengthen your case for change." |});
      (lit "Basic",
       {| why := lit "You identify the buyer and state a clear pain, but the description is surface‑level. It lacks depth about the emotional stakes or the quantifiable cost of the problem. Without deeper insight, it fails to inspire action or convey urgency.";
          how := lit "Deepen your explanation by highlighting the emotions driving the buyer’s pain and quantifying the cost of inaction. Add customer stories or industry statistics. Show empathy for the buyer’s struggle and connect the pain to concrete business outcomes to motivate change." |});
      (lit "Advanced",
       {| why := lit "You articulate the buyer and their pain with a good balance of storytelling and data. However, the answer could benefit from unique insights or broader industry context that underscores the problem’s significance. Without fresh perspectives, it might still feel generic.";
          how := lit "Enrich your narrative with proprietary research or market trends that show why the pain persists. Connect the buyer’s frustration to larger industry shifts and emphasise why existing solutions fall short. Position your insight as uniquely suited to address these deeper challenges." |});
      (lit "Leading",
       {| why := lit "Your description of the buyer’s pain is comprehensive and compelling. It seamlessly blends empathy with quantifiable evidence, making a persuasive case for change. You demonstrate deep understanding of the buyer’s world and why the current situation cannot stand.";
          how := lit "Continue to refine your insights by gathering ongoing feedback from buyers. Share new stories and data to keep your narrative fresh. Ensure all internal teams align on this message and adapt it as your market evolves, reinforcing your leadership position." |})
    ]);
   (lit "Why now",
    [
      (lit "None",
       {| why := lit "You did not identify any trigger or sense of urgency. Without specifying what makes this issue critical in the next months, there is no reason to prioritise it. The urgency dimension cannot be scored without context.";
          how := lit "Look for specific triggers that make acting in the next three to six months essential. These could be competitive threats, regulatory deadlines, market trends or budget cycles. Explain how waiting would hurt the buyer and quantify the implications of delay." |});
      (lit "Emerging",
       {| why := lit "You suggest a reason to act now, but the explanation lacks depth and connection to the buyer’s business. The urgency feels generic and does not convey why action within the next months is critical.";
          how := lit "Describe the catalyst that makes this issue urgent and tie it to tangible consequences. Use stories or data showing the impact of recent market changes or upcoming deadlines. Highlight what happens if action is delayed beyond a three‑to‑six‑month window." |});
      (lit "Basic",
       {| why := lit "You provide a reason to act now, but it lacks evidence or emotional resonance. The trigger is stated but not fully explored or linked to the buyer’s pain. As a result, the sense of urgency remains moderate.";
          how := lit "Strengthen the urgency by quantifying the costs of delay and linking the trigger to milestones in the buyer’s world—such as budget cycles, strategic reviews or industry shifts. Show how acting now will provide a competitive advantage while procrastination leads to risk." |});
      (lit "Advanced",
       {| why := lit "You clearly explain the triggers and urgency, combining emotional and logical elements. However, the narrative may still rely on common examples. Adding proprietary data or visionary insights could make the urgency more distinctive.";
          how := lit "Provide specific statistics or case studies showing the benefits of acting promptly and the risks of waiting. Connect the urgency to broader industry shifts and illustrate your foresight in anticipating these changes. Make the argument for immediate action feel inevitable." |});
      (lit "Leading",
       {| why := lit "Your urgency narrative is compelling and credible. It integrates internal pressures and external market forces, backed by data and emotional resonance. The reader clearly understands the cost of inaction and the need to move quickly.";
          how := lit "Keep your urgency story current by monitoring new market signals and buyer priorities. Update your narrative with fresh insights and align stakeholders around the timeline. Use your foresight to predict emerging trends and maintain urgency at the forefront of discussions." |})
    ]);
   (lit "Why your company",
    [
      (lit "None",
       {| why := lit "You provide no explanation of why your company is uniquely qualified. Without differentiators or proof, there is nothing to evaluate. This dimension is left unanswered.";
          how := lit "Identify two or three qualities that set your company apart, such as expertise, technology or methodology. Provide a proof point—like a customer testimonial or performance statistic—that validates each differentiator. This will begin to establish credibility." |});
      (lit "Emerging",
       {| why := lit "You mention a differentiator but fail to show how it connects to the buyer’s problem. There is no evidence or context, making the claim feel generic. Your credibility remains unestablished.";
          how := lit "Relate your differentiators to the buyer’s pain. Explain why they matter and how they uniquely address the problem. Support your claims with proof, such as case studies, awards or metrics. Focus on the buyer’s perspective rather than internal achievements." |});
      (lit "Basic",
       {| why := lit "You list differentiators and a proof point, but you don’t explain why they matter to the buyer. The narrative feels like a checklist rather than a tailored argument. The buyer may still question your relevance.";
          how := lit "Translate each differentiator into a buyer benefit. Describe how your track record with similar customers demonstrates your ability to solve their problem. Highlight your purpose or mission and why it aligns with the buyer’s values or ambitions." |});
      (lit "Advanced",
       {| why := lit "You explain why your company is the right partner with a balance of differentiators and evidence. However, the narrative could include more unique insights or emotional appeal to stand out from competitors.";
          how := lit "Deepen your story by sharing your company’s origin, mission and vision, and showing how they resonate with the buyer’s ambitions. Introduce thought leadership or innovative practices that prove your commitment to solving the problem in a unique way." |});
      (lit "Leading",
       {| why := lit "You deliver a compelling and inspiring explanation of why your company is uniquely suited to help. Differentiators are clear, proof is strong and the story resonates emotionally. You establish trust and excitement.";
          how := lit "Maintain your edge by continuously innovating and refining your differentiators. Gather new customer success stories and third‑party validation. Stay true to your mission and show how your culture and values empower the buyer’s success." |})
    ]);
   (lit "Emotion–Logic",
    [
      (lit "None",
       {| why := lit "You provided no emotional hook or logical statement. Without a headline, there is no demonstration of your ability to lead with emotion and support with logic. This leaves us unable to assess this dimension.";
          how := lit "Develop a concise headline that evokes an emotion (fear, ambition, relief) while hinting at the change you enable. Follow it with a logical benefit or fact. Keep it short, inspiring and aligned with your buyer’s pain." |});
      (lit "Emerging",
       {| why := lit "Your headline is extremely brief or generic. It lacks emotional resonance and fails to connect to a logical benefit. As a result, it does not capture attention or convey your value proposition.";
          how := lit "Rewrite the headline to focus on the buyer’s emotions. Use vivid language that paints a picture of the desired change. Then add a logical element, such as a quantifiable outcome, to show the benefit of acting." |});
      (lit "Basic",
       {| why := lit "You produce a headline that hints at either emotion or logic, but not both. It shows some understanding of the need to hook and justify, yet the message feels unbalanced or uninspiring.";
          how := lit "Balance your headline by combining an emotional driver with a logical payoff. For example, start with a phrase that stirs fear or ambition and end with a measurable result. Test different versions and refine based on feedback." |});
      (lit "Advanced",
       {| why := lit "Your headline effectively blends emotion and logic, but it may rely on standard phrasing or lack unique flair. It is good but not yet memorable or distinctive.";
          how := lit "Add a distinctive element such as a surprising statistic, a play on words, or a narrative twist that makes your headline stand out. Ensure it aligns with your brand and resonates with your specific buyer segment." |});
      (lit "Leading",
       {| why := lit "Your headline is exceptional. It is short, memorable and conveys both the emotional journey and the logical benefit. It instantly communicates the transformation you offer and inspires immediate attention.";
          how := lit "Keep experimenting with creative expressions as your offerings evolve. Use A/B testing to optimise the phrasing for different contexts. Train your team to use this headline consistently and adapt it for various channels and audiences." |})
    ]);
   (lit "Buyer‑as‑hero",
    [
      (lit "None",
       {| why := lit "You did not quantify any outcomes or articulate assumptions, leaving no story about the buyer’s journey or success. Without numbers or context, the buyer’s hero’s journey is absent.";
          how := lit "Quantify at least two outcomes your solution delivers—such as time saved, revenue gained, or risks avoided. State the assumptions behind your numbers, like team size or baseline metrics. Frame your buyer as the hero whose success grows through these results." |});
      (lit "Emerging",
       {| why := lit "You mention outcomes but fail to provide numbers or tie them to the buyer’s story. The benefits feel abstract and the buyer does not see themselves in the narrative.";
          how := lit "Provide specific metrics that illustrate the impact of your solution. Explain how these improvements elevate the buyer’s status, performance or well‑being. Use transparent assumptions and show the before‑and‑after transformation." |});
      (lit "Basic",
       {| why := lit "You share some metrics but they are generic or disconnected from the buyer’s goals. The story does not clearly position the buyer as the hero achieving these results. It feels like a list of benefits rather than a personal journey.";
          how := lit "Relate each metric to the buyer’s objectives and responsibilities. Show how improved time, revenue or risk reduction makes the buyer more effective or respected. Provide context—such as current benchmarks—to demonstrate the significance of the gains." |});
      (lit "Advanced",
       {| why := lit "You present credible metrics and assumptions and begin to tell a story. However, the narrative could be more inspiring and specific. It may rely on general statistics rather than an evocative hero journey.";
          how := lit "Frame the buyer’s journey as overcoming a challenge with your solution. Use case studies or anecdotes to illustrate real customers achieving these outcomes. Make sure the story highlights personal growth and professional impact." |});
      (lit "Leading",
       {| why := lit "You create a powerful, data‑driven story that clearly shows the buyer as the hero. The metrics are meaningful and the narrative inspires confidence and pride. This sets a high bar for storytelling.";
          how := lit "Continue collecting success stories and updating your metrics. Tailor your narrative for different buyer personas so they can envision their own victory. Use multimedia assets like quotes or short videos to deepen the emotional connection." |})
    ]);
   (lit "Clarity",
    [
      (lit "None",
       {| why := lit "You did not provide a one‑sentence value proposition or indicated you do not have one. Without a concise statement of who you serve, the problem and the benefit, we cannot assess clarity. This dimension is unaddressed.";
          how := lit "Compose a clear, single sentence that names your buyer, states the problem you solve and describes the impact you deliver. Eliminate jargon and aim for simplicity. This sentence should be easy to remember and form the core of your messaging." |});
      (lit "Emerging",
       {| why := lit "Your value proposition is vague or incomplete. It may lack one or more of the essential elements: the buyer, the problem or the impact. It reads like a tagline and does not provide clarity.";
          how := lit "Rewrite your sentence to explicitly mention the audience, the pain and the benefit in plain language. Avoid buzzwords. Provide context or numbers to make the proposition feel real. This will sharpen the clarity and focus of your message." |});
      (lit "Basic",
       {| why := lit "You provide a value proposition that covers the basics but it is generic and fails to highlight what makes you unique. The wording may be formulaic or reliant on common phrases.";
          how := lit "Refine the sentence to emphasise your unique approach or differentiator. Use active voice and incorporate a hint of emotion. Ensure that it flows naturally and stands out from typical statements. Test it with customers to ensure it resonates." |});
      (lit "Advanced",
       {| why := lit "You craft a concise and distinctive value proposition that clearly states the buyer, problem and impact. It is strong but could include a bit more specificity or creativity to be truly outstanding.";
          how := lit "Add a unique detail like a metric, proprietary method or compelling adjective that makes your value proposition unforgettable. Align the tone with your brand personality and ensure it resonates across multiple buyer personas." |});
      (lit "Leading",
       {| why := lit "Your value proposition is succinct, unique and magnetic. It clearly communicates who you serve, what you solve and how you transform the buyer’s world. It stands out and stays in the mind.";
          how := lit "Continue to iterate as your offering evolves and your market changes. Use the one‑sentence value proposition as a north star for all messaging. Encourage team members to internalise and deliver it consistently." |})
    ])
  ].

Definition summaryMap : list (jsstring * jsstring) :=
  [
   (lit "None",
    lit "Your assessment indicates there is currently no structured value proposition. Without a clear understanding of your buyer, urgency or differentiation, it will be difficult to craft a message that resonates. Start by articulating each of the Three Whys in detail and gather proof points to build credibility. Identify who your ideal customer is, what pain they experience, why addressing that pain now matters, and why your approach uniquely solves it. Write down your narrative and refine it through customer conversations. Doing so will lay the foundation for a clear, compelling value proposition.");
   (lit "Emerging",
    lit "Your value proposition is still forming. You’ve identified key elements but the answers lack sufficient context and proof. At this stage it’s important to research your buyer’s motivations and gather data to support your claims. Spend time interviewing customers, mapping their pain points, and quantifying the costs of inaction. Use those insights to enrich your messaging. Document differentiators and proof points like case studies or benchmarks. This groundwork will help you move from an emerging story to a convincing narrative.");
   (lit "Basic",
    lit "You have a foundational value proposition. You identify the buyer, their pain and why now, but there’s room to add more specificity and differentiation. Strengthen your message by connecting emotional hooks to quantitative evidence and tailoring your story to the buyer’s needs. Include specific examples of how your solution has addressed similar challenges, data that underscores urgency, and unique capabilities that competitors lack. The more you tie emotion to logic and show measurable outcomes, the more persuasive your message will become.");
   (lit "Advanced",
    lit "Your value proposition is strong and well crafted. You balance emotional hooks with logical proof and clearly articulate why change is needed now and why you are the right partner. To elevate further, incorporate more unique proof points and refine your differentiation based on customer feedback. Continue refining your narrative by integrating fresh customer stories and industry trends, and make sure your messaging remains consistent across all channels and stakeholders. Frequent iteration ensures you maintain relevance and stay ahead of competitors.");
   (lit "Leading",
    lit "Congratulations! Your value proposition is industry leading. You demonstrate mastery of the Three Whys, weave emotion and logic seamlessly, and provide compelling evidence. Continue to innovate and adapt your message as markets evolve to maintain leadership. Regularly benchmark against the best in class and solicit feedback from customers and partners to keep your narrative sharp. Share your insights internally to empower teams and externally to position yourself as a thought leader. This proactive approach will keep your value proposition ahead of the curve.")
  ].

Definition coachingCEO : jsstring :=
  lit "As a CEO your primary responsibility is to champion a unified value proposition across the organisation. Drive alignment between product, marketing and sales around a shared narrative and ensure resources support timely execution. Link the value story to strategic goals, emphasise organisational urgency and model the behaviour you expect from your teams in every interaction.".

Definition coachingCFO : jsstring :=
  lit "As a CFO focus on aligning investment with your value proposition. Use financial metrics to quantify the cost of inaction and the ROI of acting now. Collaborate with revenue and product leaders to ensure budgets support key initiatives and incorporate value calculators into planning. Demonstrate fiscal discipline while enabling growth.".

Definition coachingCRO : jsstring :=
  lit "As a Chief Revenue Officer, you must unify sales, marketing and customer success around a clear value narrative. Tie revenue goals to the Three Whys, drive accountability for consistent messaging and coach teams to balance emotion with logic. Leverage pipeline data to show urgency and guide resource allocation.".

Definition coachingCSO : jsstring :=
  lit "As a Chief Strategy Officer, ensure your value proposition is embedded into strategic planning. Analyse market trends and competitive moves to anticipate why change and why now. Translate insights into actionable initiatives and communicate them clearly so the entire organisation understands its role in delivering on the strategy.".

Definition coachingCPO : jsstring :=
  lit "As a Chief Product Officer you must translate product capabilities into business outcomes. Ensure your roadmap tells a cohesive story that reflects real buyer pains and ambitions. Partner with marketing and sales to validate that new features map to customer problems, using interviews and data to uncover emotional drivers and adjust priorities accordingly.".

Definition coachingCIO : jsstring :=
  lit "As a CIO your role is to enable the technology and data infrastructure that supports your value proposition. Provide analytics to quantify urgency and outcomes, and ensure systems capture customer feedback to refine messaging. Collaborate with product and revenue leaders to prioritise digital investments that reinforce the narrative.".

Definition coachingCTO : jsstring :=
  lit "As a CTO focus on the technical innovation that differentiates your company. Communicate how your architecture and product roadmap uniquely address buyer pain points and enable rapid change. Work with product and marketing teams to translate complex features into business value and inspire confidence in your technical vision.".

Definition coachingCHRO : jsstring :=
  lit "As a CHRO align your people strategy with the value proposition. Ensure recruitment, training and performance management emphasise the Three Whys so employees can articulate the message. Foster a culture where teams collaborate across functions to deliver on the promise and recognise behaviours that reinforce the narrative.".

Definition coachingProduct : jsstring :=
  lit "As a product leader you should translate product capabilities into business outcomes and ensure your roadmap tells a cohesive story. Partner closely with marketing and sales to validate that new features map to real customer problems. Use interviews and data to uncover emotional drivers and align messaging with market needs, then adapt plans accordingly.".

Definition coachingMarketing : jsstring :=
  lit "As a marketing leader focus on articulating a clear narrative that resonates with your buyer’s fears and ambitions across all channels. Build campaigns around quantified proof and nurture leads through education on the Three Whys. Align closely with sales and product so messaging and assets reinforce one another and refine them based on market feedback.".

Definition coachingSales : jsstring :=
  lit "As a sales leader ensure your team understands the Three Whys and can articulate them in conversations of varying lengths. Coach reps to lead with emotion, back it with logic and tailor differentiation based on buyer persona. Regularly gather feedback from prospects and customers to refine your message and improve win rates.".

Definition coachingDirector : jsstring :=
  lit "As a director you play a critical role in translating high‑level strategy into day‑to‑day execution. Ensure your team understands the value narrative and how their work supports it. Provide feedback from the front lines to refine messaging and coordinate cross‑functional initiatives that reinforce the Three Whys.".

Definition coachingGeneric : jsstring :=
  lit "As a business leader align with cross‑functional teams to build a unified value story. Ensure your objectives support the broader go‑to‑market strategy and contribute feedback to improve the value proposition. Encourage collaboration and continuous learning to help the organisation advance its message.".

Definition headlineExplain : jsstring :=
  lit "Craft a short, emotional hook that captures your buyer’s attention and summarises the change you enable. Make it memorable and aspirational.".

Definition urgencyExplain : jsstring :=
  lit "Explain why acting now matters. Link the buyer’s pain to near‑term risks or opportunities and demonstrate the cost of delay.".

Definition differentiatorsExplain : jsstring :=
  lit "List two to three unique capabilities and include at least one proof point, such as a case study or metric, to show how you stand out.".

Definition valueOutlineExplain : jsstring :=
  lit "Break down the quantitative value: baseline metrics, expected lift and payback period. Use real data or reasonable assumptions for credibility.".

Definition salesSparxText : jsstring :=
  lit "SalesSparx can partner with you to unify your go‑to‑market messaging, build a bespoke value calculator and coach your team on delivering a consistent, compelling narrative that drives adoption and revenue.".

Definition actionsMap : list (jsstring * list jsstring) :=
  [
   (lit "None",
    [lit "Identify your target buyer personas and conduct research to understand their pain points.";
     lit "Determine key triggers that make addressing the problem urgent and document them.";
     lit "List differentiators and gather at least one proof point (testimonial, statistic) for each.";
     lit "Draft an emotional headline paired with a logical benefit and refine it through feedback.";
     lit "Write a concise one‑sentence value proposition stating buyer, pain and outcome."]);
   (lit "Emerging",
    [lit "Interview customers to validate emotional drivers, pain points and urgency triggers.";
     lit "Collect data to quantify the costs of inaction and refine your urgency narrative.";
     lit "Document unique differentiators and gather case studies to support each claim.";
     lit "Experiment with emotional headlines that blend feeling with facts; test internally.";
     lit "Build a simple value calculator outlining assumptions and expected benefits."]);
   (lit "Basic",
    [lit "Deepen research on buyer emotions and triggers using surveys and analytics.";
     lit "Strengthen differentiators by adding unique proof points or proprietary insights.";
     lit "Gather more specific metrics to quantify the outcomes you promise.";
     lit "Align messaging across product, marketing and sales teams for consistency.";
     lit "Expand your value calculator to model various buyer scenarios."]);
   (lit "Advanced",
    [lit "Integrate new customer stories and industry trends to keep your narrative fresh.";
     lit "Add proprietary research or thought leadership to make your urgency story distinctive.";
     lit "Refine differentiators based on customer feedback and competitive analysis.";
     lit "Test advanced emotional hooks or storytelling techniques for your headline.";
     lit "Segment your value calculator by persona to tailor benefits more precisely."]);
   (lit "Leading",
    [lit "Continue innovating and evolving your message to stay ahead of market shifts.";
     lit "Regularly benchmark your value proposition against industry leaders for inspiration.";
     lit "Document and share insights internally and externally to reinforce thought leadership.";
     lit "Collect new success stories and update your metrics to maintain credibility.";
     lit "Train and coach your team to deliver your value proposition consistently across channels."])
  ].

Definition finalValuePlaceholder : jsstring :=
  lit "Craft your value proposition here by clearly stating who you serve, the problem you solve, and the impact you deliver.".

Definition headlineText : jsstring :=
  lit "Elevate your value proposition".

Definition urgencyText : jsstring :=
  lit "Clarify the stakes and link your roadmap to near‑term outcomes.".

Definition differentiatorsText : jsstring :=
  lit "Highlight unique capabilities and proof points that set you apart.".

Definition valueOutlineText : jsstring :=
  lit "Define baseline metrics, lift assumptions and payback timeframe.".

Definition unknownPatterns : list jsstring :=
  [lit "i don't know";
   lit "i don’t know";
   lit "dont know";
   lit "do not know";
   lit "unknown";
   lit "none";
   lit "n/a";
   lit "na";
   lit "inexistent";
   lit "no idea";
   lit "not sure";
   lit "don’t have";
   lit "don't have";
   lit "dont have";
   lit "missing";
   lit "not available";
   lit "unavailable";
   lit "not provided";
   lit "not existing";
   lit "not exist";
   lit "no data";
   lit "no information";
   lit "not applicable";
   lit "not present";
   lit "not disposable"].

(* ===================================================================== *)
(** ** The report *)
(* ===================================================================== *)

(** One row of [dims]: [{ name, score, level, why, how }] *)
Record DimResult := {
  d_name : jsstring;
  d_score : Z;
  d_level : Level;
  d_why : jsstring;
  d_how : jsstring
}.

Record Coaching := {
  headline : jsstring;
  c_headlineExplain : jsstring;
  urgency : jsstring;
  c_urgencyExplain : jsstring;
  differentiators : jsstring;
  c_differentiatorsExplain : jsstring;
  valueOutline : jsstring;
  c_valueOutlineExplain : jsstring;
  coachingText : jsstring;
  c_salesSparxText : jsstring;
  finalValue : jsstring;
  nextActions : option (list jsstring)
}.

(** The object [fallbackEvaluate] returns.  A table read that finds no entry
    gives [undefined], here [None]. *)
Record Report := {
  r_profile : jsval;
  averageScore : jsstring;
  band : Level;
  executiveSummary : option jsstring;
  dimensions : list DimResult;
  coaching : Coaching
}.

(* ===================================================================== *)
(** ** fallbackEvaluate *)
(* ===================================================================== *)

(** [messageTemplates[name] || {}] followed by
    [catMessages[level] || { why: '', how: '' }] *)
Definition selectNarrative (templates : list (jsstring * list (jsstring * Narrative)))
    (catName levelLabel : jsstring) : Narrative :=
  let catMessages :=
    match lookup catName templates with
    | Some m => m
    | None => []
    end in
  match lookup levelLabel catMessages with
  | Some msg => msg
  | None => {| why := []; how := [] |}
  end.

(** The band of the parsed average. *)
Definition bandOf (avgNumeric : option Q) : Level :=
  if ltNum avgNumeric 2 then L_None
  else if ltNum avgNumeric 3 then L_Emerging
  else if ltNum avgNumeric 4 then L_Basic
  else if ltNum avgNumeric 5 then L_Advanced
  else L_Leading.

(** The chain of role tests, on the lower-cased role. *)
Definition roleCoaching (roleLower : jsstring) : jsstring :=
  if includes roleLower (lit "ceo") || includes roleLower (lit "chief executive") then coachingCEO
  else if includes roleLower (lit "cfo") || includes roleLower (lit "chief financial") then coachingCFO
  else if includes roleLower (lit "cro") || includes roleLower (lit "chief revenue") then coachingCRO
  else if includes roleLower (lit "cso") || includes roleLower (lit "chief strategy") then coachingCSO
  else if includes roleLower (lit "cpo") || includes roleLower (lit "chief product") then coachingCPO
  else if includes roleLower (lit "cio") || includes roleLower (lit "chief information") then coachingCIO
  else if includes roleLower (lit "cto") || includes roleLower (lit "chief technology") then coachingCTO
  else if includes roleLower (lit "chro") || includes roleLower (lit "chief human") then coachingCHRO
  else if includes roleLower (lit "product") then coachingProduct
  else if includes roleLower (lit "marketing") then coachingMarketing
  else if includes roleLower (lit "sales") || includes roleLower (lit "seller") then coachingSales
  else if includes roleLower (lit "director") then coachingDirector
  else coachingGeneric.

Section Scorer.

Context {rt : Runtime}.

(** [ans ? ans.split(/\s+/).length : 0] *)
Definition wordCount (ans : jsstring) : Z :=
  if nonEmpty ans then Z.of_nat (List.length (split_ws ans)) else 0.

(** [ansLower.replace(/[^a-z0-9\s]/g, '').trim()] with
    [ansLower = ans.toLowerCase()] *)
Definition normalised (ans : jsstring) : jsstring :=
  trim (stripOthers (toLowerCase ans)).

Definition isUnknown (ans : jsstring) : bool :=
  Nat.eqb (List.length (normalised ans)) 0 || arrayIncludes unknownPatterns (normalised ans).

(** The score and level the loop body assigns to a trimmed answer. *)
Definition classify (ans : jsstring) : Z * Level :=
  if isUnknown ans then (1, L_None)
  else if wordCount ans <? 15 then (2, L_Emerging)
  else if wordCount ans <? 40 then (3, L_Basic)
  else if wordCount ans <? 80 then (4, L_Advanced)
  else (5, L_Leading).

(** The body of [categories.forEach]; the state is [(totalScore, dims)]. *)
Definition scoreCategory (answers : jsval) (st : Z * list DimResult) (cat : Category)
    : result (Z * list DimResult) :=
  let '(totalScore, dims) := st in
  raw <- getProp answers (key cat) ;;
  ans <- callTrim (orElse raw (JString [])) ;;
  let '(score, level) := classify ans in
  let msg := selectNarrative messageTemplates (name cat) (levelName level) in
  Ok (totalScore + score,
      dims ++ [ {| d_name := name cat; d_score := score; d_level := level;
                   d_why := why msg; d_how := how msg |} ]).

Definition fallbackEvaluate (profile answers : jsval) : result Report :=
  ' (totalScore, dims) <- forEach (scoreCategory answers) categories (0, []) ;;
  let avgScore := toFixed1 (inject_Z totalScore / inject_Z (Z.of_nat (List.length categories)))%Q in
  let avgNumeric := parseFloat avgScore in
  let band := bandOf avgNumeric in
  let executiveSummary := lookup (levelName band) summaryMap in
  role <- getProp profile (lit "role") ;;
  roleLower <- callToLowerCase (orElse role (JString [])) ;;
  let coachingText := roleCoaching roleLower in
  q6 <- getProp answers (lit "q6") ;;
  finalValue <- (if truthy q6 then callTrim q6 else Ok finalValuePlaceholder) ;;
  Ok {| r_profile := profile;
        averageScore := avgScore;
        band := band;
        executiveSummary := executiveSummary;
        dimensions := dims;
        coaching :=
          {| headline := headlineText;
             c_headlineExplain := headlineExplain;
             urgency := urgencyText;
             c_urgencyExplain := urgencyExplain;
             differentiators := differentiatorsText;
             c_differentiatorsExplain := differentiatorsExplain;
             valueOutline := valueOutlineText;
             c_valueOutlineExplain := valueOutlineExplain;
             coachingText := coachingText;
             c_salesSparxText := [];
             finalValue := finalValue;
             nextActions :=
               match lookup (levelName band) actionsMap with
               | Some l => Some l
               | None => lookup (lit "Basic") actionsMap
               end |} |}.

End Scorer.

(* ===================================================================== *)
(** ** The request handlers: the method guard *)
(* ===================================================================== *)

Record Request := { method : jsstring }.

Definition hexDigit (d : N) : N := if (d <? 10)%N then (48 + d)%N else (87 + d)%N.

(** QuoteJSONString on one code unit (surrogates apart). *)
Definition escapeUnit (c : N) : jsstring :=
  if (c =? 8)%N then lit "\b"
  else if (c =? 9)%N then lit "\t"
  else if (c =? 10)%N then lit "\n"
  else if (c =? 12)%N then lit "\f"
  else if (c =? 13)%N then lit "\r"
  else if (c =? 34)%N then [92; 34]%N
  else if (c =? 92)%N then [92; 92]%N
  else if (c <? 32)%N then lit "\u00" ++ [hexDigit (c / 16); hexDigit (c mod 16)]
  else [c].

Definition quoteJSON (s : jsstring) : jsstring :=
  [34%N] ++ flat_map escapeUnit s ++ [34%N].

(** [JSON.stringify({ error: msg })] *)
Definition stringifyError (msg : jsstring) : jsstring :=
  lit "{" ++ quoteJSON (lit "error") ++ lit ":" ++ quoteJSON msg ++ lit "}".

(** The Node response object [res], written to by the handler. *)
Record ServerResponse := {
  statusCode : Z;
  headers : list (jsstring * jsstring);
  body : jsstring;
  ended : bool
}.

Definition freshResponse : ServerResponse :=
  {| statusCode := 200; headers := []; body := []; ended := false |}.

Definition setStatusCode (code : Z) (res : ServerResponse) : ServerResponse :=
  {| statusCode := code; headers := headers res; body := body res; ended := ended res |}.

(** Header names are compared without regard to case. *)
Definition sameHeader (n m : jsstring) : bool :=
  JsString.eqb (map asciiLower n) (map asciiLower m).

Definition setHeader (n v : jsstring) (res : ServerResponse) : ServerResponse :=
  {| statusCode := statusCode res;
     headers := (n, v) :: filter (fun h => negb (sameHeader (fst h) n)) (headers res);
     body := body res; ended := ended res |}.

Definition endWith (data : jsstring) (res : ServerResponse) : ServerResponse :=
  {| statusCode := statusCode res; headers := headers res;
     body := body res ++ data; ended := true |}.

Fixpoint getHeader (n : jsstring) (hs : list (jsstring * jsstring)) : option jsstring :=
  match hs with
  | [] => None
  | (m, v) :: hs' => if sameHeader m n then Some v else getHeader n hs'
  end.

Section NodeHandler.

(** What the handler does with a POST: it reads the body and answers from
    the listeners it registers. *)
Variable onPost : Request -> ServerResponse -> ServerResponse.

(** [module.exports = async (req, res) => ...] of the Node snapshot *)
Definition nodeHandler (req : Request) (res : ServerResponse) : ServerResponse :=
  if negb (JsString.eqb (method req) (lit "POST")) then
    endWith (stringifyError (lit "Method not allowed"))
      (setHeader (lit "Allow") (lit "POST") (setStatusCode 405 res))
  else onPost req res.

End NodeHandler.

(** A [Response] of the edge runtime. *)
Record Response := {
  status : Z;
  r_headers : list (jsstring * jsstring);
  r_body : jsstring
}.

(** [new Response(text, { status, headers })]: a text body brings its
    content type unless the headers give one. *)
Definition newResponse (text : jsstring) (st : Z) (hs : list (jsstring * jsstring)) : Response :=
  {| status := st;
     r_headers :=
       match getHeader (lit "content-type") hs with
       | Some _ => hs
       | None => hs ++ [(lit "content-type", lit "text/plain;charset=UTF-8")]
       end;
     r_body := text |}.

Section EdgeHandler.

(** What the handler does with a POST. *)
Variable onPost : Request -> Response.

(** [export default async function handler(req)] of [api/evaluate.js] *)
Definition handler (req : Request) : Response :=
  if negb (JsString.eqb (method req) (lit "POST")) then
    newResponse (stringifyError (lit "Use POST")) 405 []
  else onPost req.

End EdgeHandler.

(* ===================================================================== *)
(** ** Vocabulary of the specification *)
(* ===================================================================== *)

(** The value of property [k] of [v], [undefined] when there is none. *)
Definition prop (v : jsval) (k : jsstring) : jsval :=
  match v with
  | JObject fields =>
      match lookup k fields with
      | Some x => x
      | None => JUndefined
      end
  | _ => JUndefined
  end.

Definition isNullish (v : jsval) : bool :=
  match v with
  | JUndefined | JNull => true
  | _ => false
  end.

(** A free-text field of the data model: a string, or nothing at all
    (absent, or any other falsy value). *)
Definition isText (v : jsval) : bool :=
  match v with
  | JString _ => true
  | _ => negb (truthy v)
  end.

(** The text of a field, the empty string when it is absent. *)
Definition textOf (v : jsval) : jsstring :=
  match v with
  | JString s => s
  | _ => []
  end.

(** Inputs of the data model: a profile and an answer set that are there,
    whose role and answers are free text, possibly absent. *)
Definition wellFormed (profile answers : jsval) : Prop :=
  isNullish profile = false /\ isNullish answers = false
  /\ isText (prop profile (lit "role")) = true
  /\ Forall (fun cat => isText (prop answers (key cat)) = true) categories.

Definition wellFormedb (profile answers : jsval) : bool :=
  negb (isNullish profile) && negb (isNullish answers)
  && isText (prop profile (lit "role"))
  && forallb (fun cat => isText (prop answers (key cat))) categories.

(** The order of the maturity scale. *)
Definition levelLe (a b : Level) : Prop := levelRank a <= levelRank b.

Definition scoreSum (ds : list DimResult) : Z :=
  fold_right (fun d acc => d_score d + acc) 0 ds.

(** A number of tenths written with one decimal. *)
Definition showTenths (n : Z) : jsstring :=
  decimal (n / 10) ++ lit "." ++ decimal (n mod 10).

(** [n] tenths is [x] rounded to one decimal place: no number with one
    decimal is nearer to [x]. *)
Definition roundsTo1 (x : Q) (n : Z) : Prop :=
  (Qabs (x - inject_Z n / 10) <= 1 # 20)%Q.

(** The role coach as the specification words it: an ordered list of
    (patterns, text) pairs, the first pair with a pattern that occurs in the
    role wins, and a generic text answers when none does. *)
Definition rolePatterns : list (list jsstring * jsstring) :=
  [ ([lit "ceo"; lit "chief executive"], coachingCEO);
    ([lit "cfo"; lit "chief financial"], coachingCFO);
    ([lit "cro"; lit "chief revenue"], coachingCRO);
    ([lit "cso"; lit "chief strategy"], coachingCSO);
    ([lit "cpo"; lit "chief product"], coachingCPO);
    ([lit "cio"; lit "chief information"], coachingCIO);
    ([lit "cto"; lit "chief technology"], coachingCTO);
    ([lit "chro"; lit "chief human"], coachingCHRO);
    ([lit "product"], coachingProduct);
    ([lit "marketing"], coachingMarketing);
    ([lit "sales"; lit "seller"], coachingSales);
    ([lit "director"], coachingDirector) ].

Fixpoint firstMatch (rules : list (list jsstring * jsstring)) (generic roleLower : jsstring)
    : jsstring :=
  match rules with
  | [] => generic
  | (pats, text) :: rules' =>
      if existsb (includes roleLower) pats then text
      else firstMatch rules' generic roleLower
  end.

(** The names and the answer keys of the six dimensions, in their order. *)
Definition dimensionNames : list jsstring :=
  [lit "Why change"; lit "Why now"; lit "Why your company"; lit "Emotion–Logic";
   lit "Buyer‑as‑hero"; lit "Clarity"].

Definition answerKeys : list jsstring :=
  [lit "q1"; lit "q2"; lit "q3"; lit "q4"; lit "q5"; lit "q6"].

(** Two inputs with the same texts: the same role and the same six answers,
    an absent field counting as the empty string. *)
Definition sameTexts (p a p' a' : jsval) : Prop :=
  textOf (prop p' (lit "role")) = textOf (prop p (lit "role"))
  /\ forall k, In k answerKeys -> textOf (prop a' k) = textOf (prop a k).

(** The average the scorer writes for a total of the six scores. *)
Definition averageOfTotal (t : Z) : jsstring :=
  toFixed1 (inject_Z t / inject_Z (Z.of_nat (List.length categories)))%Q.

(** The band of a total of six scores: the thresholds 2.0, 3.0, 4.0 and 5.0
    on the average are 12, 18, 24 and 30 on the total. *)
Definition bandOfTotal (t : Z) : Level :=
  if t <? 12 then L_None
  else if t <? 18 then L_Emerging
  else if t <? 24 then L_Basic
  else if t <? 30 then L_Advanced
  else L_Leading.

(** What is checked of each total from 6 to 30: the average written, the
    number read back from it, its band, and that it is the mean rounded. *)
Definition totalCheck (t : Z) : bool :=
  let avg := averageOfTotal t in
  let n := (10 * t + 3) / 6 in
  JsString.eqb avg (showTenths n)
  && match parseFloat avg with
     | Some q => (Qnum q =? n) && (Qden q =? 10)%positive
     | None => false
     end
  && (levelRank (bandOf (parseFloat avg)) =? levelRank (bandOfTotal t))
  && Qle_bool (Qabs (inject_Z t / 6 - inject_Z n / 10)) (1 # 20).

(** The entry of the narrative table for a dimension and a level. *)
Definition narrativeEntry (catName levelLabel : jsstring) : option Narrative :=
  match lookup catName messageTemplates with
  | Some m => lookup levelLabel m
  | None => None
  end.

(** Every dimension has, at every level, an entry with both texts. *)
Definition narrativeCheck : bool :=
  forallb (fun cat =>
    forallb (fun l =>
      match narrativeEntry (name cat) (levelName l) with
      | Some msg => nonEmpty (why msg) && nonEmpty (how msg)
      | None => false
      end) allLevels) categories.

(** Two dimensions never have the same rationale at a level. *)
Definition distinctCheck : bool :=
  forallb (fun c1 =>
    forallb (fun c2 =>
      JsString.eqb (name c1) (name c2)
      || forallb (fun l =>
           negb (JsString.eqb
                   (why (selectNarrative messageTemplates (name c1) (levelName l)))
                   (why (selectNarrative messageTemplates (name c2) (levelName l)))))
           allLevels) categories) categories.

Definition cpoRole : jsstring := lit "Chief Product Officer".

Definition getRequest : Request := {| method := lit "GET" |}.

(** The texts the scorer lower-cases, for inputs written in Basic Latin. *)
Definition asciiTexts (role : jsstring) (text : jsstring -> jsstring) : bool :=
  forallb isAscii role && forallb (fun cat => forallb isAscii (text (key cat))) categories.

Definition idk : jsstring := lit "i don't know".

Section ScorerVocabulary.

Context {rt : Runtime}.

(** The trimmed answer the loop reads for a dimension. *)
Definition answerOf (answers : jsval) (cat : Category) : jsstring :=
  trim (textOf (prop answers (key cat))).

(** The row the loop pushes for a dimension whose trimmed answer is [ans]. *)
Definition rowOf (cat : Category) (ans : jsstring) : DimResult :=
  let msg := selectNarrative messageTemplates (name cat) (levelName (snd (classify ans))) in
  {| d_name := name cat; d_score := fst (classify ans); d_level := snd (classify ans);
     d_why := why msg; d_how := how msg |}.

(** The rows of the dimensions in [cats], in their order. *)
Definition rowsOf (answers : jsval) (cats : list Category) : list DimResult :=
  map (fun cat => rowOf cat (answerOf answers cat)) cats.

Definition averageOf (dims : list DimResult) : jsstring :=
  toFixed1 (inject_Z (scoreSum dims) / inject_Z (Z.of_nat (List.length categories)))%Q.

(** The report as a function of the texts of the data model: the role and
    the six answers, the empty string standing for an absent one. *)
Definition reportFor (profile : jsval) (role : jsstring) (text : jsstring -> jsstring)
    : Report :=
  let dims := map (fun cat => rowOf cat (trim (text (key cat)))) categories in
  let avgScore := averageOf dims in
  let band := bandOf (parseFloat avgScore) in
  {| r_profile := profile;
     averageScore := avgScore;
     band := band;
     executiveSummary := lookup (levelName band) summaryMap;
     dimensions := dims;
     coaching :=
       {| headline := headlineText;
          c_headlineExplain := headlineExplain;
          urgency := urgencyText;
          c_urgencyExplain := urgencyExplain;
          differentiators := differentiatorsText;
          c_differentiatorsExplain := differentiatorsExplain;
          valueOutline := valueOutlineText;
          c_valueOutlineExplain := valueOutlineExplain;
          coachingText := roleCoaching (toLowerCase role);
          c_salesSparxText := [];
          finalValue :=
            if nonEmpty (text (lit "q6")) then trim (text (lit "q6"))
            else finalValuePlaceholder;
          nextActions :=
            match lookup (levelName band) actionsMap with
            | Some l => Some l
            | None => lookup (lit "Basic") actionsMap
            end |} |}.

End ScorerVocabulary.

(** An object with the six answers. *)
Definition answers6 (a1 a2 a3 a4 a5 a6 : jsstring) : jsval :=
  JObject [ (lit "q1", JString a1); (lit "q2", JString a2); (lit "q3", JString a3);
            (lit "q4", JString a4); (lit "q5", JString a5); (lit "q6", JString a6) ].

(** A word has at least one code unit and no white space; a separator is a
    run of white space. *)
Definition isWord (w : jsstring) : bool :=
  nonEmpty w && forallb (fun c => negb (isWhiteSpace c)) w.

Definition isSeparator (sep : jsstring) : bool :=
  nonEmpty sep && forallb isWhiteSpace sep.

(** The words of [ws] with [sep] between them. *)
Definition unwords (sep : jsstring) (ws : list jsstring) : jsstring :=
  match ws with
  | [] => []
  | w :: ws' => w ++ flat_map (fun v => sep ++ v) ws'
  end.

(** [n] times the same word, a space between them. *)
Definition wordsText (n : nat) : jsstring := unwords (lit " ") (repeat (lit "word") n).

(** A text written as its words: a first word [w], then every further word
    with the run of white space that stands before it. *)
Definition joinWords (w : jsstring) (rest : list (jsstring * jsstring)) : jsstring :=
  w ++ flat_map (fun sw => fst sw ++ snd sw) rest.

Definition areWords (w : jsstring) (rest : list (jsstring * jsstring)) : bool :=
  isWord w && forallb (fun sw => isSeparator (fst sw) && isWord (snd sw)) rest.

(** The number of words of such a text. *)
Definition numWords (w : jsstring) (rest : list (jsstring * jsstring)) : Z :=
  Z.of_nat (List.length (w :: map snd rest)).

(** Eighty words with white space around them. *)
Definition paddedAnswer : jsstring := lit "  " ++ wordsText 80 ++ [9%N; 10%N].

(** Sample inputs: a product officer with answers of 14, 15, 40 and 80
    words, the literal [i don't know], and a value proposition. *)
Definition sampleProfile : jsval := JObject [(lit "role", JString cpoRole)].

Definition sampleAnswers : jsval :=
  answers6 (wordsText 14) (wordsText 15) (wordsText 40) (wordsText 80) idk
    (lit "  We help teams ship faster.  ").

Definition sampleReport : Report :=
  @reportFor asciiRuntime sampleProfile cpoRole (fun k => textOf (prop sampleAnswers k)).

(** Six empty answers; no answer at all; 15 and 80 words everywhere. *)
Definition emptyAnswers : jsval := answers6 [] [] [] [] [] [].

Definition emptyReport : Report :=
  @reportFor asciiRuntime (JObject []) [] (fun _ => []).

Definition basicAnswers : jsval :=
  answers6 (wordsText 15) (wordsText 15) (wordsText 15) (wordsText 15) (wordsText 15)
    (wordsText 15).

Definition basicReport : Report :=
  @reportFor asciiRuntime (JObject []) [] (fun k => textOf (prop basicAnswers k)).

Definition leadingAnswers : jsval :=
  answers6 (wordsText 80) (wordsText 80) (wordsText 80) (wordsText 80) (wordsText 80)
    (wordsText 80).

Definition leadingReport : Report :=
  @reportFor asciiRuntime (JObject []) [] (fun k => textOf (prop leadingAnswers k)).


(* ===================================================================== *)
(** ** The host: JSON and string conversion *)
(* ===================================================================== *)

(** [JSON.parse] ([None] when it throws), [JSON.stringify] on a value that
    is not [undefined], and ToString on numbers.  The handlers depend on
    them through this interface. *)
Class Host := {
  JSON_parse : jsstring -> option jsval;
  JSON_stringify : jsval -> jsstring;
  hostToString : jsval -> jsstring
}.

(** A step that throws is [None]: no [catch] of the handlers looks at the
    exception. *)
Definition obind {A B} (m : option A) (f : A -> option B) : option B :=
  match m with
  | Some a => f a
  | None => None
  end.

Notation "x <-? m ;; k" := (obind m (fun x => k))
  (at level 61, m at next level, right associativity).

Definition ofResult {A} (m : result A) : option A :=
  match m with
  | Ok a => Some a
  | Throw _ => None
  end.

Fixpoint mapM {A B} (f : A -> option B) (xs : list A) : option (list B) :=
  match xs with
  | [] => Some []
  | x :: xs' => y <-? f x ;; ys <-? mapM f xs' ;; Some (y :: ys)
  end.

(** [v[0]] on a value that is not nullish: the first element of an array,
    the property [0] of an object, the first code unit of a string. *)
Definition elem0 (v : jsval) : jsval :=
  match v with
  | JArray (x :: _) => x
  | JObject fields =>
      match lookup (lit "0") fields with
      | Some x => x
      | None => JUndefined
      end
  | JString (c :: _) => JString [c]
  | _ => JUndefined
  end.

(** [v?.k] and [v?.[0]] *)
Definition optProp (v : jsval) (k : jsstring) : jsval :=
  if isNullish v then JUndefined else prop v k.

Definition optElem0 (v : jsval) : jsval :=
  if isNullish v then JUndefined else elem0 v.

(** [v.choices?.[0]?.message?.content] on a value that is not nullish *)
Definition firstChoiceContent (v : jsval) : jsval :=
  optProp (optProp (optElem0 (prop v (lit "choices"))) (lit "message")) (lit "content").

Definition isArray (v : jsval) : bool :=
  match v with
  | JArray _ => true
  | _ => false
  end.

(** [v === s] for a string literal [s] *)
Definition isTheString (v : jsval) (s : jsstring) : bool :=
  match v with
  | JString t => JsString.eqb t s
  | _ => false
  end.

Definition nl : jsstring := [10%N].

(** [xs.join(sep)] on strings *)
Fixpoint joinWith (sep : jsstring) (xs : list jsstring) : jsstring :=
  match xs with
  | [] => []
  | [x] => x
  | x :: xs' => x ++ sep ++ joinWith sep xs'
  end.

Section HostConversions.

Context {host : Host}.

(** ToString, as a template literal, [Array.prototype.join] and
    [JSON.parse] apply it: [None] when it throws.  The values at hand are
    read from JSON, so no property of theirs is callable.  An object with
    a [toString] of its own has no method that gives a primitive
    ([Object.prototype.valueOf] gives the object back) and the conversion
    throws a TypeError; without one the method is
    [Object.prototype.toString].  An array goes through
    [Array.prototype.join] with a comma, where [undefined] and [null] give
    nothing. *)
Fixpoint toStr (v : jsval) : option jsstring :=
  match v with
  | JString s => Some s
  | JUndefined => Some (lit "undefined")
  | JNull => Some (lit "null")
  | JBool true => Some (lit "true")
  | JBool false => Some (lit "false")
  | JNumber _ => Some (hostToString v)
  | JObject fields =>
      match lookup (lit "toString") fields with
      | Some _ => None
      | None => Some (lit "[object Object]")
      end
  | JArray xs =>
      parts <-? (fix items (l : list jsval) : option (list jsstring) :=
                   match l with
                   | [] => Some []
                   | x :: l' =>
                       part <-? match x with
                                | JUndefined | JNull => Some []
                                | _ => toStr x
                                end ;;
                       parts <-? items l' ;;
                       Some (part :: parts)
                   end) xs ;;
      Some (joinWith (lit ",") parts)
  end.

(** The text [Array.prototype.join] gives an element. *)
Definition joinItem (v : jsval) : option jsstring :=
  match v with
  | JUndefined | JNull => Some []
  | _ => toStr v
  end.

(** [JSON.stringify(v)] as [res.end] and [new Response] take it:
    [undefined] for [undefined], which writes nothing. *)
Definition jsonText (v : jsval) : jsstring :=
  match v with
  | JUndefined => []
  | _ => JSON_stringify v
  end.

End HostConversions.

(** The environment: [process.env.OPENAI_API_KEY], when it is set. *)
Record Env := { OPENAI_API_KEY : option jsstring }.

(** The key, when [!apiKey] is false. *)
Definition usableKey (env : Env) : option jsstring :=
  match OPENAI_API_KEY env with
  | Some k => if nonEmpty k then Some k else None
  | None => None
  end.

(* ===================================================================== *)
(** ** The Node handler: the body, the prompt and the answer *)
(* ===================================================================== *)

(** [JSON.stringify] sees the report as this value. *)
Definition dimValue (d : DimResult) : jsval :=
  JObject [ (lit "name", JString (d_name d));
            (lit "score", JNumber (inject_Z (d_score d)));
            (lit "level", JString (levelName (d_level d)));
            (lit "why", JString (d_why d));
            (lit "how", JString (d_how d)) ].

Definition optValue {A} (f : A -> jsval) (o : option A) : jsval :=
  match o with
  | Some a => f a
  | None => JUndefined
  end.

Definition coachingValue (c : Coaching) : jsval :=
  JObject [ (lit "headline", JString (headline c));
            (lit "headlineExplain", JString (c_headlineExplain c));
            (lit "urgency", JString (urgency c));
            (lit "urgencyExplain", JString (c_urgencyExplain c));
            (lit "differentiators", JString (differentiators c));
            (lit "differentiatorsExplain", JString (c_differentiatorsExplain c));
            (lit "valueOutline", JString (valueOutline c));
            (lit "valueOutlineExplain", JString (c_valueOutlineExplain c));
            (lit "coachingText", JString (coachingText c));
            (lit "salesSparxText", JString (c_salesSparxText c));
            (lit "finalValue", JString (finalValue c));
            (lit "nextActions", optValue (fun l => JArray (map JString l)) (nextActions c)) ].

Definition reportValue (r : Report) : jsval :=
  JObject [ (lit "profile", r_profile r);
            (lit "averageScore", JString (averageScore r));
            (lit "band", JString (levelName (band r)));
            (lit "executiveSummary", optValue JString (executiveSummary r));
            (lit "dimensions", JArray (map dimValue (dimensions r)));
            (lit "coaching", coachingValue (coaching r)) ].

Record Question := { q_name : jsstring; q_key : jsstring; question : jsstring }.

Definition qList : list Question :=
  [ {| q_name := lit "Why change"; q_key := lit "q1";
       question := lit "Who is the buyer and what is their top pain today? Why change?" |};
    {| q_name := lit "Why now"; q_key := lit "q2";
       question := lit "What trigger makes this a priority in the next 3–6 months? Why now?" |};
    {| q_name := lit "Why your company"; q_key := lit "q3";
       question := lit "Why are you the right partner? Add 2–3 differentiators and one proof point. Why your company?" |};
    {| q_name := lit "Emotion–Logic"; q_key := lit "q4";
       question := lit "Write a 1–2 line emotional hook headline." |};
    {| q_name := lit "Buyer‑as‑hero"; q_key := lit "q5";
       question := lit "Quantify expected outcomes (time saved, revenue lift, risk avoided) and assumptions." |};
    {| q_name := lit "Clarity"; q_key := lit "q6";
       question := lit "Draft a one‑sentence value proposition." |} ].

(** The system message of the Node snapshot. *)
Definition systemContent : jsstring :=
  lit "You are an expert consultant specialising in sales, marketing and product messaging. You evaluate value propositions using the Three Whys framework. Follow the SalesSparx guidance: answer Why change, Why now and Why your company; make the buyer the hero; lead with emotion (fear and ambition) and back with data; and observe the sequence of the Three Whys. Treat empty or unknown answers (e.g., “I don’t know”, “unknown”, “none”, “inexistent”, “n/a”) as None (score 1) and explain that the user needs to gather more information. Use the user’s responses and any attached documents to assess each dimension. Assign integer scores from 1 to 5 corresponding to None, Emerging, Basic, Advanced or Leading. Compute the average and band. Write a ~75‑word executive summary. Build a table per dimension with ~45‑word explanations for why this level was assigned and ~45‑word suggestions for how to reach the next level. Provide a role‑tailored coaching paragraph (≥40 words) starting with “As a …” followed by four subsections (Headline, Urgency, Differentiators, Value Calculation Outline) with 20–30‑word instructions. Include a suggested final value proposition, at least three next actions and a salesSparxText field. Respond solely with JSON in the specified schema.".

Record Message := { m_role : jsstring; m_content : jsstring }.

(** The request sent to the model. *)
Record Payload := {
  model : jsstring;
  temperature : Q;
  messages : list Message;
  response_format : jsstring
}.

Definition buildPayload (promptContent : jsstring) : Payload :=
  {| model := lit "gpt-4o";
     temperature := 3 # 10;
     messages := [ {| m_role := lit "system"; m_content := systemContent |};
                   {| m_role := lit "user"; m_content := promptContent |} ];
     response_format := lit "json_object" |}.

(** [content.slice(0, 200)]: strings and arrays have the method. *)
Definition slice200 (content : jsval) : option jsval :=
  match content with
  | JString s => Some (JString (firstn 200 s))
  | JArray xs => Some (JArray (firstn 200 xs))
  | _ => None
  end.

(** [body += chunk] for every chunk *)
Definition readBody (chunks : list jsstring) : jsstring :=
  fold_left (fun body chunk => body ++ chunk) chunks [].

Definition sendError (code : Z) (msg : jsstring) (res : ServerResponse) : ServerResponse :=
  endWith (stringifyError msg) (setStatusCode code res).

Section NodePost.

Context {rt : Runtime} {host : Host}.

Variable env : Env.

(** [callOpenAI(apiKey, payload)]: the value the promise resolves to,
    [None] when it rejects. *)
Variable callOpenAI : jsstring -> Payload -> option jsval.

(** The first lines of the prompt, from the profile. *)
Definition profileHeader (profile : jsval) : option jsstring :=
  name <-? toStr (prop profile (lit "name")) ;;
  role <-? toStr (prop profile (lit "role")) ;;
  email <-? toStr (prop profile (lit "email")) ;;
  organization <-? toStr (prop profile (lit "organization")) ;;
  Some (lit "Profile:" ++ nl
        ++ lit "Name: " ++ name ++ nl
        ++ lit "Role: " ++ role ++ nl
        ++ lit "Email: " ++ email ++ nl
        ++ lit "Organization: " ++ organization ++ nl).

(** The line about the attachment of a question, empty when there is none. *)
Definition attachmentNote (attachments : jsval) (k : jsstring) : option jsstring :=
  if truthy attachments && truthy (prop attachments k)
     && truthy (prop (prop attachments k) (lit "content"))
  then
    let fileName := prop (prop attachments k) (lit "name") in
    contentSample <-? slice200 (prop (prop attachments k) (lit "content")) ;;
    fileText <-? toStr fileName ;;
    sampleText <-? toStr contentSample ;;
    Some (lit "Attached file (" ++ fileText ++ lit ") sample: " ++ sampleText ++ nl)
  else Some [].

(** What the body of [qList.forEach] appends for one question. *)
Definition questionSection (answers attachments : jsval) (q : Question) : option jsstring :=
  answer <-? toStr (orElse (prop answers (q_key q)) (JString [])) ;;
  note <-? attachmentNote attachments (q_key q) ;;
  Some (nl ++ q_name q ++ lit ": " ++ question q ++ nl
        ++ lit "Answer: " ++ answer ++ nl
        ++ note).

Fixpoint appendSections (answers attachments : jsval) (qs : list Question)
    (promptContent : jsstring) : option jsstring :=
  match qs with
  | [] => Some promptContent
  | q :: qs' =>
      section <-? questionSection answers attachments q ;;
      appendSections answers attachments qs' (promptContent ++ section)
  end.

Definition buildPrompt (profile answers attachments : jsval) : option jsstring :=
  header <-? profileHeader profile ;;
  appendSections answers attachments qList header.

(** Status 200, the JSON content type and the text of [v]. *)
Definition sendJson (v : jsval) (res : ServerResponse) : ServerResponse :=
  endWith (jsonText v)
    (setHeader (lit "Content-Type") (lit "application/json") (setStatusCode 200 res)).

(** The answer of the fallback scorer. *)
Definition sendFallback (profile answers : jsval) (res : ServerResponse)
    : option ServerResponse :=
  result <-? ofResult (fallbackEvaluate profile answers) ;;
  Some (sendJson (reportValue result) res).

(** The inner [try]: the call of the model and the answer built from it. *)
Definition askModel (apiKey : jsstring) (payload : Payload) (res : ServerResponse)
    : option ServerResponse :=
  apiResponse <-? callOpenAI apiKey payload ;;
  if isNullish apiResponse then None
  else
    let content := firstChoiceContent apiResponse in
    parsed <-? match content with
               | JString s => JSON_parse s
               | _ => Some content
               end ;;
    Some (sendJson parsed res).

(** The outer [try]. *)
Definition processBody (body : jsstring) (res : ServerResponse) : option ServerResponse :=
  parsed <-? JSON_parse (if nonEmpty body then body else lit "{}") ;;
  if isNullish parsed then None
  else
    let profile := prop parsed (lit "profile") in
    let answers := prop parsed (lit "answers") in
    let attachments := prop parsed (lit "attachments") in
    if negb (truthy profile) || negb (truthy answers) then
      Some (sendError 400 (lit "Invalid request payload.") res)
    else
      match usableKey env with
      | None => sendFallback profile answers res
      | Some apiKey =>
          promptContent <-? buildPrompt profile answers attachments ;;
          match askModel apiKey (buildPayload promptContent) res with
          | Some res' => Some res'
          | None => sendFallback profile answers res
          end
      end.

(** The listener of [end], with its [catch]. *)
Definition onEnd (body : jsstring) (res : ServerResponse) : ServerResponse :=
  match processBody body res with
  | Some res' => res'
  | None => sendError 500 (lit "Failed to process request") res
  end.

(** [module.exports] on a request whose body arrives in [chunks]. *)
Definition nodeServe (chunks : list jsstring) (req : Request) (res : ServerResponse)
    : ServerResponse :=
  nodeHandler (fun _ res' => onEnd (readBody chunks) res') req res.

End NodePost.

(* ===================================================================== *)
(** ** The edge handler: the demo answer, the upstream call and its text *)
(* ===================================================================== *)

(** The system message of the edge snapshot, a template of three lines. *)
Definition SYSTEM : jsstring :=
  lit "You are a strict B2B GTM evaluator. Score six dimensions (Why change, Why now, Why your company, Emotion→Logic, Buyer-as-hero, Clarity)."
  ++ nl ++ lit "Use 0=None, 2=Emerging, 3=Basic, 4=Advanced, 5=Leading. Output ONLY JSON matching the schema. Write an executive summary >=75 words explaining the overall band."
  ++ nl ++ lit "For EACH dimension write two fields: rationale >=45 words (why this level) and how_to_advance >=45 words (how to reach next level), tailored to the user's answers. Provide role-tailored coaching, a suggested final value proposition, and 3–6 next actions. Do not fabricate external facts.".

Definition schemaFields : list (jsstring * jsval) :=
  [ (lit "profile",
     JObject [ (lit "name", JString []); (lit "role", JString []);
               (lit "email", JString []); (lit "organization", JString []) ]);
    (lit "executive_summary", JString []);
    (lit "total", JNumber 0);
    (lit "band", JString (lit "None"));
    (lit "dimensions", JArray []);
    (lit "coaching",
     JObject [ (lit "role_adaptive", JBool true);
               (lit "headline_edit", JString []);
               (lit "urgency_tightening", JString []);
               (lit "differentiator_rewrite", JString []);
               (lit "value_calc_outline", JArray []);
               (lit "final_value_prop", JString []);
               (lit "next_actions", JArray []) ]);
    (lit "risks", JArray []);
    (lit "path", JString (lit "A")) ].

Definition schemaHint : jsval := JObject schemaFields.

(** A property written into an object literal after a spread: it takes the
    place of the property of that name, or comes last. *)
Fixpoint setField (k : jsstring) (v : jsval) (fields : list (jsstring * jsval))
    : list (jsstring * jsval) :=
  match fields with
  | [] => [(k, v)]
  | (k', v') :: fields' =>
      if JsString.eqb k k' then (k, v) :: fields'
      else (k', v') :: setField k v fields'
  end.

(** [{ ...schemaHint, band: 'None', total: 0, demo: true }] *)
Definition demoValue : jsval :=
  JObject (setField (lit "demo") (JBool true)
             (setField (lit "total") (JNumber 0)
                (setField (lit "band") (JString (lit "None")) schemaFields))).

(** [{ ...schemaHint, parse_error: true }] *)
Definition parseErrorValue : jsval :=
  JObject (setField (lit "parse_error") (JBool true) schemaFields).

(** A destructuring default: it stands in for [undefined] only. *)
Definition orDefault (v d : jsval) : jsval :=
  match v with
  | JUndefined => d
  | _ => v
  end.

(** What [fetch] resolves to: [resp.ok] and the text of the body. *)
Record FetchResponse := { ok : bool; responseText : jsstring }.

Section EdgePost.

Context {host : Host}.

Variable env : Env.

(** [fetch] with the key of the authorization header and the text of the
    request body: [None] when it rejects. *)
Variable fetchOpenAI : jsstring -> jsstring -> option FetchResponse.

(** [JSON.parse] converts its argument to a string inside the [try]. *)
Definition safeParse (text fallback : jsval) : jsval :=
  match s <-? toStr text ;; JSON_parse s with
  | Some v => v
  | None => fallback
  end.

(** The callback of [data.output.map]. *)
Definition outputItemText (o : jsval) : option jsval :=
  if isNullish o then None
  else
    let content := prop o (lit "content") in
    if isArray content
       && isTheString (optProp (elem0 content) (lit "type")) (lit "output_text")
    then Some (prop (elem0 content) (lit "text"))
    else if truthy content && truthy (optProp (elem0 content) (lit "text"))
    then Some (prop (elem0 content) (lit "text"))
    else Some (JString []).

(** The text of the model in the answer of the upstream service. *)
Definition extractText (data : jsval) : option jsval :=
  if isNullish data then None
  else if truthy (prop data (lit "output_text")) then Some (prop data (lit "output_text"))
  else
    match prop data (lit "output") with
    | JArray items =>
        texts <-? mapM outputItemText items ;;
        lines <-? mapM joinItem texts ;;
        Some (JString (joinWith nl lines))
    | _ =>
        if truthy (firstChoiceContent data) then Some (firstChoiceContent data)
        else Some (JString [])
    end.

(** The object whose text is sent upstream. *)
Definition requestValue (profile answers : jsval) : jsval :=
  JObject [ (lit "model", JString (lit "gpt-5.1-mini"));
            (lit "temperature", JNumber (2 # 10));
            (lit "reasoning", JObject [ (lit "effort", JString (lit "medium")) ]);
            (lit "input",
             JArray [ JObject [ (lit "role", JString (lit "system"));
                                (lit "content", JString SYSTEM) ];
                      JObject [ (lit "role", JString (lit "user"));
                                (lit "content",
                                 JString (JSON_stringify
                                            (JObject [ (lit "profile", profile);
                                                       (lit "answers", answers) ]))) ] ]) ].

(** The handler after the method guard; [None] when it throws. *)
Definition edgePost (body : jsstring) : option Response :=
  parsed <-? JSON_parse body ;;
  if isNullish parsed then None
  else
    let profile := orDefault (prop parsed (lit "profile")) (JObject []) in
    let answers := orDefault (prop parsed (lit "answers")) (JObject []) in
    match usableKey env with
    | None => Some (newResponse (jsonText demoValue) 200 [])
    | Some apiKey =>
        resp <-? fetchOpenAI apiKey (jsonText (requestValue profile answers)) ;;
        if negb (ok resp) then
          Some (newResponse
                  (jsonText (JObject [ (lit "error", JString (lit "OpenAI error"));
                                       (lit "detail", JString (responseText resp)) ]))
                  500 [])
        else
          data <-? JSON_parse (responseText resp) ;;
          text <-? extractText data ;;
          Some (newResponse (jsonText (safeParse text parseErrorValue)) 200
                  [ (lit "Content-Type", lit "application/json") ])
    end.

(** [handler] on a request with its body. *)
Definition edgeServe (req : Request) (body : jsstring) : option Response :=
  if negb (JsString.eqb (method req) (lit "POST")) then
    Some (newResponse (stringifyError (lit "Use POST")) 405 [])
  else edgePost body.

End EdgePost.

(* ===================================================================== *)
(** ** Vocabulary and sample data for the handlers *)
(* ===================================================================== *)

(** [body || '{}'] *)
Definition requestText (text : jsstring) : jsstring :=
  if nonEmpty text then text else lit "{}".

(** The first code unit is there and is not white space. *)
Definition firstIsInk (s : jsstring) : bool :=
  match s with
  | [] => false
  | c :: _ => negb (isWhiteSpace c)
  end.

(** The entries of [unknownPatterns] with an apostrophe or a slash. *)
Definition deadPatterns : list jsstring :=
  [lit "i don't know"; lit "i don’t know"; lit "n/a"; lit "don’t have"; lit "don't have"].

(** A request body with a profile and answers, and an answer of the chat
    completions shape. *)
Definition plainRequest (profile answers : jsval) : jsval :=
  JObject [ (lit "profile", profile); (lit "answers", answers) ].

Definition chatAnswer (content : jsval) : jsval :=
  JObject [ (lit "choices",
             JArray [ JObject [ (lit "message", JObject [ (lit "content", content) ]) ] ]) ].


(** A request with an attachment whose content is a number. *)
Definition attachedRequest : jsval :=
  JObject [ (lit "profile", sampleProfile); (lit "answers", sampleAnswers);
            (lit "attachments",
             JObject [ (lit "q2", JObject [ (lit "name", JString (lit "notes.txt"));
                                            (lit "content", JNumber 5) ]) ]) ].

Definition bandReport : jsval := JObject [ (lit "band", JString (lit "Basic")) ].

(** The fields of the profile the prompt names. *)
Definition profileFields : list jsstring :=
  [lit "name"; lit "role"; lit "email"; lit "organization"].

(** A request whose profile name is the object [{toString: 1}]. *)
Definition unprintableRequest : jsval :=
  plainRequest (JObject [ (lit "name", JObject [ (lit "toString", JNumber 1) ]) ])
    sampleAnswers.

(** A host for the sample runs: its parser knows these texts and no other,
    and its conversions write a fixed text. *)
Definition sampleBodies : list (jsstring * jsval) :=
  [ (lit "{}", JObject []);
    (lit "null", JNull);
    (lit "sample", plainRequest sampleProfile sampleAnswers);
    (lit "numeric", plainRequest sampleProfile (JObject [ (lit "q1", JNumber 5) ]));
    (lit "attached", attachedRequest);
    (lit "unprintable", unprintableRequest);
    (lit "report", bandReport) ].

Definition sampleHost : Host :=
  {| JSON_parse := fun s => lookup s sampleBodies;
     JSON_stringify := fun _ => lit "[json]";
     hostToString := fun _ => lit "[object]" |}.

Definition noKey : Env := {| OPENAI_API_KEY := None |}.

Definition someKey : Env := {| OPENAI_API_KEY := Some (lit "sk-test") |}.

(** A model that rejects, a model that answers [v], an upstream service
    that refuses and one that answers with a text. *)
Definition rejecting : jsstring -> Payload -> option jsval := fun _ _ => None.

Definition answering (v : jsval) : jsstring -> Payload -> option jsval := fun _ _ => Some v.

Definition failingUpstream : jsstring -> jsstring -> option FetchResponse :=
  fun _ _ => Some {| ok := false; responseText := lit "quota exceeded" |}.

Definition answeringUpstream (text : jsstring) : jsstring -> jsstring -> option FetchResponse :=
  fun _ _ => Some {| ok := true; responseText := text |}.

(** Answers of white space only. *)
Definition blankAnswers : jsval :=
  answers6 (lit " ") (lit " ") (lit " ") (lit " ") (lit " ") (lit "   ").

Definition blankReport : Report :=
  @reportFor asciiRuntime (JObject []) [] (fun k => textOf (prop blankAnswers k)).

Definition whyChange : Category := {| name := lit "Why change"; key := lit "q1" |}.

(* ===================================================================== *)
(** ** Facts about strings *)
(* ===================================================================== *)

Lemma jsstring_eqb_eq (s t : jsstring) : JsString.eqb s t = true <-> s = t.
Proof.
revert t; induction s as [|c s IH]; intros [|d t]; simpl;
  try (split; [discriminate | discriminate]); try tauto.
rewrite andb_true_iff, N.eqb_eq, IH.
split; [intros [-> ->]; reflexivity | intros H; inversion H; auto].
Qed.

Lemma jsstring_eqb_refl (s : jsstring) : JsString.eqb s s = true.
Proof. apply jsstring_eqb_eq; reflexivity. Qed.

Lemma jsstring_eqb_neq (s t : jsstring) : JsString.eqb s t = false <-> s <> t.
Proof.
rewrite <- jsstring_eqb_eq. destruct (JsString.eqb s t); split; congruence.
Qed.

Lemma isAscii_trimStart (s : jsstring) :
  forallb isAscii s = true -> forallb isAscii (trimStart s) = true.
Proof.
  induction s as [|c s IH]; simpl; auto.
  intros H. apply andb_true_iff in H as [Hc Hs].
  destruct (isWhiteSpace c); auto. simpl. rewrite Hc, Hs. reflexivity.
Qed.

Lemma isAscii_rev (s : jsstring) :
  forallb isAscii s = true -> forallb isAscii (rev s) = true.
Proof.
  rewrite !forallb_forall. intros H x Hx. apply H. apply in_rev. exact Hx.
Qed.

Lemma isAscii_trim (s : jsstring) :
  forallb isAscii s = true -> forallb isAscii (trim s) = true.
Proof.
  intros H. unfold trim, trimEnd.
  apply isAscii_rev, isAscii_trimStart, isAscii_rev, isAscii_trimStart, H.
Qed.

(** *** Splitting on white space *)

Lemma splitWs_word (w : jsstring) :
  forall cur rest,
    forallb (fun c => negb (isWhiteSpace c)) w = true ->
    splitWs false cur (w ++ rest) = splitWs false (cur ++ w) rest.
Proof.
  induction w as [|c w IH]; intros cur rest H; simpl.
  - rewrite app_nil_r. reflexivity.
  - simpl in H. apply andb_true_iff in H as [Hc Hw].
    apply negb_true_iff in Hc. rewrite Hc.
    rewrite IH by exact Hw. rewrite <- app_assoc. reflexivity.
Qed.

Lemma splitWs_after_sep (w : jsstring) (rest : jsstring) :
  isWord w = true -> splitWs true [] (w ++ rest) = splitWs false w rest.
Proof.
  unfold isWord. intros H. apply andb_true_iff in H as [Hne Hw].
  destruct w as [|c w]; [discriminate|].
  simpl in Hw. apply andb_true_iff in Hw as [Hc Hw].
  apply negb_true_iff in Hc. simpl. rewrite Hc. simpl.
  exact (splitWs_word w [c] rest Hw).
Qed.

Lemma splitWs_in_sep (sep : jsstring) :
  forall cur rest,
    forallb isWhiteSpace sep = true ->
    splitWs true cur (sep ++ rest) = splitWs true cur rest.
Proof.
  induction sep as [|c sep IH]; intros cur rest H; simpl; auto.
  simpl in H. apply andb_true_iff in H as [Hc Hs]. rewrite Hc. auto.
Qed.

Lemma splitWs_sep (sep : jsstring) (cur rest : jsstring) :
  isSeparator sep = true ->
  splitWs false cur (sep ++ rest) = cur :: splitWs true [] rest.
Proof.
  unfold isSeparator. intros H. apply andb_true_iff in H as [Hne Hs].
  destruct sep as [|c sep]; [discriminate|].
  simpl in Hs. apply andb_true_iff in Hs as [Hc Hs].
  simpl. rewrite Hc. f_equal. apply splitWs_in_sep, Hs.
Qed.

Lemma splitWs_tail (sep : jsstring) (ws : list jsstring) :
  isSeparator sep = true ->
  forallb isWord ws = true ->
  forall cur, splitWs false cur (flat_map (fun v => sep ++ v) ws) = cur :: ws.
Proof.
  intros Hsep. induction ws as [|v ws IH]; intros Hws cur; simpl.
  - reflexivity.
  - simpl in Hws. apply andb_true_iff in Hws as [Hv Hws].
    rewrite <- app_assoc, splitWs_sep by exact Hsep.
    rewrite splitWs_after_sep by exact Hv.
    rewrite IH by exact Hws. reflexivity.
Qed.

(** Splitting gives back the words that were joined. *)
Lemma split_ws_unwords (sep : jsstring) (ws : list jsstring) :
  isSeparator sep = true -> forallb isWord ws = true -> ws <> [] ->
  split_ws (unwords sep ws) = ws.
Proof.
  intros Hsep Hws Hne. destruct ws as [|w ws]; [congruence|].
  simpl in Hws. apply andb_true_iff in Hws as [Hw Hws].
  unfold split_ws, unwords.
  unfold isWord in Hw. apply andb_true_iff in Hw as [_ Hw].
  rewrite splitWs_word by exact Hw. simpl.
  apply splitWs_tail; assumption.
Qed.

Lemma trimStart_split (s : jsstring) :
  exists w, s = w ++ trimStart s /\ forallb isWhiteSpace w = true.
Proof.
  induction s as [|c s (w & E & Hw)]; [exists []; auto|].
  simpl. destruct (isWhiteSpace c) eqn:Ec.
  - exists (c :: w). simpl. rewrite Ec, Hw, <- E. auto.
  - exists []. auto.
Qed.

Lemma trimStart_head (s : jsstring) :
  match trimStart s with
  | [] => True
  | c :: _ => isWhiteSpace c = false
  end.
Proof.
  induction s as [|c s IH]; simpl; [exact I|].
  destruct (isWhiteSpace c) eqn:Ec; [exact IH | exact Ec].
Qed.

Lemma trimStart_blank (s : jsstring) :
  forallb isWhiteSpace s = true -> trimStart s = [].
Proof.
  induction s as [|c s IH]; simpl; [reflexivity|].
  intros H. apply andb_true_iff in H as [-> Hs]. auto.
Qed.

Lemma trim_blank (s : jsstring) : forallb isWhiteSpace s = true -> trim s = [].
Proof. intros H. unfold trim, trimEnd. rewrite (trimStart_blank s H). reflexivity. Qed.

Lemma trimEnd_split (s : jsstring) :
  exists w, s = trimEnd s ++ w /\ forallb isWhiteSpace w = true.
Proof.
  destruct (trimStart_split (rev s)) as (w & E & Hw).
  exists (rev w). split.
  - unfold trimEnd. rewrite <- rev_app_distr, <- E, rev_involutive. reflexivity.
  - rewrite forallb_forall in *. intros c Hc. apply Hw, in_rev, Hc.
Qed.

Lemma trim_incl (s : jsstring) (c : N) : In c (trim s) -> In c s.
Proof.
  intros H. unfold trim in H.
  destruct (trimEnd_split (trimStart s)) as (w & E & _).
  destruct (trimStart_split s) as (v & E' & _).
  rewrite E', E. apply in_or_app. right. apply in_or_app. left. exact H.
Qed.

Lemma trim_last (s : jsstring) : trim s <> [] -> firstIsInk (rev (trim s)) = true.
Proof.
  unfold trim, trimEnd. rewrite rev_involutive. intros H.
  pose proof (trimStart_head (rev (trimStart s))) as Hh.
  destruct (trimStart (rev (trimStart s))) as [|c r]; [contradiction H; reflexivity|].
  simpl. rewrite Hh. reflexivity.
Qed.

Lemma trim_first (s : jsstring) : trim s <> [] -> firstIsInk (trim s) = true.
Proof.
  intros H. unfold trim in *.
  destruct (trimEnd_split (trimStart s)) as (w & E & _).
  pose proof (trimStart_head s) as Hh.
  destruct (trimEnd (trimStart s)) as [|c r]; [contradiction H; reflexivity|].
  rewrite E in Hh. simpl in Hh. simpl. rewrite Hh. reflexivity.
Qed.

Lemma rev_cons_first (c : N) (r : jsstring) :
  r <> [] -> firstIsInk (rev (c :: r)) = firstIsInk (rev r).
Proof.
  intros H. simpl. destruct (rev r) as [|d t] eqn:E.
  - apply (f_equal (@rev N)) in E. rewrite rev_involutive in E. contradiction.
  - reflexivity.
Qed.

Lemma splitWs_words (s : jsstring) :
  forall b cur,
    forallb (fun c => negb (isWhiteSpace c)) cur = true ->
    (b = true -> cur = []) ->
    (b = false -> cur = [] -> firstIsInk s = true) ->
    (s = [] -> cur <> []) ->
    (s <> [] -> firstIsInk (rev s) = true) ->
    forallb isWord (splitWs b cur s) = true.
Proof.
  induction s as [|c r IH]; intros b cur Hcur Hb Hstart Hnil Hlast.
  - simpl. unfold isWord. rewrite Hcur.
    destruct cur; [contradiction (Hnil eq_refl); reflexivity | reflexivity].
  - assert (Hr : isWhiteSpace c = true -> r <> []).
    { intros Hc ->. specialize (Hlast ltac:(discriminate)). simpl in Hlast.
      rewrite Hc in Hlast. discriminate. }
    assert (Hlast' : r <> [] -> firstIsInk (rev r) = true).
    { intros Hne. rewrite <- (rev_cons_first c r Hne). apply Hlast. discriminate. }
    simpl. destruct (isWhiteSpace c) eqn:Ec.
    + destruct b.
      * rewrite (Hb eq_refl). apply IH; auto; try discriminate.
        intros E. contradiction (Hr eq_refl E).
      * assert (Hne : cur <> []).
        { intros ->. specialize (Hstart eq_refl eq_refl). simpl in Hstart.
          rewrite Ec in Hstart. discriminate. }
        simpl. unfold isWord at 1. rewrite Hcur.
        destruct cur as [|d t]; [contradiction Hne; reflexivity|]. simpl.
        apply IH; auto; try discriminate.
        intros E. contradiction (Hr eq_refl E).
    + apply IH.
      * rewrite forallb_app, Hcur. simpl. rewrite Ec. reflexivity.
      * intros E. discriminate E.
      * intros _ E. destruct cur; discriminate.
      * intros _ E. destruct cur; discriminate.
      * exact Hlast'.
Qed.

(** Splitting gives back the words of a text, whatever runs of white space
    separate them. *)
Lemma splitWs_joined (rest : list (jsstring * jsstring)) :
  forallb (fun sw => isSeparator (fst sw) && isWord (snd sw)) rest = true ->
  forall cur,
    splitWs false cur (flat_map (fun sw => fst sw ++ snd sw) rest) = cur :: map snd rest.
Proof.
  induction rest as [|[sep v] rest IH]; intros H cur; simpl.
  - reflexivity.
  - simpl in H. apply andb_true_iff in H as [Hsv Hrest].
    apply andb_true_iff in Hsv as [Hsep Hv].
    rewrite <- app_assoc, splitWs_sep by exact Hsep.
    rewrite splitWs_after_sep by exact Hv.
    rewrite IH by exact Hrest. reflexivity.
Qed.

Lemma split_ws_joinWords (w : jsstring) (rest : list (jsstring * jsstring)) :
  areWords w rest = true -> split_ws (joinWords w rest) = w :: map snd rest.
Proof.
  unfold areWords, split_ws, joinWords. intros H.
  apply andb_true_iff in H as [Hw Hrest].
  unfold isWord in Hw. apply andb_true_iff in Hw as [_ Hw].
  rewrite splitWs_word by exact Hw. simpl.
  apply splitWs_joined, Hrest.
Qed.

(** What the split reads: white space it skips, the end of the piece at
    hand, and then separators and pieces in turn. *)
Lemma splitWs_joins (s : jsstring) :
  forall b cur,
  exists lead w rest,
    splitWs b cur s = (cur ++ w) :: map snd rest
    /\ s = lead ++ joinWords w rest
    /\ forallb isWhiteSpace lead = true
    /\ (b = false -> lead = [])
    /\ forallb (fun sw => isSeparator (fst sw)) rest = true.
Proof.
  induction s as [|c r IH]; intros b cur.
  - exists [], [], []. rewrite app_nil_r. repeat split.
  - simpl. destruct (isWhiteSpace c) eqn:Ec.
    + destruct b.
      * destruct (IH true cur) as (lead & w & rest & E & Es & Hl & _ & Hr).
        exists (c :: lead), w, rest. split; [exact E|]. split; [simpl; rewrite <- Es; reflexivity|].
        split; [simpl; rewrite Ec, Hl; reflexivity|]. split; [discriminate | exact Hr].
      * destruct (IH true []) as (lead & w & rest & E & Es & Hl & _ & Hr).
        exists [], [], ((c :: lead, w) :: rest).
        split; [rewrite E, app_nil_r; reflexivity|].
        split; [unfold joinWords in *; simpl; rewrite <- app_assoc, <- Es; reflexivity|].
        split; [reflexivity|]. split; [reflexivity|].
        simpl. unfold isSeparator at 1. simpl. rewrite Ec, Hl, Hr. reflexivity.
    + destruct (IH false (cur ++ [c])) as (lead & w & rest & E & Es & _ & Hlead & Hr).
      rewrite (Hlead eq_refl) in Es.
      exists [], (c :: w), rest.
      split; [rewrite E, <- app_assoc; reflexivity|].
      split; [unfold joinWords in *; simpl in *; rewrite <- Es; reflexivity|].
      split; [reflexivity|]. split; [reflexivity | exact Hr].
Qed.

Lemma areWords_pieces (w : jsstring) (rest : list (jsstring * jsstring)) :
  forallb isWord (w :: map snd rest) = true ->
  forallb (fun sw => isSeparator (fst sw)) rest = true ->
  areWords w rest = true.
Proof.
  unfold areWords. simpl. intros H Hs. apply andb_true_iff in H as [-> H]. simpl.
  induction rest as [|[sep v] rest IH]; [reflexivity|].
  simpl in *. apply andb_true_iff in H as [-> H]. apply andb_true_iff in Hs as [-> Hs].
  simpl. apply IH; assumption.
Qed.

(** A trimmed text that is not empty is made of words. *)
Lemma trimmed_text_words (raw : jsstring) :
  trim raw <> [] ->
  exists w rest, trim raw = joinWords w rest /\ areWords w rest = true.
Proof.
  intros H.
  destruct (splitWs_joins (trim raw) false []) as (lead & w & rest & E & Es & _ & Hlead & Hr).
  rewrite (Hlead eq_refl) in Es.
  change ([] ++ joinWords w rest) with (joinWords w rest) in Es.
  change ([] ++ w) with w in E.
  exists w, rest. split; [exact Es|].
  apply areWords_pieces; [|exact Hr].
  assert (Hw : forallb isWord (splitWs false [] (trim raw)) = true).
  { apply splitWs_words;
      [ reflexivity | intros E'; discriminate E' | intros _ _; apply trim_first, H
      | intros E'; contradiction | intros _; apply trim_last, H ]. }
  rewrite E in Hw. exact Hw.
Qed.

(* ===================================================================== *)
(** ** The answer classifier *)
(* ===================================================================== *)

Section ClassifierFacts.

Context {rt : Runtime}.

Lemma toLowerCase_nil : toLowerCase [] = [].
Proof. rewrite toLowerCase_ascii; reflexivity. Qed.

Lemma normalised_nil : normalised [] = [].
Proof. unfold normalised. rewrite toLowerCase_nil. reflexivity. Qed.

Lemma isUnknown_nil : isUnknown [] = true.
Proof. unfold isUnknown. rewrite normalised_nil. reflexivity. Qed.

(** The test is an exact comparison with the entries of the list. *)
Lemma isUnknown_spec (ans : jsstring) :
  isUnknown ans = true <-> normalised ans = [] \/ In (normalised ans) unknownPatterns.
Proof.
  unfold isUnknown, arrayIncludes. rewrite orb_true_iff, existsb_exists. split.
  - intros [H | [x [Hin Heq]]].
    + left. destruct (normalised ans); [reflexivity | discriminate].
    + right. apply jsstring_eqb_eq in Heq. subst x. exact Hin.
  - intros [H | H].
    + left. rewrite H. reflexivity.
    + right. exists (normalised ans). split; [exact H | apply jsstring_eqb_refl].
Qed.

Lemma classify_unknown (ans : jsstring) :
  isUnknown ans = true -> classify ans = (1, L_None).
Proof. unfold classify. intros ->. reflexivity. Qed.

Lemma known_nonEmpty (ans : jsstring) : isUnknown ans = false -> nonEmpty ans = true.
Proof.
  destruct ans; [rewrite isUnknown_nil; discriminate | reflexivity].
Qed.

Lemma wordCount_known (ans : jsstring) :
  isUnknown ans = false -> wordCount ans = Z.of_nat (List.length (split_ws ans)).
Proof. intros H. unfold wordCount. rewrite (known_nonEmpty _ H). reflexivity. Qed.

Lemma splitWs_length (s : jsstring) :
  forall b cur, (1 <= List.length (splitWs b cur s))%nat.
Proof.
  induction s as [|c s IH]; intros b cur; simpl; [lia|].
  destruct (isWhiteSpace c); [destruct b; [apply IH | simpl; lia] | apply IH].
Qed.

Lemma classify_score_level (ans : jsstring) :
  fst (classify ans) = levelRank (snd (classify ans)).
Proof.
  unfold classify.
  destruct (isUnknown ans); [reflexivity|].
  destruct (wordCount ans <? 15); [reflexivity|].
  destruct (wordCount ans <? 40); [reflexivity|].
  destruct (wordCount ans <? 80); reflexivity.
Qed.

Lemma classify_range (ans : jsstring) : 1 <= fst (classify ans) <= 5.
Proof.
  rewrite classify_score_level. destruct (snd (classify ans)); simpl; lia.
Qed.

(** The classifier reads its runtime on Basic Latin answers only through
    the law of the interface. *)
Lemma classify_ascii (ans : jsstring) :
  forallb isAscii ans = true -> classify ans = @classify asciiRuntime ans.
Proof.
  intros H. unfold classify, isUnknown, normalised.
  rewrite (toLowerCase_ascii ans H). reflexivity.
Qed.

End ClassifierFacts.

(* ===================================================================== *)
(** ** The scorer on inputs of the data model *)
(* ===================================================================== *)

Lemma bind_ok {A B} (m : result A) (f : A -> result B) (b : B) :
  bind m f = Ok b -> exists a, m = Ok a /\ f a = Ok b.
Proof. destruct m as [a|e]; simpl; [eauto | discriminate]. Qed.

Lemma getProp_ok (v : jsval) (k : jsstring) (raw : jsval) :
  getProp v k = Ok raw -> raw = prop v k /\ isNullish v = false.
Proof.
  destruct v; simpl; intros H; try discriminate; inversion H; auto.
Qed.

Lemma getProp_total (v : jsval) (k : jsstring) :
  isNullish v = false -> getProp v k = Ok (prop v k).
Proof. destruct v; simpl; intros H; try discriminate; reflexivity. Qed.

Lemma truthy_text (v : jsval) : isText v = true -> truthy v = nonEmpty (textOf v).
Proof.
  destruct v; simpl; try reflexivity; intros H; try discriminate;
    apply negb_true_iff in H; auto.
Qed.

Lemma orElse_text (v : jsval) :
  isText v = true -> orElse v (JString []) = JString (textOf v).
Proof.
  intros H. unfold orElse. rewrite (truthy_text _ H).
  destruct v; simpl in *; try reflexivity; try discriminate.
  destruct s; reflexivity.
Qed.

Lemma orElse_not_text (v : jsval) :
  isText v = false -> orElse v (JString []) = v /\ textOf v = [].
Proof.
  unfold orElse. destruct v; simpl; try discriminate;
    intros H; try (apply negb_false_iff in H; rewrite H); auto.
Qed.

Lemma callTrim_ok (raw : jsval) (ans : jsstring) :
  callTrim (orElse raw (JString [])) = Ok ans ->
  ans = trim (textOf raw) /\ isText raw = true.
Proof.
  destruct (isText raw) eqn:E.
  - rewrite (orElse_text _ E). simpl. intros H; inversion H; auto.
  - destruct (orElse_not_text _ E) as [-> _].
    destruct raw; simpl in *; try discriminate.
Qed.

Section ScorerFacts.

Context {rt : Runtime}.

Lemma callToLowerCase_ok (raw : jsval) (low : jsstring) :
  callToLowerCase (orElse raw (JString [])) = Ok low ->
  low = toLowerCase (textOf raw) /\ isText raw = true.
Proof.
  destruct (isText raw) eqn:E.
  - rewrite (orElse_text _ E). simpl. intros H; inversion H; auto.
  - destruct (orElse_not_text _ E) as [-> _].
    destruct raw; simpl in *; try discriminate.
Qed.

Lemma scoreCategory_total (a : jsval) (cat : Category) (t : Z) (ds : list DimResult) :
  isNullish a = false -> isText (prop a (key cat)) = true ->
  scoreCategory a (t, ds) cat
  = Ok (t + d_score (rowOf cat (answerOf a cat)), ds ++ [rowOf cat (answerOf a cat)]).
Proof.
  intros Ha Hk. unfold scoreCategory.
  rewrite (getProp_total _ _ Ha). simpl.
  rewrite (orElse_text _ Hk). simpl.
  unfold rowOf, answerOf.
  destruct (classify (trim (textOf (prop a (key cat))))) as [sc lv]. reflexivity.
Qed.

Lemma scoreCategory_ok (a : jsval) (cat : Category) (st st' : Z * list DimResult) :
  scoreCategory a st cat = Ok st' ->
  isNullish a = false /\ isText (prop a (key cat)) = true.
Proof.
  unfold scoreCategory. destruct st as [t ds]. intros H.
  apply bind_ok in H as [raw [Hraw H]].
  apply bind_ok in H as [ans [Hans _]].
  apply getProp_ok in Hraw as [-> Ha].
  apply callTrim_ok in Hans as [_ Hk]. auto.
Qed.

Lemma forEach_score_total (a : jsval) (cats : list Category) :
  isNullish a = false ->
  Forall (fun cat => isText (prop a (key cat)) = true) cats ->
  forall t ds,
    forEach (scoreCategory a) cats (t, ds)
    = Ok (t + scoreSum (rowsOf a cats), ds ++ rowsOf a cats).
Proof.
  intros Ha Hcats. induction Hcats as [|cat cats Hk _ IH]; intros t ds; cbn [forEach].
  - unfold rowsOf. simpl. rewrite Z.add_0_r, app_nil_r. reflexivity.
  - rewrite scoreCategory_total by assumption. cbn [bind].
    rewrite IH. unfold rowsOf. cbn [map scoreSum fold_right]. rewrite <- app_assoc, Z.add_assoc. reflexivity.
Qed.

Lemma forEach_score_ok (a : jsval) (cats : list Category) :
  forall st st',
    forEach (scoreCategory a) cats st = Ok st' ->
    Forall (fun cat => isText (prop a (key cat)) = true) cats
    /\ (cats <> [] -> isNullish a = false).
Proof.
  induction cats as [|cat cats IH]; intros st st' H; cbn [forEach] in H.
  - split; [constructor | congruence].
  - apply bind_ok in H as [st1 [H1 H2]].
    apply scoreCategory_ok in H1 as [Ha Hk].
    apply IH in H2 as [Hcats _]. split; [constructor; assumption | auto].
Qed.

(** On inputs of the data model the scorer returns, and returns the report
    of the texts. *)
Lemma finalValue_text (v : jsval) (d : jsstring) :
  isText v = true ->
  (if truthy v then callTrim v else Ok d)
  = Ok (if nonEmpty (textOf v) then trim (textOf v) else d).
Proof.
  intros H. rewrite (truthy_text _ H).
  destruct v; simpl in *; try reflexivity; try discriminate.
  destruct s; reflexivity.
Qed.

Lemma clarity_is_category : In {| name := lit "Clarity"; key := lit "q6" |} categories.
Proof. unfold categories. do 5 right. left. reflexivity. Qed.

Lemma fallbackEvaluate_total (p a : jsval) :
  wellFormed p a ->
  fallbackEvaluate p a
  = Ok (reportFor p (textOf (prop p (lit "role"))) (fun k => textOf (prop a k))).
Proof.
  intros (Hp & Ha & Hrole & Hcats).
  assert (Hq6 : isText (prop a (lit "q6")) = true).
  { rewrite Forall_forall in Hcats. exact (Hcats _ clarity_is_category). }
  unfold fallbackEvaluate.
  rewrite forEach_score_total by assumption. cbn [bind].
  rewrite (getProp_total p) by assumption. cbn [bind].
  rewrite orElse_text by assumption. cbn [bind callToLowerCase].
  rewrite (getProp_total a) by assumption. cbn [bind].
  rewrite finalValue_text by assumption. cbn [bind].
  rewrite Z.add_0_l, app_nil_l.
  reflexivity.
Qed.

(** Outside the data model it throws. *)
Lemma fallbackEvaluate_ok (p a : jsval) (r : Report) :
  fallbackEvaluate p a = Ok r -> wellFormed p a.
Proof.
  unfold fallbackEvaluate. intros H.
  apply bind_ok in H as [[t ds] [Hloop H]].
  apply bind_ok in H as [role [Hrole H]].
  apply bind_ok in H as [low [Hlow H]].
  apply forEach_score_ok in Hloop as [Hcats Ha].
  apply getProp_ok in Hrole as [-> Hp].
  apply callToLowerCase_ok in Hlow as [_ Hr].
  repeat split; auto. apply Ha. discriminate.
Qed.

Lemma fallbackEvaluate_inv (p a : jsval) (r : Report) :
  fallbackEvaluate p a = Ok r ->
  r = reportFor p (textOf (prop p (lit "role"))) (fun k => textOf (prop a k)).
Proof.
  intros H. pose proof (fallbackEvaluate_total p a (fallbackEvaluate_ok p a r H)) as E.
  congruence.
Qed.

End ScorerFacts.

Lemma wellFormedb_true (p a : jsval) : wellFormedb p a = true -> wellFormed p a.
Proof.
  unfold wellFormedb, wellFormed. rewrite !andb_true_iff, !negb_true_iff.
  intros [[[Hp Ha] Hr] Hc]. repeat split; auto.
  apply Forall_forall. rewrite forallb_forall in Hc. exact Hc.
Qed.

Section ScorerOnBasicLatin.

Context {rt : Runtime}.

Lemma rowOf_ascii (cat : Category) (ans : jsstring) :
  forallb isAscii ans = true -> rowOf cat ans = @rowOf asciiRuntime cat ans.
Proof. intros H. unfold rowOf. rewrite (classify_ascii ans H). reflexivity. Qed.

(** On Basic Latin texts every runtime gives the report of [asciiRuntime],
    which evaluates. *)
Lemma reportFor_ascii (p : jsval) (role : jsstring) (text : jsstring -> jsstring) :
  asciiTexts role text = true ->
  reportFor p role text = @reportFor asciiRuntime p role text.
Proof.
  unfold asciiTexts. rewrite andb_true_iff. intros [Hrole Htext].
  rewrite forallb_forall in Htext.
  assert (E : map (fun cat => rowOf cat (trim (text (key cat)))) categories
              = map (fun cat => @rowOf asciiRuntime cat (trim (text (key cat)))) categories).
  { apply map_ext_in. intros cat Hcat. apply rowOf_ascii, isAscii_trim, Htext, Hcat. }
  unfold reportFor. rewrite E, (toLowerCase_ascii role Hrole). reflexivity.
Qed.

Lemma fallbackEvaluate_ascii (p a : jsval) :
  wellFormedb p a = true ->
  asciiTexts (textOf (prop p (lit "role"))) (fun k => textOf (prop a k)) = true ->
  fallbackEvaluate p a
  = Ok (@reportFor asciiRuntime p (textOf (prop p (lit "role"))) (fun k => textOf (prop a k))).
Proof.
  intros Hwf Hascii.
  rewrite (fallbackEvaluate_total p a (wellFormedb_true _ _ Hwf)).
  rewrite (reportFor_ascii _ _ _ Hascii). reflexivity.
Qed.

End ScorerOnBasicLatin.

(* ===================================================================== *)
(** ** Unknown answers and word-count bands *)
(* ===================================================================== *)

Section Classification.

Context {rt : Runtime}.

(** An answer whose normal form is empty or is an entry of the list gets
    the lowest level and score, in every dimension. *)
Lemma unknown_answer_lowest (cat : Category) (ans : jsstring) :
  normalised ans = [] \/ In (normalised ans) unknownPatterns ->
  d_score (rowOf cat ans) = 1 /\ d_level (rowOf cat ans) = L_None.
Proof.
  intros H. apply isUnknown_spec in H.
  unfold rowOf. cbn [d_score d_level]. rewrite (classify_unknown _ H). auto.
Qed.

Lemma literal_unknown_phrases :
  map (fun s => classify (trim (lit s))) ["n/a"; "unknown"; "none"; ""; "   "; "N/A"; "None."]%string
  = repeat (1, L_None) 7.
Proof.
  cbn [map]. rewrite !(@classify_ascii rt) by (vm_compute; reflexivity).
  vm_compute. reflexivity.
Qed.

(** The comparison is exact: an answer that only contains an entry is
    scored by its length. *)
Lemma contained_phrase_not_unknown :
  classify (trim (lit "none of the above")) = (2, L_Emerging).
Proof. rewrite (@classify_ascii rt) by (vm_compute; reflexivity). vm_compute. reflexivity. Qed.

(** C1.  The literal answer [i don't know] does not reach the lowest level:
    its normal form [i dont know] has lost the apostrophe and equals no
    entry of the list, whose entry [i don't know] still has it, so the
    answer is scored by its three words as Emerging with score 2, in every
    dimension. *)
Theorem i_dont_know_scored_emerging :
  In idk unknownPatterns
  /\ normalised (trim idk) = lit "i dont know"
  /\ ~ In (lit "i dont know") unknownPatterns
  /\ classify (trim idk) = (2, L_Emerging)
  /\ exists r,
       fallbackEvaluate (JObject []) (answers6 idk idk idk idk idk idk) = Ok r
       /\ map (fun d => (d_score d, d_level d)) (dimensions r) = repeat (2, L_Emerging) 6.
Proof.
  split; [left; reflexivity|].
  split; [unfold normalised; rewrite toLowerCase_ascii by (vm_compute; reflexivity);
          vm_compute; reflexivity|].
  split.
  { intros H.
    assert (E : arrayIncludes unknownPatterns (lit "i dont know") = true).
    { apply existsb_exists. exists (lit "i dont know").
      split; [exact H | apply jsstring_eqb_refl]. }
    vm_compute in E. discriminate. }
  split; [rewrite (@classify_ascii rt) by (vm_compute; reflexivity); vm_compute; reflexivity|].
  eexists. split.
  - apply fallbackEvaluate_ascii; vm_compute; reflexivity.
  - vm_compute. reflexivity.
Qed.

(** C2.  An answer that is not unknown is, once trimmed, a text of words
    with runs of white space between them.  Its split on white space gives
    these words, the count is their number and decides the level: fewer
    than 15 words is Emerging, 15 to 39 Basic, 40 to 79 Advanced, 80 and
    more Leading; each boundary belongs to the higher band. *)
Theorem word_count_bands (raw : jsstring) :
  isUnknown (trim raw) = false ->
  (exists w rest, trim raw = joinWords w rest /\ areWords w rest = true)
  /\ forall w rest,
       trim raw = joinWords w rest -> areWords w rest = true ->
       split_ws (trim raw) = w :: map snd rest
       /\ wordCount (trim raw) = numWords w rest
       /\ 1 <= numWords w rest
       /\ (classify (trim raw) = (2, L_Emerging) <-> numWords w rest < 15)
       /\ (classify (trim raw) = (3, L_Basic) <-> 15 <= numWords w rest < 40)
       /\ (classify (trim raw) = (4, L_Advanced) <-> 40 <= numWords w rest < 80)
       /\ (classify (trim raw) = (5, L_Leading) <-> 80 <= numWords w rest)
       /\ (numWords w rest = 14 -> classify (trim raw) = (2, L_Emerging))
       /\ (numWords w rest = 15 -> classify (trim raw) = (3, L_Basic))
       /\ (numWords w rest = 39 -> classify (trim raw) = (3, L_Basic))
       /\ (numWords w rest = 40 -> classify (trim raw) = (4, L_Advanced))
       /\ (numWords w rest = 79 -> classify (trim raw) = (4, L_Advanced))
       /\ (numWords w rest = 80 -> classify (trim raw) = (5, L_Leading)).
Proof.
  intros H.
  assert (Hne : trim raw <> []).
  { intros E. rewrite E, isUnknown_nil in H. discriminate. }
  split; [exact (trimmed_text_words raw Hne)|].
  intros w rest E Hw.
  assert (Hsplit : split_ws (trim raw) = w :: map snd rest).
  { rewrite E. apply split_ws_joinWords, Hw. }
  assert (Hwc : wordCount (trim raw) = numWords w rest).
  { rewrite (wordCount_known _ H), Hsplit. reflexivity. }
  assert (Hpos : 1 <= numWords w rest).
  { unfold numWords. cbn [List.length]. lia. }
  split; [exact Hsplit|]. split; [exact Hwc|]. split; [exact Hpos|].
  unfold classify. rewrite H, Hwc.
  destruct (Z.ltb_spec (numWords w rest) 15);
    destruct (Z.ltb_spec (numWords w rest) 40);
    destruct (Z.ltb_spec (numWords w rest) 80);
    repeat split; intros; try lia; try congruence; try discriminate.
Qed.

End Classification.

Lemma word_count_bands_witness :
  @isUnknown asciiRuntime (trim paddedAnswer) = false
  /\ split_ws (trim paddedAnswer) = repeat (lit "word") 80
  /\ @classify asciiRuntime (trim paddedAnswer) = (5, L_Leading).
Proof.
  assert (H : @isUnknown asciiRuntime (trim paddedAnswer) = false)
    by (vm_compute; reflexivity).
  split; [exact H|].
  destruct (@word_count_bands asciiRuntime paddedAnswer H) as (_ & Hall).
  destruct (Hall (lit "word") (repeat (lit " ", lit "word") 79))
    as (Hsplit & _ & _ & _ & _ & _ & _ & _ & _ & _ & _ & _ & H80).
  - vm_compute. reflexivity.
  - vm_compute. reflexivity.
  - split; [exact Hsplit | apply H80; vm_compute; reflexivity].
Defined.

(** The six boundary answers, in every runtime. *)
Lemma boundary_answers {rt : Runtime} :
  map (fun n => classify (wordsText n)) [14; 15; 39; 40; 79; 80]%nat
  = [(2, L_Emerging); (3, L_Basic); (3, L_Basic); (4, L_Advanced); (4, L_Advanced);
     (5, L_Leading)].
Proof.
  cbn [map]. rewrite !(@classify_ascii rt) by (vm_compute; reflexivity).
  vm_compute. reflexivity.
Qed.

(** A text of [n] words has word count [n], whatever run of white space
    separates them. *)
Lemma wordCount_unwords (sep : jsstring) (ws : list jsstring) :
  isSeparator sep = true -> forallb isWord ws = true -> ws <> [] ->
  wordCount (unwords sep ws) = Z.of_nat (List.length ws).
Proof.
  intros Hsep Hws Hne. unfold wordCount.
  rewrite (split_ws_unwords sep ws Hsep Hws Hne).
  destruct ws as [|w ws]; [congruence|].
  simpl in Hws. apply andb_true_iff in Hws as [Hw _].
  unfold isWord in Hw. apply andb_true_iff in Hw as [Hw _].
  destruct w; [discriminate | reflexivity].
Qed.

(* ===================================================================== *)
(** ** Averages and bands *)
(* ===================================================================== *)

Lemma Qltb_lt (x y : Q) : Qltb x y = true <-> (x < y)%Q.
Proof. unfold Qltb, Qlt. apply Z.ltb_lt. Qed.

Lemma Qltb_ge (x y : Q) : Qltb x y = false <-> (y <= x)%Q.
Proof. unfold Qltb, Qle. apply Z.ltb_ge. Qed.

Lemma bandOf_spec (x : Q) :
  (bandOf (Some x) = L_None <-> (x < 2)%Q)
  /\ (bandOf (Some x) = L_Emerging <-> (2 <= x /\ x < 3)%Q)
  /\ (bandOf (Some x) = L_Basic <-> (3 <= x /\ x < 4)%Q)
  /\ (bandOf (Some x) = L_Advanced <-> (4 <= x /\ x < 5)%Q)
  /\ (bandOf (Some x) = L_Leading <-> (5 <= x)%Q).
Proof.
  unfold bandOf, ltNum.
  destruct (Qltb x 2) eqn:E2; [apply Qltb_lt in E2 | apply Qltb_ge in E2];
  (destruct (Qltb x 3) eqn:E3; [apply Qltb_lt in E3 | apply Qltb_ge in E3]);
  (destruct (Qltb x 4) eqn:E4; [apply Qltb_lt in E4 | apply Qltb_ge in E4]);
  (destruct (Qltb x 5) eqn:E5; [apply Qltb_lt in E5 | apply Qltb_ge in E5]);
  repeat split; intros; try discriminate; try reflexivity; try lra.
Qed.

Lemma bandOf_monotone (x y : Q) :
  (x <= y)%Q -> levelLe (bandOf (Some x)) (bandOf (Some y)).
Proof.
  intros Hxy. unfold levelLe.
  destruct (bandOf_spec x) as (X1 & X2 & X3 & X4 & X5).
  destruct (bandOf_spec y) as (Y1 & Y2 & Y3 & Y4 & Y5).
  destruct (bandOf (Some x)) eqn:Ex; destruct (bandOf (Some y)) eqn:Ey;
    simpl; try lia; exfalso;
    repeat match goal with
    | H : ?l = ?l <-> _ |- _ => pose proof (proj1 H eq_refl); clear H
    | H : _ <-> _ |- _ => clear H
    end; lra.
Qed.

Lemma roundsTo1_unique (t m : Z) :
  roundsTo1 (inject_Z t / 6) m -> m = (10 * t + 3) / 6.
Proof.
  unfold roundsTo1. intros H. apply Qabs_Qle_condition in H as [H1 H2].
  unfold Qle, Qminus, Qplus, Qopp, Qdiv, Qmult, Qinv, inject_Z in H1, H2.
  simpl in H1, H2.
  pose proof (Z.div_mod (10 * t + 3) 6 ltac:(lia)).
  pose proof (Z.mod_pos_bound (10 * t + 3) 6 ltac:(lia)).
  lia.
Qed.




Lemma Qfloor_unique (y : Q) (n : Z) :
  (inject_Z n <= y)%Q -> (y < inject_Z (n + 1))%Q -> Qfloor y = n.
Proof.
  intros Hlo Hhi.
  pose proof (Qfloor_le y) as F1. pose proof (Qlt_floor y) as F2.
  assert (A : (inject_Z n < inject_Z (Qfloor y + 1))%Q) by lra.
  assert (B : (inject_Z (Qfloor y) < inject_Z (n + 1))%Q) by lra.
  rewrite <- Zlt_Qlt in A, B. lia.
Qed.

(** A sixth is never nearer than one sixth of a tenth to a point where the
    rounding changes. *)
Lemma tenths_sixths_margin (t : Z) :
  let n := tenths (inject_Z t / 6) in
  (inject_Z n + (1 # 6) <= inject_Z t / 6 * 10 + (1 # 2))%Q
  /\ (inject_Z t / 6 * 10 + (1 # 2) <= inject_Z n + (5 # 6))%Q.
Proof.
  intros n. subst n. unfold tenths.
  set (y := (inject_Z t / 6 * 10 + (1 # 2))%Q).
  pose proof (Qfloor_le y) as F1. pose proof (Qlt_floor y) as F2.
  set (n := Qfloor y) in *.
  assert (Ey : (y == (10 * t + 3) # 6)%Q).
  { subst y. rewrite (Qmake_Qdiv (10 * t + 3) 6), inject_Z_plus, inject_Z_mult. field. }
  rewrite Ey in F1, F2 |- *.
  unfold Qle, Qlt, Qplus, inject_Z in *. cbn [Qnum Qden] in *. lia.
Qed.

Lemma tenths_stable (t : Z) (x : Q) :
  (Qabs (x - inject_Z t / 6) < 1 # 60)%Q -> tenths x = tenths (inject_Z t / 6).
Proof.
  intros H. destruct (tenths_sixths_margin t) as [M1 M2].
  set (n := tenths (inject_Z t / 6)) in *.
  assert (H' : (- (1 # 60) < x - inject_Z t / 6 /\ x - inject_Z t / 6 < 1 # 60)%Q).
  { apply Qabs_Qlt_condition. exact H. }
  unfold tenths at 1. apply Qfloor_unique.
  - lra.
  - rewrite inject_Z_plus. change (inject_Z 1) with 1%Q. lra.
Qed.

(** So a quotient that is off by less than one sixtieth, as the double
    quotient is by far, is written the same. *)
Lemma toFixed1_stable (t : Z) (x : Q) :
  6 <= t -> (Qabs (x - inject_Z t / 6) < 1 # 60)%Q ->
  toFixed1 x = toFixed1 (inject_Z t / 6).
Proof.
  intros Ht H.
  assert (H' : (- (1 # 60) < x - inject_Z t / 6 /\ x - inject_Z t / 6 < 1 # 60)%Q).
  { apply Qabs_Qlt_condition. exact H. }
  assert (Hq : (1 <= inject_Z t / 6)%Q).
  { unfold Qle, Qdiv, Qmult, Qinv, inject_Z. cbn [Qnum Qden]. lia. }
  assert (Hx : (0 <= x)%Q) by lra.
  assert (Hm : (0 <= inject_Z t / 6)%Q) by lra.
  unfold toFixed1.
  rewrite (proj2 (Qltb_ge x 0) Hx), (proj2 (Qltb_ge (inject_Z t / 6) 0) Hm).
  assert (E : tenths (Qabs x) = tenths (Qabs (inject_Z t / 6))).
  { unfold tenths at 1 2.
    rewrite (Qfloor_comp _ _ (Qplus_comp _ _ (Qmult_comp _ _ (Qabs_pos x Hx) _ _ (Qeq_refl 10)) _ _ (Qeq_refl (1 # 2)))).
    rewrite (Qfloor_comp _ _ (Qplus_comp _ _ (Qmult_comp _ _ (Qabs_pos _ Hm) _ _ (Qeq_refl 10)) _ _ (Qeq_refl (1 # 2)))).
    apply (tenths_stable t x H). }
  rewrite E. reflexivity.
Qed.

Lemma range_forallb (f : Z -> bool) (lo n : nat) :
  forallb f (map Z.of_nat (seq lo n)) = true ->
  forall t, Z.of_nat lo <= t < Z.of_nat (lo + n) -> f t = true.
Proof.
  intros H t Ht. rewrite forallb_forall in H. apply H.
  replace t with (Z.of_nat (Z.to_nat t)) by lia.
  apply in_map, in_seq. lia.
Qed.

Lemma levelRank_inj (a b : Level) : levelRank a = levelRank b -> a = b.
Proof. destruct a, b; simpl; intros H; try reflexivity; discriminate. Qed.

Lemma average_table (t : Z) :
  6 <= t <= 30 ->
  averageOfTotal t = showTenths ((10 * t + 3) / 6)
  /\ parseFloat (averageOfTotal t) = Some ((10 * t + 3) / 6 # 10)
  /\ bandOf (parseFloat (averageOfTotal t)) = bandOfTotal t
  /\ roundsTo1 (inject_Z t / 6) ((10 * t + 3) / 6).
Proof.
  intros Ht.
  assert (H : totalCheck t = true).
  { apply (range_forallb totalCheck 6 25); [vm_compute; reflexivity | lia]. }
  unfold totalCheck in H.
  apply andb_true_iff in H as [H H4]. apply andb_true_iff in H as [H H3].
  apply andb_true_iff in H as [H1 H2].
  apply jsstring_eqb_eq in H1. apply Z.eqb_eq, levelRank_inj in H3.
  apply Qle_bool_iff in H4.
  repeat split; auto.
  destruct (parseFloat (averageOfTotal t)) as [[num den]|]; [|discriminate].
  cbn [Qnum Qden] in H2. apply andb_true_iff in H2 as [Hn Hd].
  apply Z.eqb_eq in Hn. apply Pos.eqb_eq in Hd. subst. reflexivity.
Qed.

Lemma bandOfTotal_monotone (s t : Z) : s <= t -> levelLe (bandOfTotal s) (bandOfTotal t).
Proof.
  intros H. unfold levelLe, bandOfTotal.
  repeat match goal with
  | |- context [?x <? ?y] => destruct (Z.ltb_spec x y)
  end; simpl; lia.
Qed.

Lemma scoreSum_const (c : Z) (ds : list DimResult) :
  Forall (fun d => d_score d = c) ds -> scoreSum ds = c * Z.of_nat (List.length ds).
Proof.
  induction 1 as [|d ds Hd _ IH]; simpl scoreSum; simpl List.length; [lia|].
  rewrite IH, Hd. lia.
Qed.

Lemma scoreSum_Forall2 (ds ds' : list DimResult) :
  Forall2 (fun d d' => d_score d' < d_score d) ds ds' -> scoreSum ds' <= scoreSum ds.
Proof. induction 1; simpl; lia. Qed.

Section ReportFacts.

Context {rt : Runtime}.

Lemma scoreSum_rows_range (a : jsval) (cats : list Category) :
  Z.of_nat (List.length cats) <= scoreSum (rowsOf a cats) <= 5 * Z.of_nat (List.length cats).
Proof.
  induction cats as [|cat cats IH]; [simpl; lia|].
  unfold rowsOf in *. cbn [map scoreSum fold_right List.length].
  fold (scoreSum (map (fun cat => rowOf cat (answerOf a cat)) cats)).
  unfold rowOf at 1 3. cbn [d_score].
  pose proof (classify_range (answerOf a cat)). lia.
Qed.

Lemma report_fields (p a : jsval) (r : Report) :
  fallbackEvaluate p a = Ok r ->
  dimensions r = rowsOf a categories
  /\ averageScore r = averageOfTotal (scoreSum (dimensions r))
  /\ band r = bandOf (parseFloat (averageScore r))
  /\ executiveSummary r = lookup (levelName (band r)) summaryMap
  /\ coachingText (coaching r) = roleCoaching (toLowerCase (textOf (prop p (lit "role"))))
  /\ nextActions (coaching r)
     = match lookup (levelName (band r)) actionsMap with
       | Some l => Some l
       | None => lookup (lit "Basic") actionsMap
       end
  /\ r_profile r = p.
Proof.
  intros H. rewrite (fallbackEvaluate_inv p a r H). repeat split; reflexivity.
Qed.

Lemma report_total_range (p a : jsval) (r : Report) :
  fallbackEvaluate p a = Ok r -> 6 <= scoreSum (dimensions r) <= 30.
Proof.
  intros H. destruct (report_fields p a r H) as (-> & _).
  pose proof (scoreSum_rows_range a categories) as R.
  change (List.length categories) with 6%nat in R. lia.
Qed.

Lemma report_band (p a : jsval) (r : Report) :
  fallbackEvaluate p a = Ok r -> band r = bandOfTotal (scoreSum (dimensions r)).
Proof.
  intros H. pose proof (report_total_range p a r H) as R.
  destruct (report_fields p a r H) as (_ & Havg & Hband & _).
  rewrite Hband, Havg. apply average_table, R.
Qed.

End ReportFacts.




(* ===================================================================== *)
(** ** The report *)
(* ===================================================================== *)

Section ReportTheorems.

Context {rt : Runtime}.

(** C5.  A report has six rows, named after the six dimensions in their
    order (the source writes the fifth name with non-breaking hyphens);
    the row of a dimension holds the score and level of the answer under
    that dimension's own key, [q1] to [q6], and the texts of the table
    for that dimension and level. *)
Theorem six_dimensions_in_order (p a : jsval) (r : Report) :
  fallbackEvaluate p a = Ok r ->
  List.length (dimensions r) = 6%nat
  /\ map d_name (dimensions r) = dimensionNames
  /\ Forall2 (fun k d => (d_score d, d_level d) = classify (trim (textOf (prop a k))))
       answerKeys (dimensions r)
  /\ Forall2 (fun k d =>
                selectNarrative messageTemplates (d_name d) (levelName (d_level d))
                = {| why := d_why d; how := d_how d |})
       answerKeys (dimensions r).
Proof.
  intros H. destruct (report_fields p a r H) as (-> & _).
  unfold rowsOf, categories, answerKeys, dimensionNames. cbn [map List.length].
  split; [reflexivity|]. split; [reflexivity|].
  split; repeat constructor; unfold rowOf, answerOf;
    cbn [d_score d_level d_name d_why d_how key name];
    try (symmetry; apply surjective_pairing).
  all: destruct (selectNarrative _ _ _); reflexivity.
Qed.

(** C3.  The average score written in a report is the mean of its six
    integer scores rounded to one decimal place, and no other number with
    one decimal is as near to the mean; six scores of 1 give [1.0] and the
    band None, six scores of 5 give [5.0] and the band Leading. *)
Theorem average_is_rounded_mean (p a : jsval) (r : Report) :
  fallbackEvaluate p a = Ok r ->
  List.length (dimensions r) = 6%nat
  /\ (exists n,
        averageScore r = showTenths n
        /\ roundsTo1 (inject_Z (scoreSum (dimensions r)) / 6) n
        /\ forall m, roundsTo1 (inject_Z (scoreSum (dimensions r)) / 6) m -> m = n)
  /\ (Forall (fun d => d_score d = 1) (dimensions r) ->
      averageScore r = lit "1.0" /\ band r = L_None)
  /\ (Forall (fun d => d_score d = 5) (dimensions r) ->
      averageScore r = lit "5.0" /\ band r = L_Leading).
Proof.
  intros H.
  pose proof (report_total_range p a r H) as R.
  pose proof (report_band p a r H) as Hband.
  destruct (report_fields p a r H) as (Hdims & Havg & _).
  assert (Hlen : List.length (dimensions r) = 6%nat) by (rewrite Hdims; reflexivity).
  destruct (average_table _ R) as (Htab & _ & _ & Hround).
  split; [exact Hlen|]. split.
  - exists ((10 * scoreSum (dimensions r) + 3) / 6).
    split; [rewrite Havg; exact Htab|]. split; [exact Hround|].
    apply roundsTo1_unique.
  - split; intros Hall; apply scoreSum_const in Hall; rewrite Hlen in Hall;
      rewrite Hband, Havg, Hall; split; vm_compute; reflexivity.
Qed.

(** C10.  The final value proposition of a report is the trimmed answer
    [q6] when that answer is a non-empty string, and the fixed sentence
    that begins with [Craft your value proposition here] when the answer
    is absent or empty. *)
Theorem final_value_echo (p a : jsval) (r : Report) :
  fallbackEvaluate p a = Ok r ->
  (forall s, prop a (lit "q6") = JString s -> s <> [] ->
     finalValue (coaching r) = trim s)
  /\ (truthy (prop a (lit "q6")) = false ->
      finalValue (coaching r) = finalValuePlaceholder)
  /\ startsWith (lit "Craft your value proposition here") finalValuePlaceholder = true.
Proof.
  intros H.
  assert (Hq6 : isText (prop a (lit "q6")) = true).
  { destruct (fallbackEvaluate_ok p a r H) as (_ & _ & _ & Hcats).
    rewrite Forall_forall in Hcats. exact (Hcats _ clarity_is_category). }
  rewrite (fallbackEvaluate_inv p a r H). unfold reportFor. cbn [coaching finalValue].
  split; [|split].
  - intros s Hs Hne. rewrite Hs. cbn [textOf]. destruct s; [congruence | reflexivity].
  - intros Hf. rewrite (truthy_text _ Hq6) in Hf. rewrite Hf. reflexivity.
  - vm_compute. reflexivity.
Qed.

End ReportTheorems.

(** C4.  The band does not decrease when the average grows; every average
    falls in exactly one of the five intervals below 2, from 2, from 3,
    from 4 and from 5, which is its band; and a report whose six scores
    are each greater than those of another report has a band that is not
    lower. *)
Theorem band_monotone :
  (forall x y : Q, (x <= y)%Q -> levelLe (bandOf (Some x)) (bandOf (Some y)))
  /\ (forall x : Q,
        (bandOf (Some x) = L_None <-> (x < 2)%Q)
        /\ (bandOf (Some x) = L_Emerging <-> (2 <= x /\ x < 3)%Q)
        /\ (bandOf (Some x) = L_Basic <-> (3 <= x /\ x < 4)%Q)
        /\ (bandOf (Some x) = L_Advanced <-> (4 <= x /\ x < 5)%Q)
        /\ (bandOf (Some x) = L_Leading <-> (5 <= x)%Q))
  /\ (forall (rt : Runtime) (p a p' a' : jsval) (r r' : Report),
        fallbackEvaluate p a = Ok r -> fallbackEvaluate p' a' = Ok r' ->
        Forall2 (fun d d' => d_score d' < d_score d) (dimensions r) (dimensions r') ->
        levelLe (band r') (band r)).
Proof.
  split; [exact bandOf_monotone|]. split; [exact bandOf_spec|].
  intros rt p a p' a' r r' H H' Hlt.
  rewrite (report_band p a r H), (report_band p' a' r' H').
  apply bandOfTotal_monotone, scoreSum_Forall2, Hlt.
Qed.

(* ===================================================================== *)
(** ** The narrative table *)
(* ===================================================================== *)



Lemma allLevels_complete (l : Level) : In l allLevels.
Proof. destruct l; simpl; tauto. Qed.

Lemma selectNarrative_entry (catName levelLabel : jsstring) (msg : Narrative) :
  narrativeEntry catName levelLabel = Some msg ->
  selectNarrative messageTemplates catName levelLabel = msg.
Proof.
  unfold narrativeEntry, selectNarrative.
  destruct (lookup catName messageTemplates); [|discriminate].
  intros ->. reflexivity.
Qed.

Lemma nonEmpty_neq (s : jsstring) : nonEmpty s = true -> s <> [].
Proof. destruct s; [discriminate | discriminate]. Qed.

Lemma narrative_present (cat : Category) (l : Level) :
  In cat categories ->
  exists msg,
    narrativeEntry (name cat) (levelName l) = Some msg
    /\ why msg <> [] /\ how msg <> [].
Proof.
  intros Hcat.
  assert (H : narrativeCheck = true) by (vm_compute; reflexivity).
  unfold narrativeCheck in H. rewrite forallb_forall in H.
  specialize (H cat Hcat). rewrite forallb_forall in H.
  specialize (H l (allLevels_complete l)).
  destruct (narrativeEntry (name cat) (levelName l)) as [msg|]; [|discriminate].
  apply andb_true_iff in H as [Hw Hh].
  exists msg. auto using nonEmpty_neq.
Qed.

(** C6.  For each of the six dimensions and each of the five levels the
    table has an entry, which the lookup returns, with a rationale and an
    advancement text that are not empty; two dimensions never share the
    rationale of a level; and a lookup that finds no entry, in whatever
    table, returns the pair of empty texts. *)
Theorem narrative_lookup_total :
  (forall cat l, In cat categories ->
     exists msg,
       narrativeEntry (name cat) (levelName l) = Some msg
       /\ selectNarrative messageTemplates (name cat) (levelName l) = msg
       /\ why msg <> [] /\ how msg <> [])
  /\ (forall c1 c2 l, In c1 categories -> In c2 categories -> name c1 <> name c2 ->
        why (selectNarrative messageTemplates (name c1) (levelName l))
        <> why (selectNarrative messageTemplates (name c2) (levelName l)))
  /\ (forall templates catName levelLabel,
        lookup catName templates = None
        \/ (exists m, lookup catName templates = Some m /\ lookup levelLabel m = None) ->
        selectNarrative templates catName levelLabel = {| why := []; how := [] |}).
Proof.
  split; [|split].
  - intros cat l Hcat. destruct (narrative_present cat l Hcat) as (msg & He & Hw & Hh).
    exists msg. auto using selectNarrative_entry.
  - intros c1 c2 l H1 H2 Hne.
    assert (H : distinctCheck = true) by (vm_compute; reflexivity).
    unfold distinctCheck in H. rewrite forallb_forall in H.
    specialize (H c1 H1). rewrite forallb_forall in H. specialize (H c2 H2).
    apply orb_true_iff in H as [H|H].
    + apply jsstring_eqb_eq in H. contradiction.
    + rewrite forallb_forall in H. specialize (H l (allLevels_complete l)).
      apply negb_true_iff, jsstring_eqb_neq in H. exact H.
  - intros templates catName levelLabel [H | (m & Hm & Hl)]; unfold selectNarrative.
    + rewrite H. reflexivity.
    + rewrite Hm, Hl. reflexivity.
Qed.

(* ===================================================================== *)
(** ** Role coaching and next actions *)
(* ===================================================================== *)
Lemma roleCoaching_firstMatch (roleLower : jsstring) :
  roleCoaching roleLower = firstMatch rolePatterns coachingGeneric roleLower.
Proof.
  unfold roleCoaching, rolePatterns. cbn [firstMatch existsb].
  rewrite !orb_false_r. reflexivity.
Qed.

Lemma actions_of_band (l : Level) :
  exists acts, lookup (levelName l) actionsMap = Some acts /\ List.length acts = 5%nat.
Proof. destruct l; eexists; split; vm_compute; reflexivity. Qed.


(** C7.  The chain of role tests is a first-match search through the
    ordered list [rolePatterns] on the lower-cased role, with the generic
    paragraph when nothing matches; roles in Basic Latin that differ in
    case only get the same paragraph; [Chief Product Officer] gets the
    paragraph of the chief product officer, which is not the paragraph of
    the looser pattern [product]; and the next actions of a report are the
    five that the table holds for the band of that report. *)
Theorem role_coaching_first_match :
  (forall roleLower,
     roleCoaching roleLower = firstMatch rolePatterns coachingGeneric roleLower)
  /\ (forall (rt : Runtime) (p a : jsval) (r : Report),
        fallbackEvaluate p a = Ok r ->
        coachingText (coaching r)
        = firstMatch rolePatterns coachingGeneric
            (toLowerCase (textOf (prop p (lit "role"))))
        /\ nextActions (coaching r) = lookup (levelName (band r)) actionsMap
        /\ (exists acts, nextActions (coaching r) = Some acts /\ List.length acts = 5%nat)
        /\ (prop p (lit "role") = JString cpoRole ->
            coachingText (coaching r) = coachingCPO))
  /\ (forall (rt : Runtime) (role1 role2 : jsstring),
        forallb isAscii role1 = true -> forallb isAscii role2 = true ->
        map asciiLower role1 = map asciiLower role2 ->
        roleCoaching (toLowerCase role1) = roleCoaching (toLowerCase role2))
  /\ coachingCPO <> coachingProduct
  /\ firstMatch rolePatterns coachingGeneric (lit "chief product officer") = coachingCPO
  /\ firstMatch rolePatterns coachingGeneric (lit "gardener") = coachingGeneric.
Proof.
  split; [exact roleCoaching_firstMatch|]. split; [|split; [|split; [|split]]].
  - intros rt p a r H.
    destruct (report_fields p a r H) as (_ & _ & _ & _ & Hc & Hn & _).
    destruct (actions_of_band (band r)) as (acts & Hacts & Hlen).
    rewrite Hc, Hn, Hacts, <- roleCoaching_firstMatch.
    repeat split; eauto.
    intros ->. cbn [textOf]. unfold cpoRole.
    rewrite toLowerCase_ascii by (vm_compute; reflexivity).
    vm_compute. reflexivity.
  - intros rt role1 role2 H1 H2 E.
    rewrite (toLowerCase_ascii role1 H1), (toLowerCase_ascii role2 H2), E. reflexivity.
  - apply jsstring_eqb_neq. vm_compute. reflexivity.
  - vm_compute. reflexivity.
  - vm_compute. reflexivity.
Qed.

(* ===================================================================== *)
(** ** Totality on the data model *)
(* ===================================================================== *)

Lemma summary_of_band (l : Level) :
  exists s, lookup (levelName l) summaryMap = Some s /\ s <> [].
Proof. destruct l; eexists; split; try (vm_compute; reflexivity); discriminate. Qed.

Lemma roleCoaching_nonEmpty (roleLower : jsstring) : roleCoaching roleLower <> [].
Proof.
  unfold roleCoaching.
  repeat match goal with
  | |- (if ?b then _ else _) <> _ => destruct b
  end; apply nonEmpty_neq; vm_compute; reflexivity.
Qed.

Section Totality.

Context {rt : Runtime}.

Lemma rows_well_formed (a : jsval) (cat : Category) :
  In cat categories ->
  let d := rowOf cat (answerOf a cat) in
  1 <= d_score d <= 5 /\ d_score d = levelRank (d_level d)
  /\ d_why d <> [] /\ d_how d <> [].
Proof.
  intros Hcat d. subst d. unfold rowOf. cbn [d_score d_level d_why d_how].
  split; [apply classify_range|]. split; [apply classify_score_level|].
  destruct (narrative_present cat (snd (classify (answerOf a cat))) Hcat)
    as (msg & He & Hw & Hh).
  rewrite (selectNarrative_entry _ _ _ He). auto.
Qed.

Lemma reportFor_texts (p p' : jsval) (role : jsstring) (text text' : jsstring -> jsstring) :
  (forall k, In k answerKeys -> text' k = text k) ->
  let r := reportFor p role text in
  let r' := reportFor p' role text' in
  dimensions r' = dimensions r /\ averageScore r' = averageScore r /\ band r' = band r
  /\ executiveSummary r' = executiveSummary r /\ coaching r' = coaching r.
Proof.
  intros E r r'. subst r r'.
  assert (Ed : map (fun cat => rowOf cat (trim (text' (key cat)))) categories
               = map (fun cat => rowOf cat (trim (text (key cat)))) categories).
  { apply map_ext_in. intros cat Hcat. rewrite E; [reflexivity|].
    apply (in_map key) in Hcat. exact Hcat. }
  assert (E6 : text' (lit "q6") = text (lit "q6")).
  { apply E. unfold answerKeys. do 5 right. left. reflexivity. }
  unfold reportFor. cbn [dimensions averageScore band executiveSummary coaching].
  rewrite Ed, E6. repeat split; reflexivity.
Qed.

(** C8.  On every input of the data model (a profile and an answer set
    whose role and answers are strings or absent) the scorer returns a
    report: it echoes the profile and has six rows with a score from 1 to
    5 matching the level and non-empty texts, an executive summary, a
    coaching paragraph and five next actions.  The report depends on the
    texts only, so an absent field gives what the empty string gives. *)
Theorem fallback_scorer_total (p a : jsval) :
  wellFormed p a ->
  exists r,
    fallbackEvaluate p a = Ok r
    /\ r_profile r = p
    /\ List.length (dimensions r) = 6%nat
    /\ Forall (fun d => 1 <= d_score d <= 5 /\ d_score d = levelRank (d_level d)
                        /\ d_why d <> [] /\ d_how d <> []) (dimensions r)
    /\ (exists s, executiveSummary r = Some s /\ s <> [])
    /\ coachingText (coaching r) <> []
    /\ (exists acts, nextActions (coaching r) = Some acts /\ List.length acts = 5%nat)
    /\ (forall p' a', wellFormed p' a' -> sameTexts p a p' a' ->
          exists r',
            fallbackEvaluate p' a' = Ok r'
            /\ dimensions r' = dimensions r /\ averageScore r' = averageScore r
            /\ band r' = band r /\ executiveSummary r' = executiveSummary r
            /\ coaching r' = coaching r).
Proof.
  intros Hwf. pose proof (fallbackEvaluate_total p a Hwf) as H.
  set (r := reportFor p (textOf (prop p (lit "role"))) (fun k => textOf (prop a k))) in *.
  exists r. split; [exact H|].
  destruct (report_fields p a r H) as (Hd & _ & _ & Hs & Hc & Hn & Hp).
  split; [exact Hp|]. split; [rewrite Hd; reflexivity|]. split.
  { rewrite Hd. unfold rowsOf. apply Forall_forall. intros d Hin.
    apply in_map_iff in Hin as (cat & <- & Hcat). apply rows_well_formed, Hcat. }
  split; [rewrite Hs; apply summary_of_band|].
  split; [rewrite Hc; apply roleCoaching_nonEmpty|].
  split.
  { rewrite Hn. destruct (actions_of_band (band r)) as (acts & Ha & Hl).
    rewrite Ha. eauto. }
  intros p' a' Hwf' [Erole Etext].
  eexists. split; [exact (fallbackEvaluate_total p' a' Hwf')|].
  rewrite Erole. subst r. apply reportFor_texts. exact Etext.
Qed.

End Totality.

(** Outside the data model, where an answer is a number, the call of
    [trim] throws. *)
Lemma numeric_answer_throws {rt : Runtime} :
  fallbackEvaluate (JObject []) (JObject [(lit "q1", JNumber 5)]) = Throw TypeError.
Proof. reflexivity. Qed.

(** The scorer is not total on every input: on the empty profile and the
    answers [{q1: 5}] it throws a TypeError in every runtime, [5] being
    truthy and without a [trim]. *)
Lemma fallback_scorer_not_total :
  (forall rt : Runtime,
     @fallbackEvaluate rt (JObject []) (JObject [(lit "q1", JNumber 5)]) = Throw TypeError)
  /\ ~ (forall (rt : Runtime) (p a : jsval), exists r, @fallbackEvaluate rt p a = Ok r).
Proof.
  split; [intros rt; reflexivity|].
  intros H.
  destruct (H asciiRuntime (JObject []) (JObject [(lit "q1", JNumber 5)])) as (r & Hr).
  discriminate Hr.
Qed.

(* ===================================================================== *)
(** ** The method guard *)
(* ===================================================================== *)
Lemma nodeHandler_rejects (onPost : Request -> ServerResponse -> ServerResponse)
    (req : Request) (res : ServerResponse) :
  method req <> lit "POST" ->
  let res' := nodeHandler onPost req res in
  statusCode res' = 405
  /\ getHeader (lit "Allow") (headers res') = Some (lit "POST")
  /\ body res' = body res ++ stringifyError (lit "Method not allowed")
  /\ ended res' = true.
Proof.
  intros Hm. apply jsstring_eqb_neq in Hm. unfold nodeHandler. rewrite Hm.
  cbn [negb]. repeat split.
Qed.

Lemma handler_rejects (onPost : Request -> Response) (req : Request) :
  method req <> lit "POST" ->
  let resp := handler onPost req in
  status resp = 405
  /\ r_body resp = stringifyError (lit "Use POST")
  /\ getHeader (lit "Allow") (r_headers resp) = None.
Proof.
  intros Hm. apply jsstring_eqb_neq in Hm. unfold handler. rewrite Hm.
  cbn [negb]. repeat split.
Qed.


(** C9.  A GET request to the handler of the edge snapshot is answered with
    status 405 and a JSON error body, but without an [Allow] header; the
    handler of the Node snapshot answers the same request with status 405,
    a JSON error body and [Allow: POST]. *)
Theorem edge_handler_omits_allow :
  forall (onPost : Request -> Response)
         (onPostNode : Request -> ServerResponse -> ServerResponse),
    let resp := handler onPost getRequest in
    let res := nodeHandler onPostNode getRequest freshResponse in
    status resp = 405
    /\ r_body resp = stringifyError (lit "Use POST")
    /\ getHeader (lit "Allow") (r_headers resp) = None
    /\ statusCode res = 405
    /\ body res = stringifyError (lit "Method not allowed")
    /\ getHeader (lit "Allow") (headers res) = Some (lit "POST").
Proof.
  intros onPost onPostNode resp res.
  destruct (handler_rejects onPost getRequest) as (H1 & H2 & H3);
    [apply jsstring_eqb_neq; vm_compute; reflexivity|].
  destruct (nodeHandler_rejects onPostNode getRequest freshResponse) as (N1 & N2 & N3 & _);
    [apply jsstring_eqb_neq; vm_compute; reflexivity|].
  repeat split; assumption.
Qed.

(* ===================================================================== *)
(** ** Runs on sample inputs *)
(* ===================================================================== *)

Lemma six_dimensions_witness :
  @fallbackEvaluate asciiRuntime sampleProfile sampleAnswers = Ok sampleReport
  /\ map d_name (dimensions sampleReport) = dimensionNames
  /\ map (fun d => (d_score d, d_level d)) (dimensions sampleReport)
     = [(2, L_Emerging); (3, L_Basic); (4, L_Advanced); (5, L_Leading); (2, L_Emerging);
        (2, L_Emerging)].
Proof.
  assert (H : @fallbackEvaluate asciiRuntime sampleProfile sampleAnswers = Ok sampleReport)
    by (vm_compute; reflexivity).
  split; [exact H|]. split.
  - apply (@six_dimensions_in_order asciiRuntime sampleProfile sampleAnswers sampleReport H).
  - vm_compute. reflexivity.
Defined.

Lemma average_witness :
  @fallbackEvaluate asciiRuntime (JObject []) (JObject []) = Ok emptyReport
  /\ averageScore emptyReport = lit "1.0" /\ band emptyReport = L_None.
Proof.
  assert (H : @fallbackEvaluate asciiRuntime (JObject []) (JObject []) = Ok emptyReport)
    by (vm_compute; reflexivity).
  split; [exact H|].
  apply (@average_is_rounded_mean asciiRuntime (JObject []) (JObject []) emptyReport H).
  vm_compute. repeat constructor.
Defined.

Lemma final_value_witness :
  @fallbackEvaluate asciiRuntime sampleProfile sampleAnswers = Ok sampleReport
  /\ finalValue (coaching sampleReport) = lit "We help teams ship faster.".
Proof.
  assert (H : @fallbackEvaluate asciiRuntime sampleProfile sampleAnswers = Ok sampleReport)
    by (vm_compute; reflexivity).
  split; [exact H|].
  destruct (@final_value_echo asciiRuntime sampleProfile sampleAnswers sampleReport H)
    as [Hecho _].
  rewrite (Hecho (lit "  We help teams ship faster.  ")).
  - vm_compute. reflexivity.
  - vm_compute. reflexivity.
  - discriminate.
Defined.

Lemma band_monotone_witness :
  @fallbackEvaluate asciiRuntime (JObject []) basicAnswers = Ok basicReport
  /\ @fallbackEvaluate asciiRuntime (JObject []) (JObject []) = Ok emptyReport
  /\ levelLe (band emptyReport) (band basicReport).
Proof.
  assert (H : @fallbackEvaluate asciiRuntime (JObject []) basicAnswers = Ok basicReport)
    by (vm_compute; reflexivity).
  assert (H' : @fallbackEvaluate asciiRuntime (JObject []) (JObject []) = Ok emptyReport)
    by (vm_compute; reflexivity).
  split; [exact H|]. split; [exact H'|].
  destruct band_monotone as (_ & _ & Hmono).
  apply (Hmono asciiRuntime (JObject []) basicAnswers (JObject []) (JObject [])
           basicReport emptyReport H H').
  vm_compute. repeat constructor.
Defined.

Lemma role_coaching_witness :
  @fallbackEvaluate asciiRuntime sampleProfile sampleAnswers = Ok sampleReport
  /\ coachingText (coaching sampleReport) = coachingCPO.
Proof.
  assert (H : @fallbackEvaluate asciiRuntime sampleProfile sampleAnswers = Ok sampleReport)
    by (vm_compute; reflexivity).
  split; [exact H|].
  destruct role_coaching_first_match as (_ & Hrep & _).
  destruct (Hrep asciiRuntime sampleProfile sampleAnswers sampleReport H)
    as (_ & _ & _ & Hcpo).
  apply Hcpo. vm_compute. reflexivity.
Defined.

Lemma fallback_scorer_total_witness :
  wellFormed (JObject []) (JObject [])
  /\ exists r,
       @fallbackEvaluate asciiRuntime (JObject []) (JObject []) = Ok r
       /\ List.length (dimensions r) = 6%nat.
Proof.
  assert (Hwf : wellFormed (JObject []) (JObject []))
    by (apply wellFormedb_true; vm_compute; reflexivity).
  split; [exact Hwf|].
  destruct (@fallback_scorer_total asciiRuntime (JObject []) (JObject []) Hwf)
    as (r & Hr & _ & Hlen & _).
  exists r. split; assumption.
Defined.

(** The end-to-end case of the specification: an empty profile and six
    empty answers give the band None, every score at the minimum and next
    actions; six answers of 80 words give the band Leading. *)
Lemma empty_and_leading_runs {rt : Runtime} :
  fallbackEvaluate (JObject []) emptyAnswers
  = Ok (@reportFor asciiRuntime (JObject []) [] (fun k => textOf (prop emptyAnswers k)))
  /\ band emptyReport = L_None
  /\ map d_score (dimensions emptyReport) = repeat 1 6
  /\ nextActions (coaching emptyReport) <> None
  /\ fallbackEvaluate (JObject []) leadingAnswers = Ok leadingReport
  /\ averageScore leadingReport = lit "5.0"
  /\ band leadingReport = L_Leading.
Proof.
  split; [apply fallbackEvaluate_ascii; vm_compute; reflexivity|].
  split; [vm_compute; reflexivity|]. split; [vm_compute; reflexivity|].
  split; [vm_compute; discriminate|].
  split; [apply fallbackEvaluate_ascii; vm_compute; reflexivity|].
  split; vm_compute; reflexivity.
Qed.

(* ===================================================================== *)
(** ** The scorer at its edges *)
(* ===================================================================== *)

(** X2.  The answer is trimmed before it is split, so every piece that is
    counted for a dimension is a word: it is not empty and holds no white
    space.  White space around the answer never adds to the word
    count. *)
Theorem counted_pieces_are_words (a : jsval) (cat : Category) :
  answerOf a cat <> [] ->
  forallb isWord (split_ws (answerOf a cat)) = true
  /\ wordCount (answerOf a cat) = Z.of_nat (List.length (split_ws (answerOf a cat))).
Proof.
  unfold answerOf. set (t := textOf (prop a (key cat))). intros H. split.
  - unfold split_ws.
    apply splitWs_words;
      [ reflexivity | intros E; discriminate E | intros _ _; apply trim_first, H
      | intros E; contradiction | intros _; apply trim_last, H ].
  - unfold wordCount. destruct (trim t); [contradiction H; reflexivity | reflexivity].
Qed.


(** X1.  The normal form of an answer holds only [a]-[z], [0]-[9] and white
    space, and none at its start; so the entries of the list written with
    an apostrophe or a slash, which are [deadPatterns], equal the normal
    form of no answer. *)
Theorem normal_form_alphabet {rt : Runtime} (ans : jsstring) :
  forallb isLowerAlnumOrSpace (normalised ans) = true
  /\ firstIsInk (normalised ans) = nonEmpty (normalised ans)
  /\ (forall pat, In pat deadPatterns -> In pat unknownPatterns /\ normalised ans <> pat)
  /\ filter (fun pat => negb (forallb isLowerAlnumOrSpace pat)) unknownPatterns
     = deadPatterns.
Proof.
  assert (Halpha : forallb isLowerAlnumOrSpace (normalised ans) = true).
  { unfold normalised, stripOthers. apply forallb_forall. intros c Hc.
    apply trim_incl, filter_In in Hc. apply Hc. }
  split; [exact Halpha|]. split.
  { unfold normalised.
    pose proof (trim_first (stripOthers (toLowerCase ans))) as Hf.
    destruct (trim (stripOthers (toLowerCase ans))); [reflexivity|].
    rewrite Hf by discriminate. reflexivity. }
  split; [|vm_compute; reflexivity].
  intros pat Hpat.
  assert (Hdead : forallb (fun p => arrayIncludes unknownPatterns p
                                    && negb (forallb isLowerAlnumOrSpace p))
                    deadPatterns = true) by (vm_compute; reflexivity).
  rewrite forallb_forall in Hdead. specialize (Hdead pat Hpat).
  apply andb_true_iff in Hdead as [Hin Hbad]. split.
  - unfold arrayIncludes in Hin. apply existsb_exists in Hin as (x & Hx & E).
    apply jsstring_eqb_eq in E. subst x. exact Hx.
  - intros E. rewrite E in Halpha. rewrite Halpha in Hbad. discriminate.
Qed.

Lemma fallback_rows_ok {rt : Runtime} (p a : jsval) (r : Report) :
  fallbackEvaluate p a = Ok r ->
  List.length (dimensions r) = 6%nat
  /\ Forall (fun d => 1 <= d_score d <= 5 /\ d_score d = levelRank (d_level d))
       (dimensions r).
Proof.
  intros H. destruct (report_fields p a r H) as (-> & _). split; [reflexivity|].
  unfold rowsOf. apply Forall_forall. intros d Hd.
  apply in_map_iff in Hd as (cat & <- & _). unfold rowOf. cbn [d_score d_level].
  split; [apply classify_range | apply classify_score_level].
Qed.

Section ScorerEdges.

Context {rt : Runtime}.

Lemma classify_blank (s : jsstring) :
  forallb isWhiteSpace s = true -> classify (trim s) = (1, L_None).
Proof.
  intros H. rewrite (trim_blank s H). apply classify_unknown, isUnknown_nil.
Qed.

(** X3.  An answer of white space only is scored like no answer, with score
    1 and level None; but when it is the answer [q6], the final value
    proposition is the empty string and not the placeholder sentence. *)
Theorem blank_answer (p a : jsval) (r : Report) :
  fallbackEvaluate p a = Ok r ->
  Forall2 (fun cat d =>
             forallb isWhiteSpace (textOf (prop a (key cat))) = true ->
             d_score d = 1 /\ d_level d = L_None)
    categories (dimensions r)
  /\ (forall s, prop a (lit "q6") = JString s -> s <> [] ->
        forallb isWhiteSpace s = true ->
        finalValue (coaching r) = [] /\ finalValue (coaching r) <> finalValuePlaceholder).
Proof.
  intros H. split.
  - destruct (report_fields p a r H) as (-> & _). unfold rowsOf.
    induction categories as [|cat cats IH]; simpl; constructor; [|exact IH].
    intros Hb. unfold rowOf, answerOf. cbn [d_score d_level].
    rewrite (classify_blank _ Hb). auto.
  - intros s Hs Hne Hb.
    rewrite (fallbackEvaluate_inv p a r H). unfold reportFor. cbn [coaching finalValue].
    rewrite Hs. cbn [textOf]. rewrite (trim_blank s Hb).
    destruct s; [congruence|]. cbn [nonEmpty]. split; [reflexivity|].
    intros E. apply (f_equal (@List.length N)) in E. vm_compute in E. discriminate.
Qed.

Lemma scoreSum_full (ds : list DimResult) :
  Forall (fun d => d_score d <= 5) ds ->
  scoreSum ds <= 5 * Z.of_nat (List.length ds)
  /\ (scoreSum ds = 5 * Z.of_nat (List.length ds) -> Forall (fun d => d_score d = 5) ds).
Proof.
  induction 1 as [|d ds Hd _ (IH1 & IH2)]; simpl scoreSum; simpl List.length.
  - split; [lia | constructor].
  - split; [lia|]. intros E. constructor; [lia | apply IH2; lia].
Qed.

(** X4.  The band of a report is decided by the total of its six scores,
    which lies between 6 and 30: below 12 None, below 18 Emerging, below
    24 Basic, below 30 Advanced.  The band is Leading only when every
    dimension is Leading. *)
Theorem band_from_total (p a : jsval) (r : Report) :
  fallbackEvaluate p a = Ok r ->
  band r = bandOfTotal (scoreSum (dimensions r))
  /\ 6 <= scoreSum (dimensions r) <= 30
  /\ (band r = L_Leading <-> Forall (fun d => d_level d = L_Leading) (dimensions r))
  /\ (band r = L_None <-> scoreSum (dimensions r) <= 11).
Proof.
  intros H.
  pose proof (report_band p a r H) as Hb.
  pose proof (report_total_range p a r H) as Hr.
  destruct (fallback_rows_ok p a r H) as (Hlen & Hrows).
  split; [exact Hb|]. split; [exact Hr|]. rewrite Hb. unfold bandOfTotal. split.
  - split.
    + intros E.
      assert (Et : scoreSum (dimensions r) = 30).
      { repeat match type of E with
        | context [?x <? ?y] => destruct (Z.ltb_spec x y); try discriminate
        end. lia. }
      assert (Hall : Forall (fun d => d_score d = 5) (dimensions r)).
      { apply scoreSum_full.
        - eapply Forall_impl; [|exact Hrows]. simpl. intros d (Hd & _). lia.
        - rewrite Hlen. exact Et. }
      rewrite Forall_forall in *. intros d Hd.
      destruct (Hrows d Hd) as (_ & Hlv). specialize (Hall d Hd). rewrite Hlv in Hall.
      destruct (d_level d); simpl in Hall; try discriminate; reflexivity.
    + intros Hall.
      assert (Hfive : Forall (fun d => d_score d = 5) (dimensions r)).
      { rewrite Forall_forall in *. intros d Hd.
        destruct (Hrows d Hd) as (_ & ->). rewrite (Hall d Hd). reflexivity. }
      apply scoreSum_const in Hfive. rewrite Hlen in Hfive. rewrite Hfive. reflexivity.
  - repeat match goal with
    | |- context [?x <? ?y] => destruct (Z.ltb_spec x y)
    end; split; intros; try discriminate; try reflexivity; lia.
Qed.

(** X5.  The average is written with three code units, a digit, a point and
    a digit, between [1.0] and [5.0], and [parseFloat] reads back from it
    exactly the number of tenths that was written. *)
Theorem average_reads_back (p a : jsval) (r : Report) :
  fallbackEvaluate p a = Ok r ->
  exists n,
    10 <= n <= 50
    /\ averageScore r = showTenths n
    /\ parseFloat (averageScore r) = Some (n # 10)
    /\ List.length (averageScore r) = 3%nat.
Proof.
  intros H.
  pose proof (report_total_range p a r H) as Hr.
  destruct (report_fields p a r H) as (_ & Havg & _).
  destruct (average_table _ Hr) as (Hshow & Hparse & _).
  set (t := scoreSum (dimensions r)) in *.
  exists ((10 * t + 3) / 6).
  assert (Hn : 10 <= (10 * t + 3) / 6 <= 50).
  { pose proof (Z.div_mod (10 * t + 3) 6 ltac:(lia)).
    pose proof (Z.mod_pos_bound (10 * t + 3) 6 ltac:(lia)). lia. }
  split; [exact Hn|]. rewrite Havg. split; [exact Hshow|]. split; [exact Hparse|].
  rewrite Hshow.
  pose proof (range_forallb (fun n => Nat.eqb (List.length (showTenths n)) 3) 10 41
                ltac:(vm_compute; reflexivity) ((10 * t + 3) / 6) ltac:(lia)) as Hlen.
  apply Nat.eqb_eq in Hlen. exact Hlen.
Qed.

End ScorerEdges.

(* ===================================================================== *)
(** ** The Node handler after the method guard *)
(* ===================================================================== *)

Lemma sendError_fields (code : Z) (msg : jsstring) (res : ServerResponse) :
  statusCode (sendError code msg res) = code
  /\ body (sendError code msg res) = body res ++ stringifyError msg
  /\ headers (sendError code msg res) = headers res
  /\ ended (sendError code msg res) = true.
Proof. repeat split. Qed.

Lemma sameHeader_refl (n : jsstring) : sameHeader n n = true.
Proof. apply jsstring_eqb_refl. Qed.

Lemma sendJson_fields {host : Host} (v : jsval) (res : ServerResponse) :
  statusCode (sendJson v res) = 200
  /\ getHeader (lit "Content-Type") (headers (sendJson v res)) = Some (lit "application/json")
  /\ body (sendJson v res) = body res ++ jsonText v
  /\ ended (sendJson v res) = true.
Proof.
  unfold sendJson, endWith, setHeader, setStatusCode.
  cbn [statusCode headers body ended getHeader].
  rewrite sameHeader_refl. repeat split.
Qed.

Lemma truthy_not_nullish (v : jsval) : truthy v = true -> isNullish v = false.
Proof. destruct v; simpl; intros H; try reflexivity; discriminate. Qed.

Lemma truthy_prop_object (v : jsval) (k : jsstring) :
  truthy (prop v k) = true -> truthy v = true.
Proof. destruct v; simpl; intros H; try discriminate; reflexivity. Qed.

Section NodeFacts.

Context {rt : Runtime} {host : Host}.

Variable env : Env.
Variable callOpenAI : jsstring -> Payload -> option jsval.

Lemma sendFallback_cases (profile answers : jsval) (res : ServerResponse) :
  (wellFormed profile answers ->
     sendFallback profile answers res
     = Some (sendJson (reportValue (reportFor profile (textOf (prop profile (lit "role")))
                                      (fun k => textOf (prop answers k)))) res))
  /\ (~ wellFormed profile answers -> sendFallback profile answers res = None).
Proof.
  unfold sendFallback. split.
  - intros Hwf. rewrite (fallbackEvaluate_total profile answers Hwf). reflexivity.
  - intros Hn. destruct (fallbackEvaluate profile answers) as [r|e] eqn:E; [|reflexivity].
    contradiction Hn. exact (fallbackEvaluate_ok profile answers r E).
Qed.

(** X6.  A body that parses to a value without a truthy [profile] or without
    truthy [answers] is answered with status 400 and the error
    [Invalid request payload.], whatever the key and the model. *)
Theorem missing_fields_rejected (text : jsstring) (parsed : jsval) (res : ServerResponse) :
  JSON_parse (requestText text) = Some parsed ->
  isNullish parsed = false ->
  truthy (prop parsed (lit "profile")) = false
  \/ truthy (prop parsed (lit "answers")) = false ->
  let res' := onEnd env callOpenAI text res in
  statusCode res' = 400
  /\ body res' = body res ++ stringifyError (lit "Invalid request payload.")
  /\ headers res' = headers res
  /\ ended res' = true.
Proof.
  intros Hp Hn Hf res'. subst res'. unfold requestText in *. unfold onEnd, processBody.
  rewrite Hp. cbn [obind]. rewrite Hn.
  assert (E : negb (truthy (prop parsed (lit "profile")))
              || negb (truthy (prop parsed (lit "answers"))) = true).
  { destruct Hf as [-> | ->]; [reflexivity | apply orb_true_r]. }
  rewrite E. apply sendError_fields.
Qed.

(** X7.  A body that does not parse, or that is the JSON [null], is answered
    with status 500 and the error [Failed to process request]. *)
Theorem unreadable_body_fails (text : jsstring) (res : ServerResponse) :
  JSON_parse (requestText text) = None
  \/ JSON_parse (requestText text) = Some JNull ->
  let res' := onEnd env callOpenAI text res in
  statusCode res' = 500
  /\ body res' = body res ++ stringifyError (lit "Failed to process request")
  /\ headers res' = headers res
  /\ ended res' = true.
Proof.
  intros H res'. subst res'. unfold requestText in *. unfold onEnd, processBody.
  destruct H as [-> | ->]; cbn [obind isNullish]; apply sendError_fields.
Qed.

(** X8.  Without a key, a request with a profile and answers of the data
    model is answered with status 200, the JSON content type and the text
    of the report of the fallback scorer; one whose role or answers are
    not free text makes the scorer throw and is answered with status
    500. *)
Theorem no_key_answers_from_scorer (text : jsstring) (parsed : jsval) (res : ServerResponse) :
  usableKey env = None ->
  JSON_parse (requestText text) = Some parsed ->
  truthy (prop parsed (lit "profile")) = true ->
  truthy (prop parsed (lit "answers")) = true ->
  let profile := prop parsed (lit "profile") in
  let answers := prop parsed (lit "answers") in
  let res' := onEnd env callOpenAI text res in
  (wellFormed profile answers ->
     statusCode res' = 200
     /\ getHeader (lit "Content-Type") (headers res') = Some (lit "application/json")
     /\ body res'
        = body res
          ++ JSON_stringify
               (reportValue (reportFor profile (textOf (prop profile (lit "role")))
                               (fun k => textOf (prop answers k))))
     /\ ended res' = true)
  /\ (~ wellFormed profile answers ->
      statusCode res' = 500
      /\ body res' = body res ++ stringifyError (lit "Failed to process request")
      /\ ended res' = true).
Proof.
  intros Hk Hp Hpr Han profile answers res'. subst res' profile answers.
  unfold requestText in *.
  unfold onEnd, processBody. rewrite Hp. cbn [obind].
  rewrite (truthy_not_nullish parsed (truthy_prop_object _ _ Hpr)), Hpr, Han, Hk.
  cbn [negb orb].
  destruct (sendFallback_cases (prop parsed (lit "profile")) (prop parsed (lit "answers")) res)
    as (Hok & Hbad).
  split; intros Hwf.
  - rewrite (Hok Hwf).
    destruct (sendJson_fields
                (reportValue (reportFor (prop parsed (lit "profile"))
                                (textOf (prop (prop parsed (lit "profile")) (lit "role")))
                                (fun k => textOf (prop (prop parsed (lit "answers")) k))))
                res) as (A & B & C & D).
    repeat split; assumption.
  - rewrite (Hbad Hwf). repeat split.
Qed.
End NodeFacts.

Section NodeModel.

Context {rt : Runtime} {host : Host}.

Variable env : Env.
Variable callOpenAI : jsstring -> Payload -> option jsval.

(** The request once the body is read and its fields are there. *)
Lemma processBody_with_key (text : jsstring) (parsed : jsval) (res : ServerResponse)
    (apiKey : jsstring) :
  usableKey env = Some apiKey ->
  JSON_parse (requestText text) = Some parsed ->
  truthy (prop parsed (lit "profile")) = true ->
  truthy (prop parsed (lit "answers")) = true ->
  processBody env callOpenAI text res
  = (promptContent <-? buildPrompt (prop parsed (lit "profile")) (prop parsed (lit "answers"))
                         (prop parsed (lit "attachments")) ;;
     match askModel callOpenAI apiKey (buildPayload promptContent) res with
     | Some res' => Some res'
     | None => sendFallback (prop parsed (lit "profile")) (prop parsed (lit "answers")) res
     end).
Proof.
  intros Hk Hp Hpr Han. unfold requestText in Hp. unfold processBody.
  rewrite Hp. cbn [obind].
  rewrite (truthy_not_nullish parsed (truthy_prop_object _ _ Hpr)), Hpr, Han, Hk.
  reflexivity.
Qed.

Lemma processBody_without_key (text : jsstring) (parsed : jsval) (res : ServerResponse) :
  usableKey env = None ->
  JSON_parse (requestText text) = Some parsed ->
  truthy (prop parsed (lit "profile")) = true ->
  truthy (prop parsed (lit "answers")) = true ->
  processBody env callOpenAI text res
  = sendFallback (prop parsed (lit "profile")) (prop parsed (lit "answers")) res.
Proof.
  intros Hk Hp Hpr Han. unfold requestText in Hp. unfold processBody.
  rewrite Hp. cbn [obind].
  rewrite (truthy_not_nullish parsed (truthy_prop_object _ _ Hpr)), Hpr, Han, Hk.
  reflexivity.
Qed.

End NodeModel.

Section NodeRecovery.

Context {rt : Runtime} {host : Host}.

Variable env : Env.
Variable callOpenAI : jsstring -> Payload -> option jsval.

(** X9.  With a key and a prompt that was built without a throw, when the
    call of the model rejects, resolves to [null], or gives a text that
    does not parse, the answer is the one the handler gives without a key:
    the failure is not shown. *)
Theorem model_failure_recovers (text : jsstring) (parsed : jsval) (res : ServerResponse)
    (apiKey promptContent : jsstring) :
  usableKey env = Some apiKey ->
  JSON_parse (requestText text) = Some parsed ->
  truthy (prop parsed (lit "profile")) = true ->
  truthy (prop parsed (lit "answers")) = true ->
  buildPrompt (prop parsed (lit "profile")) (prop parsed (lit "answers"))
    (prop parsed (lit "attachments")) = Some promptContent ->
  callOpenAI apiKey (buildPayload promptContent) = None
  \/ (exists v, callOpenAI apiKey (buildPayload promptContent) = Some v
                /\ isNullish v = true)
  \/ (exists v s, callOpenAI apiKey (buildPayload promptContent) = Some v
                  /\ isNullish v = false
                  /\ firstChoiceContent v = JString s /\ JSON_parse s = None) ->
  onEnd env callOpenAI text res
  = onEnd {| OPENAI_API_KEY := None |} callOpenAI text res.
Proof.
  intros Hk Hp Hpr Han Hprompt Hfail. unfold onEnd.
  rewrite (processBody_with_key env callOpenAI text parsed res apiKey Hk Hp Hpr Han).
  rewrite (processBody_without_key {| OPENAI_API_KEY := None |} callOpenAI text parsed res
             eq_refl Hp Hpr Han).
  rewrite Hprompt. cbn [obind].
  assert (E : askModel callOpenAI apiKey (buildPayload promptContent) res = None).
  { unfold askModel.
    destruct Hfail as [-> | [(v & -> & Hv) | (v & s & -> & Hv & Hc & Hs)]]; cbn [obind].
    - reflexivity.
    - rewrite Hv. reflexivity.
    - rewrite Hv, Hc, Hs. reflexivity. }
  rewrite E. reflexivity.
Qed.

Lemma askModel_resolved (apiKey : jsstring) (payload : Payload) (v : jsval)
    (res : ServerResponse) :
  callOpenAI apiKey payload = Some v -> isNullish v = false ->
  askModel callOpenAI apiKey payload res
  = (parsed <-? match firstChoiceContent v with
                | JString s => JSON_parse s
                | c => Some c
                end ;;
     Some (sendJson parsed res)).
Proof.
  intros Hv Hn. unfold askModel. rewrite Hv. cbn [obind]. rewrite Hn.
  destruct (firstChoiceContent v); reflexivity.
Qed.

(** X10.  With a key and a prompt that was built without a throw, the
    content of the first choice of the model is sent back with status 200,
    parsed when it is a string and as it is otherwise, without a look at
    its shape.  An answer of the model
    without [choices] gives status 200 and writes nothing: the fallback
    scorer is not called. *)
Theorem model_answer_passes_through (text : jsstring) (parsed v : jsval)
    (res : ServerResponse) (apiKey promptContent : jsstring) :
  usableKey env = Some apiKey ->
  JSON_parse (requestText text) = Some parsed ->
  truthy (prop parsed (lit "profile")) = true ->
  truthy (prop parsed (lit "answers")) = true ->
  buildPrompt (prop parsed (lit "profile")) (prop parsed (lit "answers"))
    (prop parsed (lit "attachments")) = Some promptContent ->
  callOpenAI apiKey (buildPayload promptContent) = Some v ->
  isNullish v = false ->
  (forall s w, firstChoiceContent v = JString s -> JSON_parse s = Some w ->
     onEnd env callOpenAI text res = sendJson w res)
  /\ ((forall s, firstChoiceContent v <> JString s) ->
      onEnd env callOpenAI text res = sendJson (firstChoiceContent v) res)
  /\ (prop v (lit "choices") = JUndefined ->
      let res' := onEnd env callOpenAI text res in
      statusCode res' = 200 /\ body res' = body res /\ ended res' = true).
Proof.
  intros Hk Hp Hpr Han Hprompt Hv Hn.
  assert (E : onEnd env callOpenAI text res
              = match askModel callOpenAI apiKey (buildPayload promptContent) res with
                | Some res' => res'
                | None =>
                    match sendFallback (prop parsed (lit "profile"))
                            (prop parsed (lit "answers")) res with
                    | Some res' => res'
                    | None => sendError 500 (lit "Failed to process request") res
                    end
                end).
  { unfold onEnd.
    rewrite (processBody_with_key env callOpenAI text parsed res apiKey Hk Hp Hpr Han).
    rewrite Hprompt. cbn [obind].
    destruct (askModel callOpenAI apiKey (buildPayload promptContent) res); reflexivity. }
  rewrite E, (askModel_resolved apiKey (buildPayload promptContent) v res Hv Hn).
  split; [|split].
  - intros s w Hc Hs. rewrite Hc, Hs. reflexivity.
  - intros Hc. destruct (firstChoiceContent v) eqn:Ec; try reflexivity.
    contradiction (Hc s). reflexivity.
  - intros Hch. unfold firstChoiceContent. rewrite Hch. cbn.
    rewrite app_nil_r. repeat split.
Qed.

End NodeRecovery.

Section NodeInvariants.

Context {rt : Runtime} {host : Host}.

Variable env : Env.
Variable callOpenAI : jsstring -> Payload -> option jsval.

Lemma sendFallback_shape (profile answers : jsval) (res res' : ServerResponse) :
  sendFallback profile answers res = Some res' -> exists v, res' = sendJson v res.
Proof.
  unfold sendFallback. destruct (fallbackEvaluate profile answers) as [r|e]; cbn.
  - intros H. inversion H. eauto.
  - discriminate.
Qed.

Lemma askModel_shape (apiKey : jsstring) (payload : Payload) (res res' : ServerResponse) :
  askModel callOpenAI apiKey payload res = Some res' -> exists v, res' = sendJson v res.
Proof.
  unfold askModel. destruct (callOpenAI apiKey payload) as [v|]; cbn [obind]; [|discriminate].
  destruct (isNullish v); [discriminate|].
  destruct (firstChoiceContent v) as [| | | |s| |]; cbn [obind];
    try (intros H; inversion H; eauto; fail).
  destruct (JSON_parse s) as [w|]; cbn [obind]; [|discriminate].
  intros H. inversion H. eauto.
Qed.

Lemma onEnd_shape (text : jsstring) (res : ServerResponse) :
  onEnd env callOpenAI text res = sendError 400 (lit "Invalid request payload.") res
  \/ onEnd env callOpenAI text res = sendError 500 (lit "Failed to process request") res
  \/ exists v, onEnd env callOpenAI text res = sendJson v res.
Proof.
  unfold onEnd.
  destruct (processBody env callOpenAI text res) as [res'|] eqn:E;
    [|right; left; reflexivity].
  unfold processBody in E.
  destruct (JSON_parse (if nonEmpty text then text else lit "{}")) as [parsed|];
    cbn [obind] in E; [|discriminate].
  destruct (isNullish parsed); [discriminate|].
  destruct (negb (truthy (prop parsed (lit "profile")))
            || negb (truthy (prop parsed (lit "answers")))).
  { inversion E. left. reflexivity. }
  destruct (usableKey env) as [apiKey|].
  - destruct (buildPrompt _ _ _) as [promptContent|]; cbn [obind] in E; [|discriminate].
    destruct (askModel callOpenAI apiKey (buildPayload promptContent) res) as [r1|] eqn:Ea.
    + inversion E. subst. right. right. eapply askModel_shape, Ea.
    + right. right. eapply sendFallback_shape, E.
  - right. right. eapply sendFallback_shape, E.
Qed.

(** X11.  Every request is answered and the response is ended; its status
    is 200, 400, 405 or 500, and 405 exactly when the method is not POST;
    a response of status 200 has the JSON content type; what was in the
    body before is kept. *)
Theorem node_response_invariants (chunks : list jsstring) (req : Request)
    (res : ServerResponse) :
  let res' := nodeServe env callOpenAI chunks req res in
  ended res' = true
  /\ In (statusCode res') [200; 400; 405; 500]
  /\ (statusCode res' = 200 ->
      getHeader (lit "Content-Type") (headers res') = Some (lit "application/json"))
  /\ (statusCode res' = 405 <-> method req <> lit "POST")
  /\ exists written, body res' = body res ++ written.
Proof.
  intros res'. subst res'. unfold nodeServe, nodeHandler.
  destruct (JsString.eqb (method req) (lit "POST")) eqn:Em; cbn [negb].
  - apply jsstring_eqb_eq in Em.
    destruct (onEnd_shape (readBody chunks) res) as [E | [E | (v & E)]]; rewrite E.
    + destruct (sendError_fields 400 (lit "Invalid request payload.") res)
        as (A & B & _ & D).
      rewrite A, B, D. split; [reflexivity|]. split; [simpl; tauto|].
      split; [discriminate|]. split; [|eauto].
      split; [discriminate | intros Hne; contradiction].
    + destruct (sendError_fields 500 (lit "Failed to process request") res)
        as (A & B & _ & D).
      rewrite A, B, D. split; [reflexivity|]. split; [simpl; tauto|].
      split; [discriminate|]. split; [|eauto].
      split; [discriminate | intros Hne; contradiction].
    + destruct (sendJson_fields v res) as (A & B & C & D).
      rewrite A, B, C, D. split; [reflexivity|]. split; [simpl; tauto|].
      split; [reflexivity|]. split; [|eauto].
      split; [discriminate | intros Hne; contradiction].
  - apply jsstring_eqb_neq in Em.
    split; [reflexivity|]. split; [simpl; tauto|].
    split; [discriminate|]. split; [|cbn; eauto].
    split; [intros _; exact Em | reflexivity].
Qed.

End NodeInvariants.

Section NodeAttachments.

Context {rt : Runtime} {host : Host}.

Variable env : Env.
Variable callOpenAI : jsstring -> Payload -> option jsval.

(** X12.  Without a key the answer depends on the profile and the answers
    only: attachments and any other field of the body are not read. *)
Theorem no_key_ignores_attachments (text text' : jsstring) (parsed parsed' : jsval)
    (res : ServerResponse) :
  usableKey env = None ->
  JSON_parse (requestText text) = Some parsed ->
  JSON_parse (requestText text') = Some parsed' ->
  isNullish parsed = false -> isNullish parsed' = false ->
  prop parsed' (lit "profile") = prop parsed (lit "profile") ->
  prop parsed' (lit "answers") = prop parsed (lit "answers") ->
  onEnd env callOpenAI text' res = onEnd env callOpenAI text res.
Proof.
  intros Hk Hp Hp' Hn Hn' Epr Ean. unfold requestText in *. unfold onEnd, processBody.
  rewrite Hp, Hp'. cbn [obind]. rewrite Hn, Hn', Epr, Ean, Hk. reflexivity.
Qed.

Lemma appendSections_fails (answers attachments : jsval) (q : Question)
    (qs : list Question) :
  In q qs -> questionSection answers attachments q = None ->
  forall promptContent, appendSections answers attachments qs promptContent = None.
Proof.
  intros Hin Hq. induction qs as [|q' qs IH]; [contradiction|].
  intros promptContent. cbn [appendSections].
  destruct Hin as [-> | Hin].
  - rewrite Hq. reflexivity.
  - destruct (questionSection answers attachments q'); cbn [obind]; [|reflexivity].
    apply IH, Hin.
Qed.

Lemma question_of_key (k : jsstring) :
  In k answerKeys -> exists q, In q qList /\ q_key q = k.
Proof.
  intros Hk. change answerKeys with (map q_key qList) in Hk.
  apply in_map_iff in Hk as (q & E & Hq). eauto.
Qed.

(** X13.  With a key, an attachment of one of the six questions whose
    content is truthy and has no [slice] (a number, [true], an object)
    makes the building of the prompt throw: the request is answered with
    status 500, whatever the model would answer. *)
Theorem unsliceable_attachment_fails (text : jsstring) (parsed : jsval)
    (res : ServerResponse) (apiKey k : jsstring) :
  usableKey env = Some apiKey ->
  JSON_parse (requestText text) = Some parsed ->
  truthy (prop parsed (lit "profile")) = true ->
  truthy (prop parsed (lit "answers")) = true ->
  In k answerKeys ->
  truthy (prop (prop (prop parsed (lit "attachments")) k) (lit "content")) = true ->
  slice200 (prop (prop (prop parsed (lit "attachments")) k) (lit "content")) = None ->
  let res' := onEnd env callOpenAI text res in
  statusCode res' = 500
  /\ body res' = body res ++ stringifyError (lit "Failed to process request")
  /\ ended res' = true.
Proof.
  intros Hk Hp Hpr Han Hin Hc Hs res'. subst res'. unfold onEnd.
  rewrite (processBody_with_key env callOpenAI text parsed res apiKey Hk Hp Hpr Han).
  destruct (question_of_key k Hin) as (q & Hq & Ek).
  assert (E : buildPrompt (prop parsed (lit "profile")) (prop parsed (lit "answers"))
                (prop parsed (lit "attachments")) = None).
  { unfold buildPrompt.
    destruct (profileHeader (prop parsed (lit "profile"))) as [header|]; cbn [obind];
      [|reflexivity].
    apply (appendSections_fails _ _ q); [exact Hq|].
    unfold questionSection.
    destruct (toStr (orElse (prop (prop parsed (lit "answers")) (q_key q)) (JString [])));
      cbn [obind]; [|reflexivity].
    unfold attachmentNote. rewrite Ek.
    pose proof (truthy_prop_object _ _ Hc) as H1.
    pose proof (truthy_prop_object _ _ H1) as H2.
    rewrite H2, H1, Hc. cbn [andb]. rewrite Hs. reflexivity. }
  rewrite E. repeat split.
Qed.

Lemma profileHeader_fails (profile : jsval) (field : jsstring) :
  In field profileFields -> toStr (prop profile field) = None ->
  profileHeader profile = None.
Proof.
  unfold profileFields, profileHeader.
  intros [<- | [<- | [<- | [<- | []]]]] H.
  - rewrite H. reflexivity.
  - destruct (toStr (prop profile (lit "name"))); cbn [obind]; [|reflexivity].
    rewrite H. reflexivity.
  - destruct (toStr (prop profile (lit "name"))); cbn [obind]; [|reflexivity].
    destruct (toStr (prop profile (lit "role"))); cbn [obind]; [|reflexivity].
    rewrite H. reflexivity.
  - destruct (toStr (prop profile (lit "name"))); cbn [obind]; [|reflexivity].
    destruct (toStr (prop profile (lit "role"))); cbn [obind]; [|reflexivity].
    destruct (toStr (prop profile (lit "email"))); cbn [obind]; [|reflexivity].
    rewrite H. reflexivity.
Qed.

(** X20.  With a key, a profile field named in the prompt or an answer
    that has no string form (an object with a [toString] of its own, which
    no JSON value can call) makes the building of the prompt throw: the
    request is answered with status 500, whatever the model would answer
    and although the scorer would not read that field. *)
Theorem unprintable_field_fails (text : jsstring) (parsed : jsval)
    (res : ServerResponse) (apiKey : jsstring) :
  usableKey env = Some apiKey ->
  JSON_parse (requestText text) = Some parsed ->
  truthy (prop parsed (lit "profile")) = true ->
  truthy (prop parsed (lit "answers")) = true ->
  (exists field, In field profileFields
                 /\ toStr (prop (prop parsed (lit "profile")) field) = None)
  \/ (exists k, In k answerKeys
                /\ toStr (orElse (prop (prop parsed (lit "answers")) k) (JString [])) = None) ->
  (forall fields v, lookup (lit "toString") fields = Some v -> toStr (JObject fields) = None)
  /\ buildPrompt (prop parsed (lit "profile")) (prop parsed (lit "answers"))
       (prop parsed (lit "attachments")) = None
  /\ statusCode (onEnd env callOpenAI text res) = 500
  /\ body (onEnd env callOpenAI text res)
     = body res ++ stringifyError (lit "Failed to process request")
  /\ ended (onEnd env callOpenAI text res) = true.
Proof.
  intros Hk Hp Hpr Han Hbad.
  split; [intros fields v Hv; cbn [toStr]; rewrite Hv; reflexivity|].
  assert (E : buildPrompt (prop parsed (lit "profile")) (prop parsed (lit "answers"))
                (prop parsed (lit "attachments")) = None).
  { unfold buildPrompt. destruct Hbad as [(field & Hin & Hf) | (k & Hin & Hf)].
    - rewrite (profileHeader_fails _ field Hin Hf). reflexivity.
    - destruct (profileHeader (prop parsed (lit "profile"))) as [header|]; cbn [obind];
        [|reflexivity].
      destruct (question_of_key k Hin) as (q & Hq & Ek).
      apply (appendSections_fails _ _ q); [exact Hq|].
      unfold questionSection. rewrite Ek, Hf. reflexivity. }
  split; [exact E|]. unfold onEnd.
  rewrite (processBody_with_key env callOpenAI text parsed res apiKey Hk Hp Hpr Han).
  rewrite E. repeat split.
Qed.

End NodeAttachments.

(* ===================================================================== *)
(** ** The edge handler after the method guard *)
(* ===================================================================== *)

Lemma newResponse_fields (text : jsstring) (st : Z) :
  status (newResponse text st []) = st
  /\ r_body (newResponse text st []) = text
  /\ getHeader (lit "Content-Type") (r_headers (newResponse text st []))
     = Some (lit "text/plain;charset=UTF-8").
Proof. repeat split. Qed.

Section EdgeFacts.

Context {host : Host}.

Variable env : Env.
Variable fetchOpenAI : jsstring -> jsstring -> option FetchResponse.

Lemma edgeServe_guard (onPost : Request -> Response) (req : Request) (text : jsstring) :
  method req <> lit "POST" ->
  edgeServe env fetchOpenAI req text = Some (handler onPost req).
Proof.
  intros Hm. apply jsstring_eqb_neq in Hm. unfold edgeServe, handler. rewrite Hm.
  reflexivity.
Qed.

(** X14.  Without a key the edge handler answers every POST whose body
    parses with the same demo object (band None, total 0, no dimension,
    [demo: true]), status 200 and a plain-text content type: it never
    scores the answers. *)
Theorem edge_demo_without_key (text : jsstring) (parsed : jsval) :
  usableKey env = None ->
  JSON_parse text = Some parsed -> isNullish parsed = false ->
  edgePost env fetchOpenAI text = Some (newResponse (JSON_stringify demoValue) 200 [])
  /\ getHeader (lit "Content-Type")
       (r_headers (newResponse (JSON_stringify demoValue) 200 []))
     = Some (lit "text/plain;charset=UTF-8")
  /\ prop demoValue (lit "demo") = JBool true
  /\ prop demoValue (lit "band") = JString (lit "None")
  /\ prop demoValue (lit "total") = JNumber 0
  /\ prop demoValue (lit "dimensions") = JArray [].
Proof.
  intros Hk Hp Hn. split.
  - unfold edgePost. rewrite Hp. cbn [obind]. rewrite Hn, Hk. reflexivity.
  - repeat split.
Qed.

(** X15.  When the upstream service answers with a status that is not OK,
    the edge handler answers with status 500 and hands the text of the
    upstream answer to the caller as [detail]. *)
Theorem edge_upstream_error_surfaces (text : jsstring) (parsed : jsval)
    (apiKey : jsstring) (resp : FetchResponse) :
  usableKey env = Some apiKey ->
  JSON_parse text = Some parsed -> isNullish parsed = false ->
  fetchOpenAI apiKey
    (jsonText (requestValue (orDefault (prop parsed (lit "profile")) (JObject []))
                 (orDefault (prop parsed (lit "answers")) (JObject []))))
  = Some resp ->
  ok resp = false ->
  exists r,
    edgePost env fetchOpenAI text = Some r
    /\ status r = 500
    /\ r_body r
       = JSON_stringify (JObject [ (lit "error", JString (lit "OpenAI error"));
                                   (lit "detail", JString (responseText resp)) ]).
Proof.
  intros Hk Hp Hn Hf Hok. eexists. split.
  - unfold edgePost. rewrite Hp. cbn [obind]. rewrite Hn, Hk, Hf. cbn [obind].
    rewrite Hok. reflexivity.
  - split; reflexivity.
Qed.

(** X16.  When the upstream service answers and a text is extracted from
    its answer, the edge handler answers with status 200 and the JSON
    content type whatever that text is: the parsed text when it parses,
    and the schema object with [parse_error: true] when it does not parse
    or has no string form. *)
Theorem edge_model_text_never_fails (text : jsstring) (parsed data modelText : jsval)
    (apiKey : jsstring) (resp : FetchResponse) :
  usableKey env = Some apiKey ->
  JSON_parse text = Some parsed -> isNullish parsed = false ->
  fetchOpenAI apiKey
    (jsonText (requestValue (orDefault (prop parsed (lit "profile")) (JObject []))
                 (orDefault (prop parsed (lit "answers")) (JObject []))))
  = Some resp ->
  ok resp = true ->
  JSON_parse (responseText resp) = Some data ->
  extractText data = Some modelText ->
  exists r,
    edgePost env fetchOpenAI text = Some r
    /\ status r = 200
    /\ getHeader (lit "Content-Type") (r_headers r) = Some (lit "application/json")
    /\ (toStr modelText = None -> r_body r = JSON_stringify parseErrorValue)
    /\ (forall s, toStr modelText = Some s -> JSON_parse s = None ->
          r_body r = JSON_stringify parseErrorValue)
    /\ (forall s w, toStr modelText = Some s -> JSON_parse s = Some w ->
          r_body r = jsonText w)
    /\ prop parseErrorValue (lit "parse_error") = JBool true.
Proof.
  intros Hk Hp Hn Hf Hok Hd Ht. eexists. split.
  - unfold edgePost. rewrite Hp. cbn [obind]. rewrite Hn, Hk, Hf. cbn [obind].
    rewrite Hok. cbn [negb]. rewrite Hd. cbn [obind]. rewrite Ht. cbn [obind].
    reflexivity.
  - split; [reflexivity|]. split; [reflexivity|].
    unfold safeParse. cbn [r_body newResponse].
    split; [intros ->; reflexivity|].
    split; [intros s -> Hs; cbn [obind]; rewrite Hs; reflexivity|].
    split; [intros s w -> Hs; cbn [obind]; rewrite Hs; reflexivity | reflexivity].
Qed.






(** X18.  The edge handler reads the profile and the answers of the body
    only, an absent one counting as the empty object: there is no
    validation of the body. *)
Theorem edge_defaults_missing_fields (text text' : jsstring) (parsed parsed' : jsval) :
  JSON_parse text = Some parsed -> JSON_parse text' = Some parsed' ->
  isNullish parsed = false -> isNullish parsed' = false ->
  orDefault (prop parsed' (lit "profile")) (JObject [])
  = orDefault (prop parsed (lit "profile")) (JObject []) ->
  orDefault (prop parsed' (lit "answers")) (JObject [])
  = orDefault (prop parsed (lit "answers")) (JObject []) ->
  edgePost env fetchOpenAI text' = edgePost env fetchOpenAI text.
Proof.
  intros Hp Hp' Hn Hn' Epr Ean. unfold edgePost.
  rewrite Hp, Hp'. cbn [obind]. rewrite Hn, Hn', Epr, Ean. reflexivity.
Qed.

(** X19.  A response of the edge handler has status 200, 405 or 500, never
    400; 405 exactly when the method is not POST; and no [Allow]
    header. *)
Theorem edge_response_invariants (req : Request) (text : jsstring) (r : Response) :
  edgeServe env fetchOpenAI req text = Some r ->
  In (status r) [200; 405; 500]
  /\ (status r = 405 <-> method req <> lit "POST")
  /\ (getHeader (lit "Allow") (r_headers r) = None).
Proof.
  unfold edgeServe.
  destruct (JsString.eqb (method req) (lit "POST")) eqn:Em; cbn [negb].
  - apply jsstring_eqb_eq in Em. unfold edgePost.
    destruct (JSON_parse text) as [parsed|]; cbn [obind]; [|discriminate].
    destruct (isNullish parsed); [discriminate|].
    destruct (usableKey env) as [apiKey|].
    + destruct (fetchOpenAI apiKey _) as [resp|]; cbn [obind]; [|discriminate].
      destruct (ok resp); cbn [negb].
      * destruct (JSON_parse (responseText resp)) as [data|]; cbn [obind]; [|discriminate].
        destruct (extractText data) as [t|]; cbn [obind]; [|discriminate].
        intros H. inversion H. cbn. split; [tauto|]. split; [|reflexivity].
        split; [discriminate | intros Hne; contradiction].
      * intros H. inversion H. cbn. split; [tauto|]. split; [|reflexivity].
        split; [discriminate | intros Hne; contradiction].
    + intros H. inversion H. cbn. split; [tauto|]. split; [|reflexivity].
      split; [discriminate | intros Hne; contradiction].
  - apply jsstring_eqb_neq in Em. intros H. inversion H. cbn.
    split; [tauto|]. split; [|reflexivity]. split; [intros _; exact Em | reflexivity].
Qed.

End EdgeFacts.

(* ===================================================================== *)
(** ** Runs of the handlers and of the scorer at its edges *)
(* ===================================================================== *)

Lemma missing_fields_rejected_witness :
  statusCode (@onEnd asciiRuntime sampleHost someKey rejecting [] freshResponse) = 400.
Proof.
  destruct (@missing_fields_rejected asciiRuntime sampleHost someKey rejecting []
              (JObject []) freshResponse) as (A & _).
  - vm_compute. reflexivity.
  - reflexivity.
  - left. reflexivity.
  - exact A.
Defined.

Lemma unreadable_body_fails_witness :
  statusCode (@onEnd asciiRuntime sampleHost noKey rejecting (lit "{oops") freshResponse)
  = 500.
Proof.
  destruct (@unreadable_body_fails asciiRuntime sampleHost noKey rejecting (lit "{oops")
              freshResponse) as (A & _).
  - left. vm_compute. reflexivity.
  - exact A.
Defined.

Lemma no_key_answers_from_scorer_witness :
  statusCode (@onEnd asciiRuntime sampleHost noKey rejecting (lit "sample") freshResponse)
  = 200.
Proof.
  destruct (@no_key_answers_from_scorer asciiRuntime sampleHost noKey rejecting
              (lit "sample") (plainRequest sampleProfile sampleAnswers) freshResponse)
    as (Hok & _).
  - reflexivity.
  - vm_compute. reflexivity.
  - reflexivity.
  - reflexivity.
  - apply Hok. apply wellFormedb_true. vm_compute. reflexivity.
Defined.

Lemma model_failure_recovers_witness :
  @onEnd asciiRuntime sampleHost someKey rejecting (lit "sample") freshResponse
  = @onEnd asciiRuntime sampleHost noKey rejecting (lit "sample") freshResponse.
Proof.
  destruct (@buildPrompt sampleHost sampleProfile sampleAnswers JUndefined)
    as [promptContent|] eqn:E; [|vm_compute in E; discriminate].
  apply (@model_failure_recovers asciiRuntime sampleHost someKey rejecting (lit "sample")
           (plainRequest sampleProfile sampleAnswers) freshResponse (lit "sk-test")
           promptContent).
  - reflexivity.
  - vm_compute. reflexivity.
  - reflexivity.
  - reflexivity.
  - exact E.
  - left. reflexivity.
Defined.

Lemma counted_pieces_are_words_witness :
  forallb isWord (split_ws (answerOf sampleAnswers whyChange)) = true.
Proof.
  apply (counted_pieces_are_words sampleAnswers whyChange).
  vm_compute. discriminate.
Defined.

Lemma blank_answer_witness :
  @fallbackEvaluate asciiRuntime (JObject []) blankAnswers = Ok blankReport
  /\ finalValue (coaching blankReport) = [].
Proof.
  assert (H : @fallbackEvaluate asciiRuntime (JObject []) blankAnswers = Ok blankReport)
    by (vm_compute; reflexivity).
  split; [exact H|].
  destruct (@blank_answer asciiRuntime (JObject []) blankAnswers blankReport H) as (_ & Hf).
  apply (Hf (lit "   ")).
  - vm_compute. reflexivity.
  - discriminate.
  - vm_compute. reflexivity.
Defined.

Lemma band_from_total_witness :
  @fallbackEvaluate asciiRuntime (JObject []) leadingAnswers = Ok leadingReport
  /\ band leadingReport = bandOfTotal (scoreSum (dimensions leadingReport)).
Proof.
  assert (H : @fallbackEvaluate asciiRuntime (JObject []) leadingAnswers = Ok leadingReport)
    by (vm_compute; reflexivity).
  split; [exact H|].
  destruct (@band_from_total asciiRuntime (JObject []) leadingAnswers leadingReport H)
    as (Hb & _).
  exact Hb.
Defined.

Lemma average_reads_back_witness :
  @fallbackEvaluate asciiRuntime sampleProfile sampleAnswers = Ok sampleReport
  /\ exists n, 10 <= n <= 50 /\ averageScore sampleReport = showTenths n.
Proof.
  assert (H : @fallbackEvaluate asciiRuntime sampleProfile sampleAnswers = Ok sampleReport)
    by (vm_compute; reflexivity).
  split; [exact H|].
  destruct (@average_reads_back asciiRuntime sampleProfile sampleAnswers sampleReport H)
    as (n & Hn & Hs & _).
  exists n. split; assumption.
Defined.

Lemma model_answer_passes_through_witness :
  @onEnd asciiRuntime sampleHost someKey
    (answering (chatAnswer (JString (lit "report")))) (lit "sample") freshResponse
  = @sendJson sampleHost bandReport freshResponse.
Proof.
  destruct (@buildPrompt sampleHost sampleProfile sampleAnswers JUndefined)
    as [promptContent|] eqn:E; [|vm_compute in E; discriminate].
  destruct (@model_answer_passes_through asciiRuntime sampleHost someKey
              (answering (chatAnswer (JString (lit "report")))) (lit "sample")
              (plainRequest sampleProfile sampleAnswers)
              (chatAnswer (JString (lit "report"))) freshResponse (lit "sk-test")
              promptContent) as (Hpass & _).
  - reflexivity.
  - vm_compute. reflexivity.
  - reflexivity.
  - reflexivity.
  - exact E.
  - reflexivity.
  - reflexivity.
  - apply (Hpass (lit "report")).
    + reflexivity.
    + vm_compute. reflexivity.
Defined.

Lemma no_key_ignores_attachments_witness :
  @onEnd asciiRuntime sampleHost noKey rejecting (lit "attached") freshResponse
  = @onEnd asciiRuntime sampleHost noKey rejecting (lit "sample") freshResponse.
Proof.
  apply (@no_key_ignores_attachments asciiRuntime sampleHost noKey rejecting
           (lit "sample") (lit "attached") (plainRequest sampleProfile sampleAnswers)
           attachedRequest freshResponse).
  - reflexivity.
  - vm_compute. reflexivity.
  - vm_compute. reflexivity.
  - reflexivity.
  - reflexivity.
  - reflexivity.
  - reflexivity.
Defined.

Lemma unsliceable_attachment_fails_witness :
  statusCode (@onEnd asciiRuntime sampleHost someKey rejecting (lit "attached") freshResponse)
  = 500.
Proof.
  destruct (@unsliceable_attachment_fails asciiRuntime sampleHost someKey rejecting
              (lit "attached") attachedRequest freshResponse (lit "sk-test") (lit "q2"))
    as (A & _).
  - reflexivity.
  - vm_compute. reflexivity.
  - reflexivity.
  - reflexivity.
  - unfold answerKeys. right. left. reflexivity.
  - reflexivity.
  - reflexivity.
  - exact A.
Defined.

Lemma unprintable_field_fails_witness :
  statusCode (@onEnd asciiRuntime sampleHost someKey (answering (chatAnswer bandReport))
                (lit "unprintable") freshResponse)
  = 500.
Proof.
  destruct (@unprintable_field_fails asciiRuntime sampleHost someKey
              (answering (chatAnswer bandReport)) (lit "unprintable") unprintableRequest
              freshResponse (lit "sk-test"))
    as (_ & _ & A & _).
  - reflexivity.
  - vm_compute. reflexivity.
  - reflexivity.
  - reflexivity.
  - left. exists (lit "name"). split; [left; reflexivity | reflexivity].
  - exact A.
Defined.

Lemma edge_demo_without_key_witness :
  status (newResponse (@JSON_stringify sampleHost demoValue) 200 []) = 200
  /\ @edgePost sampleHost noKey failingUpstream (lit "sample")
     = Some (newResponse (@JSON_stringify sampleHost demoValue) 200 []).
Proof.
  split; [reflexivity|].
  apply (@edge_demo_without_key sampleHost noKey failingUpstream (lit "sample")
           (plainRequest sampleProfile sampleAnswers)).
  - reflexivity.
  - vm_compute. reflexivity.
  - reflexivity.
Defined.

Lemma edge_upstream_error_surfaces_witness :
  exists r, @edgePost sampleHost someKey failingUpstream (lit "sample") = Some r
            /\ status r = 500.
Proof.
  destruct (@edge_upstream_error_surfaces sampleHost someKey failingUpstream (lit "sample")
              (plainRequest sampleProfile sampleAnswers) (lit "sk-test")
              {| ok := false; responseText := lit "quota exceeded" |})
    as (r & Hr & Hs & _).
  - reflexivity.
  - vm_compute. reflexivity.
  - reflexivity.
  - reflexivity.
  - reflexivity.
  - exists r. split; assumption.
Defined.

Lemma edge_model_text_never_fails_witness :
  exists r, @edgePost sampleHost someKey (answeringUpstream (lit "report")) (lit "sample")
            = Some r
            /\ status r = 200.
Proof.
  destruct (@edge_model_text_never_fails sampleHost someKey (answeringUpstream (lit "report"))
              (lit "sample") (plainRequest sampleProfile sampleAnswers)
              bandReport (JString [])
              (lit "sk-test") {| ok := true; responseText := lit "report" |})
    as (r & Hr & Hs & _).
  - reflexivity.
  - vm_compute. reflexivity.
  - reflexivity.
  - reflexivity.
  - reflexivity.
  - vm_compute. reflexivity.
  - vm_compute. reflexivity.
  - exists r. split; assumption.
Defined.

Lemma edge_defaults_missing_fields_witness :
  @edgePost sampleHost someKey failingUpstream (lit "report")
  = @edgePost sampleHost someKey failingUpstream (lit "{}").
Proof.
  apply (@edge_defaults_missing_fields sampleHost someKey failingUpstream (lit "{}")
           (lit "report") (JObject []) bandReport).
  - vm_compute. reflexivity.
  - vm_compute. reflexivity.
  - reflexivity.
  - reflexivity.
  - reflexivity.
  - reflexivity.
Defined.

Lemma edge_response_invariants_witness :
  In (status (newResponse (@JSON_stringify sampleHost demoValue) 200 [])) [200; 405; 500].
Proof.
  apply (@edge_response_invariants sampleHost noKey failingUpstream
           {| method := lit "POST" |} (lit "sample")).
  vm_compute. reflexivity.
Defined.
